(** * uk_politics: name resolution, colours, locations and seats

    A shallow embedding of the Python package [uk_politics]
    (modules [location], [names], [colors], [elections]) together with
    the properties its specification states about it.

    Conventions of the embedding:
    - a Python [str] is a [string] whose characters are the code points
      below 256; [str.lower], [str.strip] and [str.split] are written out
      for that range;
    - a Python [int] is a [Z];
    - [None] in an [Optional] attribute is [None];
    - a raised exception is the [Raise] case of [result];
    - logging appends an [event] to a trace; [warnings.warn] does what
      the warnings filter in force says: it raises the warning, records
      it, or drops it. *)

From Stdlib Require Import String Ascii List ZArith Lia Bool Arith Permutation.
From Stdlib Require Import Sorted OrdersEx.
From Stdlib Require Import Decimal DecimalString DecimalZ DecimalPos.
Import ListNotations.

Local Open Scope string_scope.
Local Open Scope list_scope.

(** ** Exceptions and results *)

(** The exceptions of [uk_politics.exceptions] that the modelled code
    raises, and the built-in ones it can run into. *)
Inductive exn : Type :=
| IndexError
| ValueError
| TypeError
| AttributeError
| KeyError
| PartyNicknameEmpty
| PartyNameNotFound (needle : string)
| NoColorForThisParty (needle : string)
| DataLineUnreadable (offending_line : string) (additional_context : string)
| UKPoliticsWarning.

Inductive result (A : Type) : Type :=
| Ok (a : A)
| Raise (e : exn).

Arguments Ok {A} a.
Arguments Raise {A} e.

Definition rbind {A B} (r : result A) (k : A -> result B) : result B :=
  match r with
  | Ok a => k a
  | Raise e => Raise e
  end.

(** ** Python string primitives *)

Module PyStr.

Definition in_range (lo hi n : nat) : bool := Nat.leb lo n && Nat.leb n hi.

(** [str.lower] on one code point below 256: the ASCII capitals and the
    Latin-1 capitals U+00C0..U+00DE (the multiplication sign U+00D7 is not
    a letter). *)
Definition lower_char (c : ascii) : ascii :=
  let n := nat_of_ascii c in
  if in_range 65 90 n || (in_range 192 222 n && negb (Nat.eqb n 215))
  then ascii_of_nat (n + 32)
  else c.

Fixpoint lower (s : string) : string :=
  match s with
  | EmptyString => EmptyString
  | String c r => String (lower_char c) (lower r)
  end.

(** [str.isspace] on one code point below 256. *)
Definition isspace (c : ascii) : bool :=
  let n := nat_of_ascii c in
  in_range 9 13 n || in_range 28 32 n || Nat.eqb n 133 || Nat.eqb n 160.

Fixpoint lstrip (s : string) : string :=
  match s with
  | EmptyString => EmptyString
  | String c r => if isspace c then lstrip r else s
  end.

Fixpoint rstrip (s : string) : string :=
  match s with
  | EmptyString => EmptyString
  | String c r =>
      match rstrip r with
      | EmptyString => if isspace c then EmptyString else String c EmptyString
      | r' => String c r'
      end
  end.

Definition strip (s : string) : string := rstrip (lstrip s).

(** [s.split(sep)] for a one-character separator: always at least one
    piece, empty pieces kept. *)
Fixpoint split (sep : ascii) (s : string) : list string :=
  match s with
  | EmptyString => [EmptyString]
  | String c r =>
      if Ascii.eqb c sep then EmptyString :: split sep r
      else match split sep r with
           | [] => [String c EmptyString]
           | p :: ps => String c p :: ps
           end
  end.

(** [sep.join(pieces)] *)
Definition join (sep : string) (pieces : list string) : string :=
  String.concat sep pieces.

(** [c in s] for a character [c] *)
Fixpoint contains_char (c : ascii) (s : string) : bool :=
  match s with
  | EmptyString => false
  | String d r => Ascii.eqb d c || contains_char c r
  end.

(** [str(z)] for an [int] *)
Definition str_of_int (z : Z) : string := NilZero.string_of_int (Z.to_int z).

(** The digits of a decimal literal as [int()] reads them: one or more
    digits, single underscores allowed between two digits.
    [after_digit] tells whether the previous character was a digit. *)
Fixpoint digits (s : string) (after_digit : bool) : option uint :=
  match s with
  | EmptyString => if after_digit then Some Nil else None
  | String c r =>
      if Ascii.eqb c "_"
      then if after_digit then digits r false else None
      else uint_of_char c (digits r true)
  end.

(** The characters [int()] skips around a literal, below 256: the six
    ASCII blanks, and the two Latin-1 spaces, which the conversion first
    turns into blanks.  The separators U+001C..U+001F, which [str.strip]
    drops, are not among them. *)
Definition int_space (c : ascii) : bool :=
  let n := nat_of_ascii c in
  in_range 9 13 n || Nat.eqb n 32 || Nat.eqb n 133 || Nat.eqb n 160.

Fixpoint int_lstrip (s : string) : string :=
  match s with
  | EmptyString => EmptyString
  | String c r => if int_space c then int_lstrip r else s
  end.

Fixpoint int_rstrip (s : string) : string :=
  match s with
  | EmptyString => EmptyString
  | String c r =>
      match int_rstrip r with
      | EmptyString => if int_space c then EmptyString else String c EmptyString
      | r' => String c r'
      end
  end.

(** [int(s)] in base ten: the surrounding blanks are skipped, an optional
    sign, then the digits; [None] stands for [ValueError]. *)
Definition int_of_str (s : string) : option Z :=
  match int_rstrip (int_lstrip s) with
  | String "-" body => option_map (fun u => Z.of_int (Neg u)) (digits body false)
  | String "+" body => option_map (fun u => Z.of_int (Pos u)) (digits body false)
  | body => option_map (fun u => Z.of_int (Pos u)) (digits body false)
  end.

(** [sys.int_info.default_max_str_digits]: with more decimal digits than
    this, [str] of an [int] and [int] of a literal raise [ValueError].
    [str_of_int] and [int_of_str] are the conversions within the limit;
    [within_str_digits] tells the integers [str] prints. *)
Definition max_str_digits : nat := 4300.


(** No character of the string is whitespace. *)
Fixpoint no_space (s : string) : bool :=
  match s with
  | EmptyString => true
  | String c r => negb (isspace c) && no_space r
  end.

End PyStr.

(** ** location.py *)

(** [class Location]: six optional attributes, [None] is the wildcard. *)
Record Location : Type := mkLocation {
  ons_id : option string;
  constituency : option string;
  county : option string;
  region : option string;
  country : option string;
  electorate : option Z
}.

(** [_wildcard_if_none] on a string attribute ([str(s)] is [s]). *)
Definition _wildcard_if_none (potentially_none : option string) : string :=
  match potentially_none with
  | None => "*"
  | Some s => s
  end.

(** [_wildcard_if_none] on the integer attribute. *)
Definition _wildcard_if_none_int (potentially_none : option Z) : string :=
  match potentially_none with
  | None => "*"
  | Some z => PyStr.str_of_int z
  end.

(** [Location._string_properties_list] *)
Definition _string_properties_list (self : Location) : list (option string) :=
  [ons_id self; constituency self; county self; region self; country self].

(** [Location.__repr__] *)
Definition repr (self : Location) : string :=
  PyStr.join "|" (map _wildcard_if_none (_string_properties_list self)
                  ++ [_wildcard_if_none_int (electorate self)]).

(** The loop of [_contains_loc_as_raw_string]: [index] is the position of
    the head of [props] in the enumeration. *)
Fixpoint contains_loop (props : list (option string)) (index : nat)
         (string_properties : list string) : result bool :=
  match props with
  | [] => Ok true
  | None :: rest => contains_loop rest (S index) string_properties
  | Some prop :: rest =>
      match nth_error string_properties index with
      | None => Raise IndexError
      | Some other =>
          if negb (PyStr.lower prop =? PyStr.lower other)
          then Ok false
          else contains_loop rest (S index) string_properties
      end
  end.

(** [Location._contains_loc_as_raw_string] *)
Definition _contains_loc_as_raw_string (self : Location) (raw_string : string)
  : result bool :=
  contains_loop (_string_properties_list self) 0 (PyStr.split "|" raw_string).

(** [Location.__ge__] *)
Definition __ge__ (self other : Location) : result bool :=
  _contains_loc_as_raw_string self (repr other).

(** [Location.__le__] *)
Definition __le__ (self other : Location) : result bool := __ge__ other self.

(** [from_raw_string]; [split[5]] is read first, so a string with fewer
    than six pieces raises [IndexError], and [int] raises [ValueError]. *)
Definition wildcard_to_nonetype (s : string) : option string :=
  if s =? "*" then None else Some s.

Definition from_raw_string (raw : string) : result Location :=
  match map wildcard_to_nonetype (PyStr.split "|" raw) with
  | s0 :: s1 :: s2 :: s3 :: s4 :: s5 :: _ =>
      match s5 with
      | None => Ok (mkLocation s0 s1 s2 s3 s4 None)
      | Some digits =>
          match PyStr.int_of_str digits with
          | None => Raise ValueError
          | Some n => Ok (mkLocation s0 s1 s2 s3 s4 (Some n))
          end
      end
  | _ => Raise IndexError
  end.

(** An arbitrary Python object as far as [Location.__eq__] looks at it:
    a [Location], or anything else with the string its [repr] gives. *)
Inductive pyobject : Type :=
| ObjLocation (l : Location)
| ObjOther (its_repr : string).

Definition repr_object (o : pyobject) : string :=
  match o with
  | ObjLocation l => repr l
  | ObjOther r => r
  end.

(** [Location.__eq__] *)
Definition __eq__ (self : Location) (other : pyobject) : bool :=
  repr self =? repr_object other.

(** [Location.__hash__], over the hash of strings. *)
Definition __hash__ (hash : string -> Z) (self : Location) : Z := hash (repr self).

(** Equality of two locations, as sets and dictionaries use it. *)
Definition loc_eqb (a b : Location) : bool := __eq__ a (ObjLocation b).

(** What [>=] compares a set field of the filter with: the text the
    record's field has in the canonical string. *)
Definition rendered_field_matches (a b : option string) : bool :=
  match a with
  | None => true
  | Some x => PyStr.lower x =? PyStr.lower (_wildcard_if_none b)
  end.


(** No string field holds the delimiter. *)
Definition fields_without_delimiter (l : Location) : bool :=
  forallb (fun o => negb (PyStr.contains_char "|" (_wildcard_if_none o)))
          (_string_properties_list l).

(** ** Python values, dictionaries and effects *)

(** The values that reach [names.official]: [None], the shared not-a-number
    object ([numpy.nan], what pandas puts in an empty cell), a string or a
    boolean. *)
Inductive pyvalue : Type :=
| VNone
| VNaN
| VStr (s : string)
| VBool (b : bool).

(** Truth value of an object in a condition. *)
Definition truthy (v : pyvalue) : bool :=
  match v with
  | VNone => false
  | VNaN => true
  | VStr s => negb (s =? "")
  | VBool b => b
  end.

(** [pandas.isna] on a scalar. *)
Definition isna (v : pyvalue) : bool :=
  match v with
  | VNone | VNaN => true
  | _ => false
  end.

(** [==] on values; the one [nan] object is found equal to itself when
    tuples and dictionary keys are compared. *)
Definition pyvalue_eqb (a b : pyvalue) : bool :=
  match a, b with
  | VNone, VNone => true
  | VNaN, VNaN => true
  | VStr s, VStr t => s =? t
  | VBool x, VBool y => Bool.eqb x y
  | _, _ => false
  end.

(** [v == s] for a string literal [s]. *)
Definition eq_str (v : pyvalue) (s : string) : bool := pyvalue_eqb v (VStr s).

(** [o == s] for an [Optional[str]] attribute. *)
Definition opt_eq_str (o : option string) (s : string) : bool :=
  match o with
  | Some t => t =? s
  | None => false
  end.

(** A [dict] with string keys, in insertion order. *)
Definition dict (V : Type) : Type := list (string * V).

Fixpoint dict_get {V} (d : dict V) (k : string) : option V :=
  match d with
  | [] => None
  | (k', v) :: r => if k' =? k then Some v else dict_get r k
  end.

(** [d[k] = v]: an existing key keeps its place, a new one goes last. *)
Fixpoint dict_set {V} (k : string) (v : V) (d : dict V) : dict V :=
  match d with
  | [] => [(k, v)]
  | (k', v') :: r => if k' =? k then (k', v) :: r else (k', v') :: dict_set k v r
  end.

Definition dict_keys {V} (d : dict V) : list string := map fst d.

(** What the program does besides returning: a run of the fuzzy search,
    the rename warning of [names.official] on the logger, and the warning
    of [colors.by_official_party_name] when [warnings.warn] shows it. *)
Inductive event : Type :=
| FuzzySearch (query : string)
| RenameWarning (nickname proper_name : string)
| GreenPartyWarning.

(** What the warnings filter in force does with one call of
    [warnings.warn]: the action [error] raises the warning as an
    exception; [always], and [default], [module] and [once] at a first
    occurrence, show it; [ignore], and the three at a repeat, drop it. *)
Inductive warning_action : Type :=
| ActionError
| ActionShow
| ActionIgnore.

(** A call as [functools.lru_cache] sees it: the positional arguments and
    the keyword arguments in the order they were written.  This pair is
    the cache key. *)
Record call : Type := mkCall {
  args : list pyvalue;
  kwds : list (string * pyvalue)
}.

Fixpoint args_eqb (a b : list pyvalue) : bool :=
  match a, b with
  | [], [] => true
  | x :: a', y :: b' => pyvalue_eqb x y && args_eqb a' b'
  | _, _ => false
  end.

Fixpoint kwds_eqb (a b : list (string * pyvalue)) : bool :=
  match a, b with
  | [], [] => true
  | (k, x) :: a', (l, y) :: b' => (k =? l) && pyvalue_eqb x y && kwds_eqb a' b'
  | _, _ => false
  end.

Definition call_eqb (a b : call) : bool :=
  args_eqb (args a) (args b) && kwds_eqb (kwds a) (kwds b).

(** The process state: the cache of [names.official] (most recently used
    entry first) and the trace of events so far (oldest first). *)
Record world : Type := mkWorld {
  cache : list (call * option string);
  trace : list event
}.

Definition initial_world : world := mkWorld [] [].

(** Computations that may raise and that read and change the [world]. *)
Definition M (A : Type) : Type := world -> result A * world.

Definition ret {A} (a : A) : M A := fun w => (Ok a, w).

Definition raise {A} (e : exn) : M A := fun w => (Raise e, w).

Definition bind {A B} (m : M A) (k : A -> M B) : M B :=
  fun w =>
    match m w with
    | (Ok a, w') => k a w'
    | (Raise e, w') => (Raise e, w')
    end.

Definition lift {A} (r : result A) : M A := fun w => (r, w).

Definition emit (evs : list event) : M unit :=
  fun w => (Ok tt, mkWorld (cache w) (trace w ++ evs)).

Notation "x <- m ;; k" := (bind m (fun x => k))
  (at level 61, m at next level, right associativity).

(** [warnings.warn(message, exceptions.UKPoliticsWarning)] *)
Definition warn (action : warning_action) (ev : event) : M unit :=
  match action with
  | ActionError => raise UKPoliticsWarning
  | ActionShow => emit [ev]
  | ActionIgnore => ret tt
  end.

(** ** names.py *)

Section Names.

(** [data_tables.PARTY_NICKNAMES], read from a data file. *)
Variable PARTY_NICKNAMES : dict string.

(** [fuzzywuzzy.process.extractOne]: the best choice with its score, or
    [None] when there is no choice. *)
Variable extractOne : string -> list string -> option (string * Z).

(** The body of [official], before [functools.lru_cache] wraps it: the
    value returned or the exception raised, and the events on the way. *)
Definition official__wrapped__
  (nickname allow_fuzzy_match warn_on_fuzzy_match exception_on_null_value : pyvalue)
  : result (option string) * list event :=
  if isna nickname then
    if truthy exception_on_null_value
    then (Raise PartyNicknameEmpty, [])
    else (Ok None, [])
  else
    match nickname with
    | VStr s =>
        let nickname := PyStr.strip (PyStr.lower s) in
        if Nat.eqb (String.length nickname) 0 then (Raise PartyNicknameEmpty, [])
        else
          match dict_get PARTY_NICKNAMES nickname with
          | Some name => (Ok (Some name), [])
          | None =>
              if truthy allow_fuzzy_match then
                match extractOne nickname (dict_keys PARTY_NICKNAMES) with
                | None => (Raise TypeError, [FuzzySearch nickname])
                | Some (fuzzy_matched, _) =>
                    match dict_get PARTY_NICKNAMES fuzzy_matched with
                    | None => (Raise KeyError, [FuzzySearch nickname])
                    | Some proper_name =>
                        if truthy warn_on_fuzzy_match
                        then (Ok (Some proper_name),
                              [FuzzySearch nickname; RenameWarning nickname proper_name])
                        else (Ok (Some proper_name), [FuzzySearch nickname])
                    end
                end
              else (Raise (PartyNameNotFound nickname), [])
          end
    | _ => (Raise AttributeError, [])
    end.

(** Binding a call to the parameters
    [(nickname, allow_fuzzy_match=True, warn_on_fuzzy_match=True,
      exception_on_null_value=False)]. *)
Definition slots : Type :=
  (option pyvalue * option pyvalue * option pyvalue * option pyvalue)%type.

Definition bind_positional (a : list pyvalue) : option slots :=
  match a with
  | [] => Some (None, None, None, None)
  | [n] => Some (Some n, None, None, None)
  | [n; f] => Some (Some n, Some f, None, None)
  | [n; f; w] => Some (Some n, Some f, Some w, None)
  | [n; f; w; e] => Some (Some n, Some f, Some w, Some e)
  | _ => None
  end.

Definition bind_keyword (name : string) (v : pyvalue) (s : slots) : option slots :=
  let '(n, f, w, e) := s in
  if name =? "nickname" then
    match n with None => Some (Some v, f, w, e) | Some _ => None end
  else if name =? "allow_fuzzy_match" then
    match f with None => Some (n, Some v, w, e) | Some _ => None end
  else if name =? "warn_on_fuzzy_match" then
    match w with None => Some (n, f, Some v, e) | Some _ => None end
  else if name =? "exception_on_null_value" then
    match e with None => Some (n, f, w, Some v) | Some _ => None end
  else None.

Fixpoint bind_keywords (kw : list (string * pyvalue)) (s : slots) : option slots :=
  match kw with
  | [] => Some s
  | (name, v) :: r =>
      match bind_keyword name v s with
      | Some s' => bind_keywords r s'
      | None => None
      end
  end.

Definition with_default (o : option pyvalue) (d : pyvalue) : pyvalue :=
  match o with Some v => v | None => d end.

(** The four arguments the body runs with; [None] is the [TypeError] of a
    call that does not fit the signature. *)
Definition bind_arguments (c : call)
  : option (pyvalue * pyvalue * pyvalue * pyvalue) :=
  match bind_positional (args c) with
  | None => None
  | Some s =>
      match bind_keywords (kwds c) s with
      | Some (Some n, f, w, e) =>
          Some (n, with_default f (VBool true), with_default w (VBool true),
                with_default e (VBool false))
      | _ => None
      end
  end.

Definition call_wrapped (c : call) : result (option string) * list event :=
  match bind_arguments c with
  | None => (Raise TypeError, [])
  | Some (n, f, w, e) => official__wrapped__ n f w e
  end.

(** [functools.lru_cache] without arguments keeps 128 entries. *)
Definition maxsize : nat := 128.

Fixpoint cache_find (k : call) (c : list (call * option string))
  : option (option string) :=
  match c with
  | [] => None
  | (k', v) :: r => if call_eqb k' k then Some v else cache_find k r
  end.

Definition cache_remove (k : call) (c : list (call * option string))
  : list (call * option string) :=
  filter (fun entry => negb (call_eqb (fst entry) k)) c.

(** [names.official], the cached function.  A hit returns the stored value
    and makes the entry the most recent one; a miss runs the body, and
    when the body returns stores the value, dropping the least recently
    used entry of a full cache.  An exception is not stored. *)
Definition official (c : call) : M (option string) :=
  fun w =>
    match cache_find c (cache w) with
    | Some v => (Ok v, mkWorld ((c, v) :: cache_remove c (cache w)) (trace w))
    | None =>
        match call_wrapped c with
        | (Ok v, evs) =>
            (Ok v, mkWorld (firstn maxsize ((c, v) :: cache w)) (trace w ++ evs))
        | (Raise e, evs) => (Raise e, mkWorld (cache w) (trace w ++ evs))
        end
    end.

(** A sequence of calls, one after the other, whatever each one gives. *)
Fixpoint run_calls (cs : list call) (w : world) : world :=
  match cs with
  | [] => w
  | c :: r => run_calls r (snd (official c w))
  end.

(** Every stored value is what the body returns for its key. *)
Definition cache_sound (c : list (call * option string)) : Prop :=
  forall k v, In (k, v) c -> fst (call_wrapped k) = Ok v.

End Names.

(** ** colors.py *)

Section Colors.

(** [data_tables.PARTY_COLORS], read from a data file. *)
Variable PARTY_COLORS : dict string.

(** [by_official_party_name], under the action the warnings filter takes
    for its warning. *)
Definition by_official_party_name (action : warning_action)
    (party_name : option string) : M (option string) :=
  match party_name with
  | None => ret None
  | Some party_name =>
      match dict_get PARTY_COLORS party_name with
      | Some color =>
          _ <- (if party_name =? "Green Party" then warn action GreenPartyWarning
                else ret tt) ;;
          ret (Some color)
      | None => raise (NoColorForThisParty party_name)
      end
  end.

(** The colour the table holds, with no effect at all: what the lookup is
    compared with. *)
Definition stored_color (party_name : option string) : result (option string) :=
  match party_name with
  | None => Ok None
  | Some n =>
      match dict_get PARTY_COLORS n with
      | Some color => Ok (Some color)
      | None => Raise (NoColorForThisParty n)
      end
  end.

End Colors.

(** ** elections.py *)

(** [datetime.date] *)
Record datetime_date : Type := mkDate {
  year : Z;
  month : Z;
  day : Z
}.

Definition date_eqb (a b : datetime_date) : bool :=
  Z.eqb (year a) (year b) && Z.eqb (month a) (month b) && Z.eqb (day a) (day b).

(** [class VoteTotal] *)
Record VoteTotal : Type := mkVoteTotal {
  location : Location;
  date : datetime_date;
  party : string;
  party_contemporary_styling : pyvalue;
  votes : Z
}.

(** The cell of the votes column: pandas reads a column of numbers as
    integers, and leaves text as it is. *)
Inductive votes_cell : Type :=
| VotesInt (n : Z)
| VotesStr (s : string).

(** A row of the data frame of [GE_results.tsv], as [iterrows] hands it
    over: location, ISO date, party as recorded (not a string when the
    cell is empty) and votes. *)
Record raw_line : Type := mkLine {
  line0 : string;
  line1 : string;
  line2 : pyvalue;
  line3 : votes_cell
}.

(** [int(line[3])] *)
Definition int_of_cell (c : votes_cell) : result Z :=
  match c with
  | VotesInt n => Ok n
  | VotesStr s =>
      match PyStr.int_of_str s with
      | Some n => Ok n
      | None => Raise ValueError
      end
  end.

(** ["\t".join(line)]: [str.join] takes strings only. *)
Definition join_line (line : raw_line) : result string :=
  match line2 line, line3 line with
  | VStr p, VotesStr v =>
      Ok (PyStr.join (String (ascii_of_nat 9) EmptyString) [line0 line; line1 line; p; v])
  | _, _ => Raise TypeError
  end.

Section Elections.

Variable PARTY_NICKNAMES : dict string.
Variable extractOne : string -> list string -> option (string * Z).

(** [datetime.datetime.strptime(s, "%Y-%m-%d").date()]; [None] is its
    [ValueError]. *)
Variable strptime_date : string -> option datetime_date.

(** [_vote_line_to_object] *)
Definition _vote_line_to_object (line : raw_line) : M VoteTotal :=
  count_location <- lift (from_raw_string (line0 line)) ;;
  let party_contemporary_styling := line2 line in
  let party_contemporary_styling :=
    if eq_str party_contemporary_styling "PC/SNP" then
      if opt_eq_str (country count_location) "Scotland" then VStr "SNP"
      else if opt_eq_str (country count_location) "Wales" then VStr "PC"
      else party_contemporary_styling
    else if eq_str party_contemporary_styling "Green" then
      if opt_eq_str (country count_location) "Scotland"
      then VStr "Scottish Green Party"
      else if opt_eq_str (country count_location) "Northern Ireland"
      then VStr "Green Party Northern Ireland"
      else VStr "Green Party of England and Wales"
    else party_contemporary_styling in
  party_official_name <-
    official PARTY_NICKNAMES extractOne
      (mkCall [party_contemporary_styling] [("warn_on_fuzzy_match", VBool true)]) ;;
  match party_official_name with
  | None =>
      offending_line <- lift (join_line line) ;;
      raise (DataLineUnreadable offending_line "party name could not be read")
  | Some party_official_name =>
      d <- lift (match strptime_date (line1 line) with
                 | Some d => Ok d
                 | None => Raise ValueError
                 end) ;;
      n <- lift (int_of_cell (line3 line)) ;;
      ret (mkVoteTotal count_location d party_official_name
                       party_contemporary_styling n)
  end.

(** What [_vote_line_to_object] does once the label is settled: the call
    of the name resolver and the construction of the record. *)
Definition after_relabelling (line : raw_line) (count_location : Location)
           (party_contemporary_styling : pyvalue) : M VoteTotal :=
  party_official_name <-
    official PARTY_NICKNAMES extractOne
      (mkCall [party_contemporary_styling] [("warn_on_fuzzy_match", VBool true)]) ;;
  match party_official_name with
  | None =>
      offending_line <- lift (join_line line) ;;
      raise (DataLineUnreadable offending_line "party name could not be read")
  | Some party_official_name =>
      d <- lift (match strptime_date (line1 line) with
                 | Some d => Ok d
                 | None => Raise ValueError
                 end) ;;
      n <- lift (int_of_cell (line3 line)) ;;
      ret (mkVoteTotal count_location d party_official_name
                       party_contemporary_styling n)
  end.

(** [COUNTS]: every line in turn; the first exception ends the import. *)
Fixpoint read_counts (lines : list raw_line) : M (list VoteTotal) :=
  match lines with
  | [] => ret []
  | line :: rest =>
      v <- _vote_line_to_object line ;;
      vs <- read_counts rest ;;
      ret (v :: vs)
  end.

End Elections.

(** A list comprehension with a condition that may raise. *)
Fixpoint filter_result {A} (cond : A -> result bool) (l : list A) : result (list A) :=
  match l with
  | [] => Ok []
  | x :: r =>
      rbind (cond x) (fun keep =>
      rbind (filter_result cond r) (fun r' =>
      Ok (if keep then x :: r' else r')))
  end.

(** A set of locations built by adding the elements of a list one by one:
    an element equal to one already there is not added.  The order of a
    Python set is not specified; the order of arrival stands for it. *)
Fixpoint set_add (l : Location) (s : list Location) : list Location :=
  match s with
  | [] => [l]
  | x :: r => if loc_eqb x l then x :: r else x :: set_add l r
  end.

Definition set_of_list (ls : list Location) : list Location :=
  fold_left (fun s l => set_add l s) ls [].

(** [d[loc] = winner] on a dictionary with [Location] keys. *)
Fixpoint loc_dict_set (k : Location) (v : string) (d : list (Location * string))
  : list (Location * string) :=
  match d with
  | [] => [(k, v)]
  | (k', v') :: r =>
      if loc_eqb k' k then (k', v) :: r else (k', v') :: loc_dict_set k v r
  end.

(** [{count.party: count.votes for count in counts if count.location == loc}] *)
Definition party_counts_of (counts : list VoteTotal) (loc : Location) : dict Z :=
  fold_left (fun d count =>
               if loc_eqb (location count) loc
               then dict_set (party count) (votes count) d
               else d)
            counts [].

(** [max(counter.keys(), key=lambda x: counter[x])]: the first key whose
    value no later value exceeds; [None] is the [ValueError] of an empty
    dictionary.  The value under a key is read from its own entry. *)
Definition max_key (counter : dict Z) : option string :=
  match counter with
  | [] => None
  | first :: rest =>
      Some (fst (fold_left (fun best entry =>
                              if Z.ltb (snd best) (snd entry) then entry else best)
                           rest first))
  end.

(** The loop of [seats] over the set of locations. *)
Fixpoint winners_loop (counts : list VoteTotal) (locations : list Location)
         (constituency_winners : list (Location * string))
  : result (list (Location * string)) :=
  match locations with
  | [] => Ok constituency_winners
  | loc :: rest =>
      match max_key (party_counts_of counts loc) with
      | None => Raise ValueError
      | Some winner =>
          winners_loop counts rest (loc_dict_set loc winner constituency_winners)
      end
  end.

(** [seats]; [COUNTS] is the module's list of vote totals. *)
Definition seats (COUNTS : list VoteTotal) (date_ : datetime_date)
           (location_filter : option Location)
  : result (list (Location * string)) :=
  let location_filter :=
    match location_filter with
    | None => mkLocation None None None None None None
    | Some f => f
    end in
  rbind (filter_result
           (fun count =>
              rbind (__ge__ location_filter (location count)) (fun matched =>
              Ok (if matched then date_eqb (date count) date_ else false)))
           COUNTS) (fun counts_for_this_date =>
  let locations := set_of_list (map location counts_for_this_date) in
  winners_loop counts_for_this_date locations []).

(** ** Vocabulary for the properties of [seats] *)

(** The answer of [>=], which never raises on two locations. *)
Definition ge_bool (a b : Location) : bool :=
  match __ge__ a b with
  | Ok r => r
  | Raise _ => false
  end.

(** The filter [seats] works with when none is given. *)
Definition filter_or_any (location_filter : option Location) : Location :=
  match location_filter with
  | None => mkLocation None None None None None None
  | Some f => f
  end.

(** The condition of the comprehension [counts_for_this_date]. *)
Definition selects (d : datetime_date) (f : Location) (c : VoteTotal) : bool :=
  ge_bool f (location c) && date_eqb (date c) d.

(** The last element of a list that passes a test. *)
Fixpoint last_matching {A} (test : A -> bool) (l : list A) : option A :=
  match l with
  | [] => None
  | x :: r =>
      match last_matching test r with
      | Some y => Some y
      | None => if test x then Some x else None
      end
  end.

(** The vote count of a party at a location: that of its last record
    among the selected ones. *)
Definition recorded_votes (COUNTS : list VoteTotal) (d : datetime_date)
           (f : Location) (loc : Location) (p : string) : option Z :=
  option_map votes
    (last_matching (fun c => selects d f c && loc_eqb (location c) loc
                             && (party c =? p))
                   COUNTS).

(** The canonical strings of the selected record locations. *)
Definition reporting (COUNTS : list VoteTotal) (d : datetime_date) (f : Location)
  : list string :=
  map (fun c => repr (location c)) (filter (selects d f) COUNTS).

(** The steps of the three folds of [seats], by name. *)
Definition set_fold (ls acc : list Location) : list Location :=
  fold_left (fun s l => set_add l s) ls acc.

Definition counts_step (loc : Location) (d : dict Z) (count : VoteTotal) : dict Z :=
  if loc_eqb (location count) loc
  then dict_set (party count) (votes count) d
  else d.

Definition better (best entry : string * Z) : string * Z :=
  if Z.ltb (snd best) (snd entry) then entry else best.

(** The party [seats] picks for a location among the given records. *)
Definition winner_at (counts : list VoteTotal) (loc : Location) : string :=
  match max_key (party_counts_of counts loc) with
  | Some p => p
  | None => EmptyString
  end.

(** Two records for the same party, location and date. *)
Definition same_combination (a b : VoteTotal) : bool :=
  (party a =? party b)
  && loc_eqb (location a) (location b)
  && date_eqb (date a) (date b).

(** The list holds one record for each party / location / date
    combination, as [elections.py] says of [COUNTS]. *)
Fixpoint one_record_per_combination (counts : list VoteTotal) : bool :=
  match counts with
  | [] => true
  | c :: r =>
      forallb (fun c' => negb (same_combination c c')) r
      && one_record_per_combination r
  end.

(** ** The statements of the specification, as it words them *)

Module Spec.

(** A field of the filter against the field of the record, field by
    field: an unset field of the filter matches anything, a set one needs
    the same text, whatever the case of the letters. *)
Definition string_field_matches (a b : option string) : bool :=
  match a, b with
  | None, _ => true
  | Some x, Some y => PyStr.lower x =? PyStr.lower y
  | Some _, None => false
  end.

Definition int_field_matches (a b : option Z) : bool :=
  match a, b with
  | None, _ => true
  | Some x, Some y => Z.eqb x y
  | Some _, None => false
  end.

(** [compareGeneralTo] over the six fields. *)
Definition compareGeneralTo (a b : Location) : bool :=
  string_field_matches (ons_id a) (ons_id b)
  && string_field_matches (constituency a) (constituency b)
  && string_field_matches (county a) (county b)
  && string_field_matches (region a) (region b)
  && string_field_matches (country a) (country b)
  && int_field_matches (electorate a) (electorate b).

(** The relabelling of a recorded party label by the country of the
    record, one rule per case. *)
Inductive relabels : option string -> pyvalue -> pyvalue -> Prop :=
| relabel_pcsnp_scotland :
    relabels (Some "Scotland") (VStr "PC/SNP") (VStr "SNP")
| relabel_pcsnp_wales :
    relabels (Some "Wales") (VStr "PC/SNP") (VStr "PC")
| relabel_green_scotland :
    relabels (Some "Scotland") (VStr "Green") (VStr "Scottish Green Party")
| relabel_green_northern_ireland :
    relabels (Some "Northern Ireland") (VStr "Green")
             (VStr "Green Party Northern Ireland")
| relabel_green_otherwise c :
    c <> Some "Scotland" -> c <> Some "Northern Ireland" ->
    relabels c (VStr "Green") (VStr "Green Party of England and Wales")
| relabel_other c label :
    label <> VStr "PC/SNP" -> label <> VStr "Green" ->
    relabels c label label.

(** The records of [COUNTS] for a date that a filter matches. *)
Definition selected (COUNTS : list VoteTotal) (d : datetime_date) (f : Location)
           (c : VoteTotal) : Prop :=
  In c COUNTS /\ date_eqb (date c) d = true /\ __ge__ f (location c) = Ok true.

(** A party attains the maximum vote count among the records of a
    location. *)
Definition attains_maximum (COUNTS : list VoteTotal) (d : datetime_date)
           (f : Location) (loc : Location) (p : string) : Prop :=
  (exists c, selected COUNTS d f c /\ loc_eqb (location c) loc = true
             /\ party c = p
             /\ forall c', selected COUNTS d f c' ->
                           loc_eqb (location c') loc = true ->
                           (votes c' <= votes c)%Z).

End Spec.

(** ** Small tables to run the definitions on *)

Module Sample.

Definition nicknames : dict string :=
  [("conservative party", "Conservative and Unionist Party");
   ("conservative and unionist party", "Conservative and Unionist Party");
   ("tory", "Conservative and Unionist Party");
   ("labour party", "Labour Party");
   ("labour", "Labour Party");
   ("green party", "Green Party")].

(** A table with an empty nickname cell. *)
Definition nicknames_with_empty_key : dict string :=
  ("", "Labour Party") :: nicknames.

(** A stand-in for the fuzzy search: the first choice, with score 0. *)
Definition first_choice (query : string) (choices : list string)
  : option (string * Z) :=
  match choices with
  | [] => None
  | c :: _ => Some (c, 0%Z)
  end.

Definition colors : dict string :=
  [("Labour Party", "#E4003B"); ("Green Party", "#6AB023")].

(** A colour for every official name of [nicknames]. *)
Definition colors_of_every_name : dict string :=
  ("Conservative and Unionist Party", "#0087DC") :: colors.

(** Every date string reads as the same day. *)
Definition one_day (s : string) : option datetime_date :=
  Some (mkDate 2019 12 12).

(** [official("x0")], [official("x1")], and so on. *)
Definition numbered_call (i : nat) : call :=
  mkCall [VStr (String "x" (NilEmpty.string_of_uint (Nat.to_uint i)))] [].

Definition numbered_calls (n : nat) : list call := map numbered_call (seq 0 n).

Definition gower : Location :=
  mkLocation None (Some "GOWER") (Some "West Glamorgan") (Some "Wales")
             (Some "Wales") (Some 61762%Z).

Definition election_day : datetime_date := mkDate 2019 12 12.

(** Two records for one party at one place and date. *)
Definition counts_with_two_records : list VoteTotal :=
  [mkVoteTotal gower election_day "Labour Party" (VStr "Lab") 100;
   mkVoteTotal gower election_day "Labour Party" (VStr "Labour") 1;
   mkVoteTotal gower election_day "Conservative and Unionist Party" (VStr "Con") 50].

Definition swansea_west : Location :=
  mkLocation None (Some "SWANSEA WEST") (Some "West Glamorgan") (Some "Wales")
             (Some "Wales") (Some 57078%Z).

(** One record for each party, place and date. *)
Definition counts_one_record_each : list VoteTotal :=
  [mkVoteTotal gower election_day "Labour Party" (VStr "Lab") 20208;
   mkVoteTotal gower election_day "Conservative and Unionist Party" (VStr "Con") 18371;
   mkVoteTotal swansea_west election_day "Labour Party" (VStr "Lab") 18493;
   mkVoteTotal swansea_west election_day "Conservative and Unionist Party"
               (VStr "Con") 10377;
   mkVoteTotal gower (mkDate 2017 6 8) "Conservative and Unionist Party"
               (VStr "Con") 99999].

(** A row whose party cell is empty. *)
Definition line_without_party : raw_line :=
  mkLine "*|GOWER|West Glamorgan|Wales|Wales|61762" "2019-12-12" VNaN (VotesInt 0).

End Sample.

(** How many rename warnings for a nickname a trace holds. *)
Definition rename_warnings (nickname : string) (t : list event) : nat :=
  length (filter (fun e => match e with
                           | RenameWarning n _ => n =? nickname
                           | _ => false
                           end) t).

(** How many times the fuzzy search ran on a query. *)
Definition fuzzy_searches (query : string) (t : list event) : nat :=
  length (filter (fun e => match e with
                           | FuzzySearch q => q =? query
                           | _ => false
                           end) t).

(** ** The rest of the package *)

(** *** names.short *)

(** [short]: the lookup is made with the lower-cased name, which is also
    what the exception reports. *)
Definition short (PARTY_SHORTNAMES : dict string) (official_name : option string)
  : result (option string) :=
  match official_name with
  | None => Ok None
  | Some official_name =>
      let official_name := PyStr.lower official_name in
      match dict_get PARTY_SHORTNAMES official_name with
      | Some short_name => Ok (Some short_name)
      | None => Raise (PartyNameNotFound official_name)
      end
  end.

(** *** data_tables.py, from the rows [csv.reader] yields *)

(** [for nickname in row[2:]: nicknames_to_official[nickname.lower()] = official] *)
Fixpoint set_nicknames (official : string) (nicknames : list string)
         (nicknames_to_official : dict string) : dict string :=
  match nicknames with
  | [] => nicknames_to_official
  | nickname :: rest =>
      set_nicknames official rest
                    (dict_set (PyStr.lower nickname) official nicknames_to_official)
  end.

(** The body of the loop of [read_nicknames_file] over one row; a row with
    fewer than two cells raises [IndexError]. *)
Definition nicknames_row (row : list string) (tables : dict string * dict string)
  : result (dict string * dict string) :=
  match row with
  | row0 :: row1 :: others =>
      let official := PyStr.strip row0 in
      let short_ := PyStr.strip row1 in
      let nicknames_to_official := dict_set (PyStr.lower short_) official (fst tables) in
      let nicknames_to_official :=
        dict_set (PyStr.lower official) official nicknames_to_official in
      let official_to_short_name :=
        dict_set (PyStr.lower official) short_ (snd tables) in
      Ok (set_nicknames official others nicknames_to_official, official_to_short_name)
  | _ => Raise IndexError
  end.

Fixpoint nicknames_rows (rows : list (list string)) (tables : dict string * dict string)
  : result (dict string * dict string) :=
  match rows with
  | [] => Ok tables
  | row :: rest => rbind (nicknames_row row tables) (nicknames_rows rest)
  end.

(** [read_nicknames_file]: the two tables, the Green Party set by hand at
    the end. *)
Definition read_nicknames_file (rows : list (list string))
  : result (dict string * dict string) :=
  rbind (nicknames_rows rows ([], [])) (fun tables =>
  Ok (dict_set "green party" "Green Party" (fst tables), snd tables)).

(** [read_csv_to_dict]: [{rows[0]: rows[1] for rows in csv_reader}] *)
Fixpoint csv_rows_to_dict (rows : list (list string)) (mapping : dict string)
  : result (dict string) :=
  match rows with
  | [] => Ok mapping
  | (rows0 :: rows1 :: _) :: rest => csv_rows_to_dict rest (dict_set rows0 rows1 mapping)
  | _ :: _ => Raise IndexError
  end.

Definition read_csv_to_dict (rows : list (list string)) : result (dict string) :=
  csv_rows_to_dict rows [].

(** *** __init__.py *)

Section TopLevel.

Variable PARTY_NICKNAMES : dict string.
Variable extractOne : string -> list string -> option (string * Z).
Variable PARTY_SHORTNAMES : dict string.
Variable PARTY_COLORS : dict string.

(** [uk_politics.color], under the action the warnings filter takes for
    the warning of [colors.by_official_party_name]. *)
Definition color (action : warning_action) (party_name_or_nickname : pyvalue)
  : M (option string) :=
  official_name <-
    official PARTY_NICKNAMES extractOne (mkCall [party_name_or_nickname] []) ;;
  by_official_party_name PARTY_COLORS action official_name.

(** [uk_politics.find_party], on its three arguments once bound. *)
Definition find_party (nickname return_short_name allow_fuzzy : pyvalue)
  : M (option string) :=
  official_name <-
    official PARTY_NICKNAMES extractOne
      (mkCall [nickname] [("allow_fuzzy_match", allow_fuzzy)]) ;;
  if truthy return_short_name
  then lift (short PARTY_SHORTNAMES official_name)
  else ret official_name.

End TopLevel.

(** *** elections.py: [ran], [DATES], [MOST_RECENT_ELECTION_DATE] *)

(** [sorted] on a list without equal elements, by insertion: with a total
    order there is one sorted arrangement. *)
Fixpoint insert_sorted {A} (leb : A -> A -> bool) (x : A) (l : list A) : list A :=
  match l with
  | [] => [x]
  | y :: r => if leb x y then x :: y :: r else y :: insert_sorted leb x r
  end.

Definition py_sorted {A} (leb : A -> A -> bool) (l : list A) : list A :=
  fold_right (insert_sorted leb) [] l.

(** A set built from a list: an element already there is not added. *)
Fixpoint py_set_add {A} (eqb : A -> A -> bool) (x : A) (s : list A) : list A :=
  match s with
  | [] => [x]
  | y :: r => if eqb y x then y :: r else y :: py_set_add eqb x r
  end.

Definition py_set {A} (eqb : A -> A -> bool) (l : list A) : list A :=
  fold_left (fun s x => py_set_add eqb x s) l [].

(** [ran]; without a filter no location is compared. *)
Definition ran (COUNTS : list VoteTotal) (date_ : datetime_date)
           (location_filter : option Location) : result (list string) :=
  match location_filter with
  | None =>
      let parties :=
        py_set String.eqb
               (map party (filter (fun count => date_eqb date_ (date count)) COUNTS)) in
      Ok (py_sorted String.leb parties)
  | Some location_filter =>
      rbind (filter_result
               (fun count =>
                  rbind (__ge__ location_filter (location count)) (fun matched =>
                  Ok (if matched then date_eqb date_ (date count) else false)))
               COUNTS) (fun selected =>
      Ok (py_sorted String.leb (py_set String.eqb (map party selected))))
  end.

(** The order of [datetime.date]: year, then month, then day. *)
Definition date_leb (a b : datetime_date) : bool :=
  Z.ltb (year a) (year b)
  || (Z.eqb (year a) (year b)
      && (Z.ltb (month a) (month b)
          || (Z.eqb (month a) (month b) && Z.leb (day a) (day b)))).

(** [DATES] *)
Definition DATES (COUNTS : list VoteTotal) : list datetime_date :=
  py_sorted date_leb (py_set date_eqb (map date COUNTS)).

(** [max] on a list: the first of the greatest elements; [None] is the
    [ValueError] of an empty list. *)
Definition py_max {A} (leb : A -> A -> bool) (l : list A) : option A :=
  match l with
  | [] => None
  | first :: rest =>
      Some (fold_left (fun best x => if leb x best then best else x) rest first)
  end.

(** [MOST_RECENT_ELECTION_DATE] *)
Definition MOST_RECENT_ELECTION_DATE (COUNTS : list VoteTotal) : result datetime_date :=
  match py_max date_leb (DATES COUNTS) with
  | Some d => Ok d
  | None => Raise ValueError
  end.

(** ** Vocabulary for the further properties *)

(** No string field is the wildcard token itself. *)
Definition fields_without_token (l : Location) : bool :=
  forallb (fun o => match o with
                    | Some s => negb (s =? "*")
                    | None => true
                    end)
          (_string_properties_list l).

(** The string is empty or starts with a character that is no
    whitespace. *)
Definition starts_clean (s : string) : bool :=
  match s with
  | EmptyString => true
  | String c _ => negb (PyStr.isspace c)
  end.

(** The official name of a row of the nicknames file, as a key. *)
Definition row_key (row : list string) : string :=
  PyStr.lower (PyStr.strip (hd EmptyString row)).

(** The tables as far as the properties need them: every name the
    nickname table maps to has a short name, every key of either table is
    in lower case, and every key of the short-name table is the official
    name of a row. *)
Definition tables_fit (rows : list (list string)) (t : dict string * dict string)
  : Prop :=
  (forall k name, dict_get (fst t) k = Some name ->
                  (exists sh, dict_get (snd t) (PyStr.lower name) = Some sh)
                  /\ PyStr.lower k = k)
  /\ (forall k sh, dict_get (snd t) k = Some sh ->
                   exists row, In row rows /\ k = row_key row).

(** The label [_vote_line_to_object] settles on for a line. *)
Definition relabelled_label (count_location : Location) (label : pyvalue) : pyvalue :=
  if eq_str label "PC/SNP" then
    if opt_eq_str (country count_location) "Scotland" then VStr "SNP"
    else if opt_eq_str (country count_location) "Wales" then VStr "PC"
    else label
  else if eq_str label "Green" then
    if opt_eq_str (country count_location) "Scotland"
    then VStr "Scottish Green Party"
    else if opt_eq_str (country count_location) "Northern Ireland"
    then VStr "Green Party Northern Ireland"
    else VStr "Green Party of England and Wales"
  else label.

(** The result is the exception [DataLineUnreadable]. *)
Definition raises_unreadable {A} (r : result A) : bool :=
  match r with
  | Raise (DataLineUnreadable _ _) => true
  | _ => false
  end.

(** The exception is [NoColorForThisParty]. *)
Definition raises_no_color {A} (r : result A) : bool :=
  match r with
  | Raise (NoColorForThisParty _) => true
  | _ => false
  end.

(** Every official name of the nickname table has a colour. *)
Definition names_have_colors (PARTY_NICKNAMES PARTY_COLORS : dict string) : bool :=
  forallb (fun entry => match dict_get PARTY_COLORS (snd entry) with
                        | Some _ => true
                        | None => false
                        end)
          PARTY_NICKNAMES.

(** What a record keeps of its line. *)
Definition record_of_line (strptime_date : string -> option datetime_date)
           (line : raw_line) (v : VoteTotal) : Prop :=
  from_raw_string (line0 line) = Ok (location v)
  /\ strptime_date (line1 line) = Some (date v)
  /\ int_of_cell (line3 line) = Ok (votes v)
  /\ party_contemporary_styling v = relabelled_label (location v) (line2 line).

(** The strict order of dates. *)
Definition date_ltb (a b : datetime_date) : bool := date_leb a b && negb (date_eqb a b).

(** How many times a character occurs in a string. *)
Fixpoint count_char (c : ascii) (s : string) : nat :=
  match s with
  | EmptyString => 0
  | String d r => (if Ascii.eqb d c then 1 else 0) + count_char c r
  end.

(** The entry of a key is in the cache with at most [n] entries before
    it. *)
Definition cached_within (n : nat) (c : call) (v : option string)
           (entries : list (call * option string)) : Prop :=
  exists before after,
    entries = before ++ (c, v) :: after
    /\ cache_find c before = None
    /\ (length before <= n)%nat.

(** Rows to run the readers on. *)
Module SampleRows.

Definition nickname_rows : list (list string) :=
  [["Conservative and Unionist Party"; "Conservative Party"; "Tory"; "Tories"];
   [" Labour Party "; "Labour"];
   ["Green Party of England and Wales"; "Green Party"; "GPEW"; "Greens"]].

Definition color_rows : list (list string) :=
  [["Labour Party"; "#E4003B"];
   ["Conservative and Unionist Party"; "#0087DC"];
   ["Labour Party"; "#DC241F"]].

Definition lines : list raw_line :=
  [mkLine "*|GOWER|West Glamorgan|Wales|Wales|61762" "2019-12-12"
          (VStr "Labour") (VotesInt 20208);
   mkLine "*|GOWER|West Glamorgan|Wales|Wales|61762" "2019-12-12"
          (VStr "Tory") (VotesStr "18371")].

Definition gower_2017 : VoteTotal :=
  mkVoteTotal Sample.gower (mkDate 2017 6 8) "Labour Party" (VStr "Lab") 22727.

End SampleRows.

(** * Properties *)

(** ** The definitions on the inputs of the test suite *)

Example repr_of_record :
  repr Sample.gower = "*|GOWER|West Glamorgan|Wales|Wales|61762".
Proof. reflexivity. Qed.

Example from_raw_string_with_wildcards :
  from_raw_string "*|*|*|*|*|0"
  = Ok (mkLocation None None None None None (Some 0%Z)).
Proof. reflexivity. Qed.

Example from_raw_string_too_short : from_raw_string "*|*|*" = Raise IndexError.
Proof. reflexivity. Qed.

Example comparisons_home_away :
  let home := mkLocation None (Some "Home") None None None None in
  let away := mkLocation None (Some "Away") None None None None in
  __le__ home home = Ok true /\ __ge__ home home = Ok true
  /\ __le__ home away = Ok false /\ __ge__ home away = Ok false.
Proof. repeat split; reflexivity. Qed.

Example wales_contains_gower :
  __ge__ (mkLocation None None None None (Some "Wales") None) Sample.gower = Ok true
  /\ __ge__ Sample.gower (mkLocation None None None None (Some "Wales") None)
     = Ok false.
Proof. split; reflexivity. Qed.

Example int_of_str_forms :
  PyStr.int_of_str " -1_000 " = Some (-1000)%Z
  /\ PyStr.int_of_str "+007" = Some 7%Z
  /\ PyStr.int_of_str "1__0" = None
  /\ PyStr.int_of_str "7_" = None
  /\ PyStr.int_of_str "" = None
  /\ PyStr.int_of_str (String (ascii_of_nat 160) "5") = Some 5%Z
  /\ PyStr.int_of_str (String (ascii_of_nat 28) "5") = None
  /\ PyStr.strip (String (ascii_of_nat 28) "5") = "5".
Proof. repeat split; reflexivity. Qed.

Example official_exact_and_fuzzy :
  official Sample.nicknames Sample.first_choice (mkCall [VStr "Tory"] []) initial_world
  = (Ok (Some "Conservative and Unionist Party"),
     mkWorld [(mkCall [VStr "Tory"] [], Some "Conservative and Unionist Party")] [])
  /\ fst (official Sample.nicknames Sample.first_choice
            (mkCall [VStr "torys"] [("allow_fuzzy_match", VBool false)]) initial_world)
     = Raise (PartyNameNotFound "torys")
  /\ trace (snd (official Sample.nicknames Sample.first_choice
                   (mkCall [VStr "Torys"] []) initial_world))
     = [FuzzySearch "torys";
        RenameWarning "torys" "Conservative and Unionist Party"].
Proof. repeat split; reflexivity. Qed.

(** ** Strings *)

Module PyStrFacts.
Import PyStr.

Lemma split_nonempty sep s : split sep s <> [].
Proof.
  destruct s as [|c r]; simpl; [discriminate|].
  destruct (Ascii.eqb c sep); [discriminate|].
  destruct (split sep r); discriminate.
Qed.

(** Splitting a string that has the separator in the middle. *)
Lemma split_app sep p r :
  split sep (p ++ String sep r) = split sep p ++ split sep r.
Proof.
  induction p as [|c p IH]; simpl.
  - now rewrite Ascii.eqb_refl.
  - destruct (Ascii.eqb c sep); [now rewrite IH|].
    rewrite IH. destruct (split sep p) eqn:E; [now apply split_nonempty in E|].
    reflexivity.
Qed.

Lemma split_without_sep sep p :
  contains_char sep p = false -> split sep p = [p].
Proof.
  induction p as [|c p IH]; simpl; [reflexivity|].
  intros H. apply orb_false_iff in H as [Hc Hp].
  rewrite Hc, (IH Hp). reflexivity.
Qed.

Lemma split_length_pos sep s : (1 <= length (split sep s))%nat.
Proof.
  pose proof (split_nonempty sep s). destruct (split sep s); simpl; [congruence|lia].
Qed.

Lemma lstrip_id c r : isspace c = false -> lstrip (String c r) = String c r.
Proof. intros H. simpl. now rewrite H. Qed.

Lemma rstrip_id s : no_space s = true -> rstrip s = s.
Proof.
  induction s as [|c r IH]; simpl; [reflexivity|].
  intros H. apply andb_true_iff in H as [Hc Hr].
  rewrite (IH Hr). apply negb_true_iff in Hc. rewrite Hc.
  destruct r; reflexivity.
Qed.

Lemma strip_id s : no_space s = true -> strip s = s.
Proof.
  intros H. unfold strip.
  destruct s as [|c r]; [reflexivity|].
  pose proof H as H'. simpl in H'. apply andb_true_iff in H' as [Hc _].
  apply negb_true_iff in Hc. rewrite (lstrip_id _ _ Hc). now apply rstrip_id.
Qed.

Lemma no_space_digits u : no_space (NilEmpty.string_of_uint u) = true.
Proof. induction u; simpl; auto. Qed.

(** What [int()] skips, [str.strip] drops as well. *)
Lemma int_space_isspace c : int_space c = true -> isspace c = true.
Proof.
  unfold int_space, isspace, in_range.
  rewrite !orb_true_iff, !andb_true_iff, !Nat.leb_le, !Nat.eqb_eq. lia.
Qed.

Lemma int_rstrip_id s : no_space s = true -> int_rstrip s = s.
Proof.
  induction s as [|c r IH]; simpl; [reflexivity|].
  intros H. apply andb_true_iff in H as [Hc Hr].
  rewrite (IH Hr). apply negb_true_iff in Hc.
  destruct (int_space c) eqn:E;
    [apply int_space_isspace in E; congruence|].
  destruct r; reflexivity.
Qed.

Lemma int_strip_id s : no_space s = true -> int_rstrip (int_lstrip s) = s.
Proof.
  intros H. destruct s as [|c r]; [reflexivity|].
  pose proof H as H'. simpl in H'. apply andb_true_iff in H' as [Hc _].
  apply negb_true_iff in Hc. cbn [int_lstrip].
  destruct (int_space c) eqn:E;
    [apply int_space_isspace in E; congruence|].
  now apply int_rstrip_id.
Qed.

Lemma digits_after_digit u : digits (NilEmpty.string_of_uint u) true = Some u.
Proof. induction u; simpl; try rewrite IHu; reflexivity. Qed.

Lemma digits_of_uint u : u <> Nil -> digits (NilEmpty.string_of_uint u) false = Some u.
Proof.
  destruct u; [congruence| | | | | | | | | |]; intros _; simpl;
    rewrite digits_after_digit; reflexivity.
Qed.

Lemma int_of_str_uint u :
  u <> Nil -> int_of_str (NilEmpty.string_of_uint u) = Some (Z.of_int (Pos u)).
Proof.
  intros Hu. unfold int_of_str. rewrite int_strip_id by apply no_space_digits.
  pose proof (digits_of_uint u Hu) as Hd.
  destruct u; [congruence| | | | | | | | | |];
    cbn [NilEmpty.string_of_uint] in *; rewrite Hd; reflexivity.
Qed.

Lemma int_of_str_neg_uint u :
  u <> Nil ->
  int_of_str (String "-" (NilEmpty.string_of_uint u)) = Some (Z.of_int (Neg u)).
Proof.
  intros Hu. unfold int_of_str.
  rewrite int_strip_id by (simpl; apply no_space_digits).
  rewrite (digits_of_uint u Hu). reflexivity.
Qed.

(** [int(str(z)) == z] *)
Lemma int_of_str_of_int z : int_of_str (str_of_int z) = Some z.
Proof.
  unfold str_of_int. destruct z as [|p|p]; [reflexivity| |].
  - cbn [Z.to_int NilZero.string_of_int].
    pose proof (Unsigned.to_uint_nonnil p) as Hn.
    replace (NilZero.string_of_uint (Pos.to_uint p))
      with (NilEmpty.string_of_uint (Pos.to_uint p))
      by (destruct (Pos.to_uint p); [congruence|reflexivity..]).
    rewrite (int_of_str_uint _ Hn).
    f_equal. exact (DecimalZ.of_to (Zpos p)).
  - cbn [Z.to_int NilZero.string_of_int].
    pose proof (Unsigned.to_uint_nonnil p) as Hn.
    replace (NilZero.string_of_uint (Pos.to_uint p))
      with (NilEmpty.string_of_uint (Pos.to_uint p))
      by (destruct (Pos.to_uint p); [congruence|reflexivity..]).
    rewrite (int_of_str_neg_uint _ Hn).
    f_equal. exact (DecimalZ.of_to (Zneg p)).
Qed.

(** [str(z)] is never the wildcard token and holds no delimiter. *)
Lemma uint_string_without_bar u :
  contains_char "|" (NilEmpty.string_of_uint u) = false.
Proof. induction u; simpl; auto. Qed.

Lemma str_of_int_without_bar z : contains_char "|" (str_of_int z) = false.
Proof.
  unfold str_of_int.
  destruct z as [|p|p]; [reflexivity| |]; cbn [Z.to_int NilZero.string_of_int].
  - destruct (Pos.to_uint p) eqn:E; try reflexivity;
      rewrite <- E; unfold NilZero.string_of_uint; rewrite E, <- E;
      apply uint_string_without_bar.
  - destruct (Pos.to_uint p) eqn:E; try reflexivity;
      unfold NilZero.string_of_uint; rewrite <- E;
      cbn [contains_char]; rewrite uint_string_without_bar; reflexivity.
Qed.

Lemma str_of_int_not_wildcard z : (str_of_int z =? "*") = false.
Proof.
  apply String.eqb_neq. unfold str_of_int.
  destruct z as [|p|p]; [discriminate| |]; cbn [Z.to_int NilZero.string_of_int].
  - pose proof (Unsigned.to_uint_nonnil p).
    destruct (Pos.to_uint p); [congruence|discriminate..].
  - discriminate.
Qed.

End PyStrFacts.

(** ** location.py: the canonical string and the comparison *)

Module LocationFacts.
Import PyStr PyStrFacts.

(** The canonical string, piece by piece. *)
Lemma repr_pieces l :
  repr l =
  (_wildcard_if_none (ons_id l) ++ String "|" (
   _wildcard_if_none (constituency l) ++ String "|" (
   _wildcard_if_none (county l) ++ String "|" (
   _wildcard_if_none (region l) ++ String "|" (
   _wildcard_if_none (country l) ++ String "|" (
   _wildcard_if_none_int (electorate l)))))))%string.
Proof. reflexivity. Qed.

Lemma split_repr l :
  split "|" (repr l) =
  split "|" (_wildcard_if_none (ons_id l)) ++
  split "|" (_wildcard_if_none (constituency l)) ++
  split "|" (_wildcard_if_none (county l)) ++
  split "|" (_wildcard_if_none (region l)) ++
  split "|" (_wildcard_if_none (country l)) ++
  split "|" (_wildcard_if_none_int (electorate l)).
Proof. rewrite repr_pieces. now rewrite !split_app. Qed.

Lemma wildcard_int_without_bar e :
  contains_char "|" (_wildcard_if_none_int e) = false.
Proof. destruct e; simpl; [apply str_of_int_without_bar|reflexivity]. Qed.

(** With no delimiter inside a string field the pieces are the fields. *)
Lemma split_repr_plain l :
  fields_without_delimiter l = true ->
  split "|" (repr l) =
  [_wildcard_if_none (ons_id l); _wildcard_if_none (constituency l);
   _wildcard_if_none (county l); _wildcard_if_none (region l);
   _wildcard_if_none (country l); _wildcard_if_none_int (electorate l)].
Proof.
  unfold fields_without_delimiter, _string_properties_list. cbn [forallb].
  rewrite !andb_true_iff, !negb_true_iff. intros (H0 & H1 & H2 & H3 & H4 & _).
  rewrite split_repr.
  rewrite !split_without_sep by (assumption || apply wildcard_int_without_bar).
  reflexivity.
Qed.

Lemma split_repr_length l : (6 <= length (split "|" (repr l)))%nat.
Proof.
  rewrite split_repr, !length_app.
  pose proof (split_length_pos "|" (_wildcard_if_none (ons_id l))).
  pose proof (split_length_pos "|" (_wildcard_if_none (constituency l))).
  pose proof (split_length_pos "|" (_wildcard_if_none (county l))).
  pose proof (split_length_pos "|" (_wildcard_if_none (region l))).
  pose proof (split_length_pos "|" (_wildcard_if_none (country l))).
  pose proof (split_length_pos "|" (_wildcard_if_none_int (electorate l))).
  lia.
Qed.

(** The loop raises nothing when the raw string has enough pieces. *)
Lemma contains_loop_total props : forall index pieces,
  (index + length props <= length pieces)%nat ->
  exists b, contains_loop props index pieces = Ok b.
Proof.
  induction props as [|[p|] rest IH]; intros index pieces Hlen; simpl in *.
  - now exists true.
  - destruct (nth_error pieces index) as [q|] eqn:E.
    + destruct (negb (lower p =? lower q)); [now exists false|].
      apply IH. lia.
    + apply nth_error_None in E. lia.
  - apply IH. lia.
Qed.

(** [A >= B] always gives an answer. *)
Lemma ge_total a b : exists r, __ge__ a b = Ok r.
Proof.
  unfold __ge__, _contains_loc_as_raw_string.
  apply contains_loop_total. pose proof (split_repr_length b). simpl. lia.
Qed.

(** The answer depends on the second location through its canonical
    string only. *)
Lemma ge_repr a b b' : repr b = repr b' -> __ge__ a b = __ge__ a b'.
Proof. unfold __ge__. now intros ->. Qed.

Lemma contains_loop_step prop rest index pieces other :
  nth_error pieces index = Some other ->
  contains_loop (prop :: rest) index pieces =
  if match prop with
     | None => true
     | Some x => lower x =? lower other
     end
  then contains_loop rest (S index) pieces
  else Ok false.
Proof.
  intros E. destruct prop as [x|]; simpl; [|reflexivity].
  rewrite E. now destruct (lower x =? lower other).
Qed.

Lemma wildcard_round o :
  _wildcard_if_none (wildcard_to_nonetype (_wildcard_if_none o)) = _wildcard_if_none o.
Proof.
  destruct o as [s|]; simpl; [|reflexivity].
  unfold wildcard_to_nonetype. destruct (String.eqb_spec s "*"); simpl; congruence.
Qed.

End LocationFacts.

(** C1, as the code has it.  When no string field of [B] holds the
    delimiter, [A >= B] is the conjunction, over the five string fields
    [ons_id], [constituency], [county], [region] and [country], of: the
    field is unset in [A], or it equals, letter case apart, the text of
    [B]'s field in the canonical string (["*"] for an unset field).  The
    electorate takes no part. *)
Theorem ge_compares_rendered_string_fields (a b : Location) :
  fields_without_delimiter b = true ->
  __ge__ a b =
  Ok (rendered_field_matches (ons_id a) (ons_id b)
      && rendered_field_matches (constituency a) (constituency b)
      && rendered_field_matches (county a) (county b)
      && rendered_field_matches (region a) (region b)
      && rendered_field_matches (country a) (country b)).
Proof.
  intros Hb. unfold __ge__, _contains_loc_as_raw_string, _string_properties_list.
  rewrite (LocationFacts.split_repr_plain b Hb).
  unfold rendered_field_matches.
  erewrite LocationFacts.contains_loop_step by reflexivity.
  destruct (match ons_id a with None => true | Some x => _ end); [|reflexivity].
  erewrite LocationFacts.contains_loop_step by reflexivity.
  destruct (match constituency a with None => true | Some x => _ end); [|reflexivity].
  erewrite LocationFacts.contains_loop_step by reflexivity.
  destruct (match county a with None => true | Some x => _ end); [|reflexivity].
  erewrite LocationFacts.contains_loop_step by reflexivity.
  destruct (match region a with None => true | Some x => _ end); [|reflexivity].
  erewrite LocationFacts.contains_loop_step by reflexivity.
  destruct (match country a with None => true | Some x => _ end); reflexivity.
Qed.

Lemma ge_compares_rendered_string_fields_witness :
  __ge__ (mkLocation None None None None (Some "wales") None)
         (mkLocation None (Some "GOWER") (Some "West Glamorgan") (Some "Wales")
                     (Some "Wales") (Some 61762%Z))
  = Ok true.
Proof.
  exact (ge_compares_rendered_string_fields
           (mkLocation None None None None (Some "wales") None)
           (mkLocation None (Some "GOWER") (Some "West Glamorgan") (Some "Wales")
                       (Some "Wales") (Some 61762%Z))
           eq_refl).
Defined.

(** C1 as stated fails: a filter with only the electorate set matches a
    record with another electorate. *)
Lemma ge_ignores_electorate :
  __ge__ (mkLocation None None None None None (Some 1%Z))
         (mkLocation None None None None None (Some 2%Z)) = Ok true
  /\ Spec.compareGeneralTo (mkLocation None None None None None (Some 1%Z))
                           (mkLocation None None None None None (Some 2%Z)) = false.
Proof. split; reflexivity. Qed.

(** C3, as the code has it.  For every location none of whose string
    fields holds the delimiter, fully populated or not, reading back its
    canonical string gives a location equal to it. *)
Theorem from_raw_string_repr (l : Location) :
  fields_without_delimiter l = true ->
  exists l', from_raw_string (repr l) = Ok l' /\ __eq__ l' (ObjLocation l) = true.
Proof.
  intros Hl. unfold from_raw_string.
  rewrite (LocationFacts.split_repr_plain l Hl). cbn [map].
  assert (Hint : forall z, wildcard_to_nonetype (PyStr.str_of_int z)
                           = Some (PyStr.str_of_int z)).
  { intros z. unfold wildcard_to_nonetype.
    now rewrite PyStrFacts.str_of_int_not_wildcard. }
  destruct (electorate l) as [z|] eqn:Ez; cbn [_wildcard_if_none_int].
  - rewrite Hint, PyStrFacts.int_of_str_of_int.
    eexists; split; [reflexivity|].
    unfold __eq__. apply String.eqb_eq. cbn [repr_object].
    rewrite (LocationFacts.repr_pieces l), LocationFacts.repr_pieces.
    cbn [ons_id constituency county region country electorate].
    rewrite !LocationFacts.wildcard_round, Ez. reflexivity.
  - change (wildcard_to_nonetype "*") with (@None string).
    eexists; split; [reflexivity|].
    unfold __eq__. apply String.eqb_eq. cbn [repr_object].
    rewrite (LocationFacts.repr_pieces l), LocationFacts.repr_pieces.
    cbn [ons_id constituency county region country electorate].
    rewrite !LocationFacts.wildcard_round, Ez. reflexivity.
Qed.

Lemma from_raw_string_repr_witness :
  exists l',
    from_raw_string (repr (mkLocation None (Some "GOWER") None (Some "Wales")
                                      (Some "Wales") (Some 61762%Z))) = Ok l'
    /\ __eq__ l' (ObjLocation (mkLocation None (Some "GOWER") None (Some "Wales")
                                          (Some "Wales") (Some 61762%Z))) = true.
Proof.
  exact (from_raw_string_repr
           (mkLocation None (Some "GOWER") None (Some "Wales")
                       (Some "Wales") (Some 61762%Z))
           eq_refl).
Defined.

(** C3 as stated fails: a delimiter inside a field moves the pieces. *)
Lemma from_raw_string_repr_delimiter :
  from_raw_string (repr (mkLocation None (Some "a|b") None None None None))
  = Ok (mkLocation None (Some "a") (Some "b") None None None)
  /\ __eq__ (mkLocation None (Some "a") (Some "b") None None None)
            (ObjLocation (mkLocation None (Some "a|b") None None None None)) = false.
Proof. split; reflexivity. Qed.

(** With the delimiter in the country the electorate piece is no number. *)
Example from_raw_string_repr_value_error :
  from_raw_string (repr (mkLocation None None None None (Some "x|y") None))
  = Raise ValueError.
Proof. reflexivity. Qed.

(** C10.  [A == B] holds exactly when the canonical strings are the same,
    locations with the same canonical string have the same hash, and a
    string field holding ["*"] gives the same location, for [==] and for
    the hash, as that field left unset. *)
Theorem eq_and_hash_by_repr (hash : string -> Z) (a : Location) (b : pyobject) :
  (__eq__ a b = true <-> repr a = repr_object b)
  /\ (forall b' : Location,
        __eq__ a (ObjLocation b') = true -> __hash__ hash a = __hash__ hash b')
  /\ (forall i c y r k e,
        let same x x' :=
          __eq__ x (ObjLocation x') = true /\ __hash__ hash x = __hash__ hash x' in
        same (mkLocation (Some "*") c y r k e) (mkLocation None c y r k e)
        /\ same (mkLocation i (Some "*") y r k e) (mkLocation i None y r k e)
        /\ same (mkLocation i c (Some "*") r k e) (mkLocation i c None r k e)
        /\ same (mkLocation i c y (Some "*") k e) (mkLocation i c y None k e)
        /\ same (mkLocation i c y r (Some "*") e) (mkLocation i c y r None e))
  /\ __eq__ (mkLocation (Some "*") None None None None None)
            (ObjLocation (mkLocation None None None None None None)) = true.
Proof.
  split; [apply String.eqb_eq|].
  split.
  { intros b' H. unfold __hash__. f_equal. now apply String.eqb_eq in H. }
  split; [|reflexivity].
  intros i c y r k e same.
  assert (Hs : forall x x', repr x = repr x' -> same x x').
  { intros x x' E. split; [now apply String.eqb_eq|]. unfold __hash__. now rewrite E. }
  repeat split; apply Hs; reflexivity.
Qed.

Lemma eq_and_hash_by_repr_witness :
  __hash__ (fun s => Z.of_nat (String.length s))
           (mkLocation (Some "*") None None None None None)
  = __hash__ (fun s => Z.of_nat (String.length s))
             (mkLocation None None None None None None).
Proof.
  exact (proj1 (proj2 (eq_and_hash_by_repr
                         (fun s => Z.of_nat (String.length s))
                         (mkLocation (Some "*") None None None None None)
                         (ObjOther "")))
               (mkLocation None None None None None None) eq_refl).
Defined.

(** ** names.py: the cache and the body *)

Module PyValueFacts.

Lemma pyvalue_eqb_eq a b : pyvalue_eqb a b = true <-> a = b.
Proof.
  destruct a, b; simpl; split; try congruence; try reflexivity.
  - intros H. apply String.eqb_eq in H. now subst.
  - intros [= ->]. apply String.eqb_refl.
  - intros H. apply Bool.eqb_prop in H. now subst.
  - intros [= ->]. apply Bool.eqb_reflx.
Qed.

Lemma args_eqb_eq a : forall b, args_eqb a b = true <-> a = b.
Proof.
  induction a as [|x a IH]; intros [|y b]; simpl; split; try congruence; try reflexivity.
  - intros H. apply andb_true_iff in H as [H1 H2].
    apply pyvalue_eqb_eq in H1. apply IH in H2. now subst.
  - intros [= -> ->]. apply andb_true_iff. split; [now apply pyvalue_eqb_eq|now apply IH].
Qed.

Lemma kwds_eqb_eq a : forall b, kwds_eqb a b = true <-> a = b.
Proof.
  induction a as [|[k x] a IH]; intros [|[l y] b]; simpl; split;
    try congruence; try reflexivity.
  - intros H. apply andb_true_iff in H as [H12 H3].
    apply andb_true_iff in H12 as [H1 H2].
    apply String.eqb_eq in H1. apply pyvalue_eqb_eq in H2. apply IH in H3. now subst.
  - intros [= -> -> ->]. rewrite String.eqb_refl. simpl.
    apply andb_true_iff. split; [now apply pyvalue_eqb_eq|now apply IH].
Qed.

Lemma call_eqb_eq a b : call_eqb a b = true <-> a = b.
Proof.
  unfold call_eqb. rewrite andb_true_iff, args_eqb_eq, kwds_eqb_eq.
  destruct a, b; simpl; split; [intros [-> ->]; reflexivity|intros [= -> ->]; now split].
Qed.

Lemma call_eqb_refl a : call_eqb a a = true.
Proof. now apply call_eqb_eq. Qed.

End PyValueFacts.

Module StripFacts.
Import PyStr.

Lemma isspace_lower_char c : isspace (lower_char c) = isspace c.
Proof. destruct c as [[] [] [] [] [] [] [] []]; reflexivity. Qed.

Lemma lstrip_lower s : lstrip (lower s) = lower (lstrip s).
Proof.
  induction s as [|c r IH]; simpl; [reflexivity|].
  rewrite isspace_lower_char. now destruct (isspace c).
Qed.

Lemma rstrip_lower s : rstrip (lower s) = lower (rstrip s).
Proof.
  induction s as [|c r IH]; simpl; [reflexivity|].
  rewrite IH, isspace_lower_char.
  destruct (rstrip r); simpl; [now destruct (isspace c)|reflexivity].
Qed.

(** Lower-casing and trimming can be done in either order. *)
Lemma strip_lower s : strip (lower s) = lower (strip s).
Proof. unfold strip. now rewrite lstrip_lower, rstrip_lower. Qed.

Lemma lower_empty s : lower s = EmptyString <-> s = EmptyString.
Proof. destruct s; simpl; split; congruence. Qed.

Lemma length_zero s : Nat.eqb (String.length s) 0 = true <-> s = EmptyString.
Proof. destruct s; simpl; split; congruence. Qed.

End StripFacts.

Lemma In_firstn {A} (x : A) n : forall l, In x (firstn n l) -> In x l.
Proof.
  induction n as [|n IH]; intros [|y l]; simpl; try tauto.
  intros [->|H]; [now left|right; now apply IH].
Qed.

Section NamesFacts.

Variable PARTY_NICKNAMES : dict string.
Variable extractOne : string -> list string -> option (string * Z).

Abbreviation body := (official__wrapped__ PARTY_NICKNAMES extractOne).
Abbreviation wrapped := (call_wrapped PARTY_NICKNAMES extractOne).
Abbreviation cached := (official PARTY_NICKNAMES extractOne).
Abbreviation sound := (cache_sound PARTY_NICKNAMES extractOne).
Abbreviation run := (run_calls PARTY_NICKNAMES extractOne).

(** *** The cache *)

Lemma cache_find_In k c v : cache_find k c = Some v -> In (k, v) c.
Proof.
  induction c as [|[k' v'] r IH]; simpl; [discriminate|].
  destruct (call_eqb k' k) eqn:E.
  - intros [= ->]. apply PyValueFacts.call_eqb_eq in E. subst. now left.
  - intros H. right. now apply IH.
Qed.

Lemma cache_find_head k v c : cache_find k ((k, v) :: c) = Some v.
Proof. simpl. now rewrite PyValueFacts.call_eqb_refl. Qed.

Lemma cache_sound_initial : sound (cache initial_world).
Proof. intros k v []. Qed.

Lemma cache_sound_official c w :
  sound (cache w) -> sound (cache (snd (cached c w))).
Proof.
  intros Hs. unfold official.
  destruct (cache_find c (cache w)) as [v|] eqn:Ef; cbn [snd cache].
  - intros k v' [[= <- <-]|Hin].
    + apply Hs. now apply cache_find_In.
    + apply Hs. unfold cache_remove in Hin. now apply filter_In in Hin.
  - destruct (wrapped c) as [[v|e] evs] eqn:Ew; cbn [snd cache]; [|exact Hs].
    intros k v' Hin. apply In_firstn in Hin. destruct Hin as [[= <- <-]|Hin].
    + now rewrite Ew.
    + now apply Hs.
Qed.

Lemma cache_sound_run cs : forall w, sound (cache w) -> sound (cache (run cs w)).
Proof.
  induction cs as [|c r IH]; intros w Hs; simpl; [exact Hs|].
  apply IH. now apply cache_sound_official.
Qed.

(** With a sound cache the cached function gives what the body gives. *)
Lemma official_result c w : sound (cache w) -> fst (cached c w) = fst (wrapped c).
Proof.
  intros Hs. unfold official.
  destruct (cache_find c (cache w)) as [v|] eqn:Ef; simpl.
  - symmetry. apply Hs. now apply cache_find_In.
  - now destruct (wrapped c) as [[v|e] evs].
Qed.

(** The events of a call: none on a hit, those of the body on a miss. *)
Lemma official_trace c w :
  trace (snd (cached c w)) =
  trace w ++ match cache_find c (cache w) with
             | Some _ => []
             | None => snd (wrapped c)
             end.
Proof.
  unfold official.
  destruct (cache_find c (cache w)) as [v|]; simpl; [now rewrite app_nil_r|].
  now destruct (wrapped c) as [[v|e] evs].
Qed.

(** A hit: the stored value, the body not run, nothing emitted. *)
Lemma official_hit c w v :
  cache_find c (cache w) = Some v ->
  fst (cached c w) = Ok v /\ trace (snd (cached c w)) = trace w.
Proof.
  intros Ef. rewrite official_trace. unfold official. rewrite Ef. simpl.
  now rewrite app_nil_r.
Qed.

(** After a call that returned, the same call at once is a hit. *)
Lemma official_repeat c w v :
  fst (cached c w) = Ok v ->
  cache_find c (cache (snd (cached c w))) = Some v.
Proof.
  unfold official.
  destruct (cache_find c (cache w)) as [v'|] eqn:Ef; cbn [fst snd cache].
  - intros [= ->]. apply cache_find_head.
  - destruct (wrapped c) as [[v'|e] evs]; cbn [fst snd cache]; [|discriminate].
    intros [= ->]. unfold maxsize. rewrite firstn_cons. apply cache_find_head.
Qed.

Lemma wrapped_bound c n f w e :
  bind_arguments c = Some (n, f, w, e) -> wrapped c = body n f w e.
Proof. unfold call_wrapped. now intros ->. Qed.

(** *** The body *)

Lemma body_null n f w e :
  isna n = true ->
  body n f w e = if truthy e then (Raise PartyNicknameEmpty, []) else (Ok None, []).
Proof. unfold official__wrapped__. now intros ->. Qed.

Lemma body_empty s f w e :
  PyStr.strip s = EmptyString ->
  body (VStr s) f w e = (Raise PartyNicknameEmpty, []).
Proof.
  intros Hs. unfold official__wrapped__. simpl.
  rewrite StripFacts.strip_lower, Hs. reflexivity.
Qed.

Lemma body_exact s f w e name :
  PyStr.strip (PyStr.lower s) <> EmptyString ->
  dict_get PARTY_NICKNAMES (PyStr.strip (PyStr.lower s)) = Some name ->
  body (VStr s) f w e = (Ok (Some name), []).
Proof.
  intros Hne Hget. unfold official__wrapped__. simpl.
  destruct (Nat.eqb (String.length (PyStr.strip (PyStr.lower s))) 0) eqn:El.
  - apply StripFacts.length_zero in El. contradiction.
  - now rewrite Hget.
Qed.


(** The body returns [None] for a missing nickname only. *)
Lemma body_none n f w e : fst (body n f w e) = Ok None -> isna n = true.
Proof.
  unfold official__wrapped__.
  destruct (isna n); [reflexivity|].
  destruct n as [| |s|b]; try discriminate.
  destruct (Nat.eqb _ 0); [discriminate|].
  destruct (dict_get PARTY_NICKNAMES _); [discriminate|].
  destruct (truthy f); [|discriminate].
  destruct (extractOne _ _) as [[m sc]|]; [|discriminate].
  destruct (dict_get PARTY_NICKNAMES m); [|discriminate].
  now destruct (truthy w).
Qed.

(** C5.  After any calls, a call whose nickname is [None] or NaN returns
    [None] when [exception_on_null_value] is false and raises
    [PartyNicknameEmpty] when it is true; a call whose nickname is a
    string that trimming leaves empty raises [PartyNicknameEmpty] whatever
    the three flags. *)
Theorem official_null_or_empty_nickname
        (history : list call) (c : call) (n f w e : pyvalue) :
  bind_arguments c = Some (n, f, w, e) ->
  (isna n = true ->
   fst (cached c (run history initial_world))
   = if truthy e then Raise PartyNicknameEmpty else Ok None)
  /\ (forall s, n = VStr s -> PyStr.strip s = EmptyString ->
      fst (cached c (run history initial_world)) = Raise PartyNicknameEmpty).
Proof.
  intros Hb.
  assert (Hs : sound (cache (run history initial_world)))
    by (apply cache_sound_run, cache_sound_initial).
  rewrite (official_result c _ Hs), (wrapped_bound _ _ _ _ _ Hb).
  split.
  - intros Hn. rewrite (body_null _ _ _ _ Hn). now destruct (truthy e).
  - intros s -> Hempty. now rewrite (body_empty _ _ _ _ Hempty).
Qed.

(** C6, as the code has it.  After any calls, for a nickname whose
    lower-cased and trimmed form is not empty and is a key of the nickname
    table, the call returns the official name under that key and adds no
    event: no fuzzy search, no warning, whatever the three flags. *)
Theorem official_exact_match
        (history : list call) (c : call) (s : string) (f w e : pyvalue)
        (name : string) :
  bind_arguments c = Some (VStr s, f, w, e) ->
  PyStr.strip (PyStr.lower s) <> EmptyString ->
  dict_get PARTY_NICKNAMES (PyStr.strip (PyStr.lower s)) = Some name ->
  fst (cached c (run history initial_world)) = Ok (Some name)
  /\ trace (snd (cached c (run history initial_world)))
     = trace (run history initial_world).
Proof.
  intros Hb Hne Hget.
  assert (Hs : sound (cache (run history initial_world)))
    by (apply cache_sound_run, cache_sound_initial).
  split.
  - rewrite (official_result c _ Hs), (wrapped_bound _ _ _ _ _ Hb).
    now rewrite (body_exact _ _ _ _ _ Hne Hget).
  - rewrite official_trace.
    destruct (cache_find c _); [apply app_nil_r|].
    rewrite (wrapped_bound _ _ _ _ _ Hb), (body_exact _ _ _ _ _ Hne Hget).
    apply app_nil_r.
Qed.

End NamesFacts.

Lemma official_null_or_empty_nickname_witness :
  fst (official Sample.nicknames Sample.first_choice
         (mkCall [VNone] [("exception_on_null_value", VBool true)])
         (run_calls Sample.nicknames Sample.first_choice
                    [mkCall [VStr "torys"] []] initial_world))
  = Raise PartyNicknameEmpty.
Proof.
  exact (proj1 (official_null_or_empty_nickname
                  Sample.nicknames Sample.first_choice
                  [mkCall [VStr "torys"] []]
                  (mkCall [VNone] [("exception_on_null_value", VBool true)])
                  VNone (VBool true) (VBool true) (VBool true) eq_refl)
               eq_refl).
Defined.

Example official_blank_string :
  fst (official Sample.nicknames Sample.first_choice
         (mkCall [VStr "   "; VBool false] []) initial_world)
  = Raise PartyNicknameEmpty.
Proof. reflexivity. Qed.

Lemma official_exact_match_witness :
  fst (official Sample.nicknames Sample.first_choice
         (mkCall [VStr " Tory "] [("allow_fuzzy_match", VBool false)])
         (run_calls Sample.nicknames Sample.first_choice
                    [mkCall [VStr "torys"] []] initial_world))
  = Ok (Some "Conservative and Unionist Party")
  /\ trace (snd (official Sample.nicknames Sample.first_choice
                   (mkCall [VStr " Tory "] [("allow_fuzzy_match", VBool false)])
                   (run_calls Sample.nicknames Sample.first_choice
                              [mkCall [VStr "torys"] []] initial_world)))
     = trace (run_calls Sample.nicknames Sample.first_choice
                        [mkCall [VStr "torys"] []] initial_world).
Proof.
  apply (official_exact_match
           Sample.nicknames Sample.first_choice
           [mkCall [VStr "torys"] []]
           (mkCall [VStr " Tory "] [("allow_fuzzy_match", VBool false)])
           " Tory " (VBool false) (VBool true) (VBool false)
           "Conservative and Unionist Party").
  - reflexivity.
  - vm_compute. discriminate.
  - reflexivity.
Defined.

(** C6 as stated fails when the table has the empty string as a key: a
    blank nickname is refused before the table is looked at. *)
Lemma official_empty_key_refused :
  dict_get Sample.nicknames_with_empty_key (PyStr.strip (PyStr.lower "  "))
  = Some "Labour Party"
  /\ fst (official Sample.nicknames_with_empty_key Sample.first_choice
            (mkCall [VStr "  "] []) initial_world)
     = Raise PartyNicknameEmpty.
Proof. split; reflexivity. Qed.

(** C4 at a run of 130 calls.  [official("torys")], then 128 calls with
    other nicknames, then [official("torys")] again: the entry of the
    first call has left the cache of 128 entries, the fuzzy search runs a
    second time and the rename warning is given a second time.  With 127
    calls in between the second call is answered from the cache. *)
Theorem official_warns_again_after_eviction :
  let torys := mkCall [VStr "torys"] [] in
  let t128 :=
    trace (run_calls Sample.nicknames Sample.first_choice
                     (torys :: Sample.numbered_calls 128 ++ [torys]) initial_world) in
  let t127 :=
    trace (run_calls Sample.nicknames Sample.first_choice
                     (torys :: Sample.numbered_calls 127 ++ [torys]) initial_world) in
  rename_warnings "torys" t128 = 2
  /\ fuzzy_searches "torys" t128 = 2
  /\ rename_warnings "torys" t127 = 1
  /\ fuzzy_searches "torys" t127 = 1.
Proof. vm_compute. repeat split. Qed.

(** The same full argument tuple written in two ways is two cache keys. *)
Example official_keys_as_written :
  let w := run_calls Sample.nicknames Sample.first_choice
                     [mkCall [VStr "torys"] []; mkCall [VStr "torys"; VBool true] []]
                     initial_world in
  bind_arguments (mkCall [VStr "torys"] [])
  = bind_arguments (mkCall [VStr "torys"; VBool true] [])
  /\ rename_warnings "torys" (trace w) = 2.
Proof. vm_compute. split; reflexivity. Qed.

(** ** colors.py *)

(** The lookup of a name, in one step. *)
Lemma by_official_party_name_unfold
      (PARTY_COLORS : dict string) (action : warning_action) (w : world) n :
  by_official_party_name PARTY_COLORS action (Some n) w
  = match dict_get PARTY_COLORS n with
    | Some color =>
        if n =? "Green Party"
        then match action with
             | ActionError => (Raise UKPoliticsWarning, w)
             | ActionShow =>
                 (Ok (Some color),
                  mkWorld (cache w) (trace w ++ [GreenPartyWarning]))
             | ActionIgnore => (Ok (Some color), w)
             end
        else (Ok (Some color), w)
    | None => (Raise (NoColorForThisParty n), w)
    end.
Proof.
  unfold by_official_party_name.
  destruct (dict_get PARTY_COLORS n) as [color|]; [|reflexivity].
  destruct (n =? "Green Party"); [|reflexivity].
  destruct action; reflexivity.
Qed.






Example color_green_party :
  by_official_party_name Sample.colors ActionShow (Some "Green Party") initial_world
  = (Ok (Some "#6AB023"), mkWorld [] [GreenPartyWarning]).
Proof. reflexivity. Qed.

Example color_case_sensitive :
  fst (by_official_party_name Sample.colors ActionShow (Some "labour party")
                              initial_world)
  = Raise (NoColorForThisParty "labour party")
  /\ fst (by_official_party_name Sample.colors ActionShow (Some "") initial_world)
     = Raise (NoColorForThisParty "").
Proof. split; reflexivity. Qed.

(** Without an entry for ["Green Party"] the call warns of nothing. *)
Example color_green_party_absent :
  by_official_party_name [("Labour Party", "#E4003B")] ActionShow
                         (Some "Green Party") initial_world
  = (Raise (NoColorForThisParty "Green Party"), initial_world).
Proof. reflexivity. Qed.




(** ** elections.py: reading a line *)

Section LineFacts.

Variable PARTY_NICKNAMES : dict string.
Variable extractOne : string -> list string -> option (string * Z).
Variable strptime_date : string -> option datetime_date.

Abbreviation read_line :=
  (_vote_line_to_object PARTY_NICKNAMES extractOne strptime_date).
Abbreviation continue_with :=
  (after_relabelling PARTY_NICKNAMES extractOne strptime_date).

Lemma opt_eq_str_true o s : opt_eq_str o s = true <-> o = Some s.
Proof.
  destruct o as [t|]; simpl; [|split; discriminate].
  rewrite String.eqb_eq. split; congruence.
Qed.

Lemma opt_eq_str_false o s : o <> Some s -> opt_eq_str o s = false.
Proof.
  intros H. destruct (opt_eq_str o s) eqn:E; [|reflexivity].
  apply opt_eq_str_true in E. contradiction.
Qed.

Lemma eq_str_false v s : v <> VStr s -> eq_str v s = false.
Proof.
  intros H. unfold eq_str. destruct (pyvalue_eqb v (VStr s)) eqn:E; [|reflexivity].
  apply PyValueFacts.pyvalue_eqb_eq in E. contradiction.
Qed.

(** A line whose location cannot be read stops there. *)
Lemma read_line_bad_location line w e :
  from_raw_string (line0 line) = Raise e -> read_line line w = (Raise e, w).
Proof. intros H. unfold _vote_line_to_object, bind, lift. now rewrite H. Qed.

(** The relabelling rules: the label that goes to the name resolver, and
    into the record, is the one the rules give. *)
Lemma read_line_relabels line w loc label :
  from_raw_string (line0 line) = Ok loc ->
  Spec.relabels (country loc) (line2 line) label ->
  read_line line w = continue_with line loc label w.
Proof.
  intros Hloc Hrel. unfold _vote_line_to_object, bind at 1, lift at 1.
  rewrite Hloc. fold (continue_with line loc).
  inversion Hrel as [Hc Hl|Hc Hl|Hc Hl|Hc Hl|c Hs Hn Hc Hl|c l Hp Hg Hc Hl];
    subst; try rewrite <- Hl; try rewrite <- Hc; try reflexivity.
  - change (eq_str (VStr "Green") "PC/SNP") with false.
    change (eq_str (VStr "Green") "Green") with true. cbv iota.
    now rewrite (opt_eq_str_false _ _ Hs), (opt_eq_str_false _ _ Hn).
  - now rewrite (eq_str_false _ _ Hp), (eq_str_false _ _ Hg).
Qed.

(** The label that reaches the resolver is missing only if the cell is. *)
Lemma relabelled_isna loc label :
  isna (if eq_str label "PC/SNP" then
          if opt_eq_str (country loc) "Scotland" then VStr "SNP"
          else if opt_eq_str (country loc) "Wales" then VStr "PC"
          else label
        else if eq_str label "Green" then
          if opt_eq_str (country loc) "Scotland" then VStr "Scottish Green Party"
          else if opt_eq_str (country loc) "Northern Ireland"
          then VStr "Green Party Northern Ireland"
          else VStr "Green Party of England and Wales"
        else label) = true ->
  isna label = true.
Proof.
  destruct (eq_str label "PC/SNP"), (eq_str label "Green"),
    (opt_eq_str (country loc) "Scotland"), (opt_eq_str (country loc) "Wales"),
    (opt_eq_str (country loc) "Northern Ireland"); simpl; congruence.
Qed.

Lemma join_line_missing line : isna (line2 line) = true -> join_line line = Raise TypeError.
Proof. unfold join_line. now destruct (line2 line). Qed.

(** When the resolver returns no name the line is not reported: joining
    the cells of the line fails first. *)
Lemma continue_without_name line loc label w :
  cache_sound PARTY_NICKNAMES extractOne (cache w) ->
  isna label = true -> isna (line2 line) = true ->
  fst (continue_with line loc label w) = Raise TypeError.
Proof.
  intros Hs Hl Hc. unfold after_relabelling, bind at 1.
  pose proof (official_result PARTY_NICKNAMES extractOne
                (mkCall [label] [("warn_on_fuzzy_match", VBool true)]) w Hs) as Hr.
  destruct (official _ _ _ w) as [r w'] eqn:Eo. cbn [fst] in Hr. subst r.
  unfold call_wrapped. cbn [bind_arguments bind_positional args kwds bind_keywords
                        bind_keyword String.eqb Ascii.eqb Bool.eqb with_default].
  rewrite body_null by assumption. cbn [truthy fst].
  unfold bind, lift. now rewrite (join_line_missing _ Hc).
Qed.

(** No line ends in [DataLineUnreadable]. *)
Lemma read_line_never_unreadable line w a b :
  cache_sound PARTY_NICKNAMES extractOne (cache w) ->
  fst (read_line line w) <> Raise (DataLineUnreadable a b).
Proof.
  intros Hs. unfold _vote_line_to_object, bind at 1, lift at 1.
  destruct (from_raw_string (line0 line)) as [loc|e] eqn:El.
  2:{ cbn [fst]. intros [= ->]. unfold from_raw_string in El.
      repeat match type of El with
             | match ?x with _ => _ end = _ => destruct x; try discriminate
             end. }
  set (label := if eq_str (line2 line) "PC/SNP" then _ else _).
  unfold bind at 1.
  pose proof (official_result PARTY_NICKNAMES extractOne
                (mkCall [label] [("warn_on_fuzzy_match", VBool true)]) w Hs) as Hr.
  destruct (official _ _ _ w) as [r w'] eqn:Eo. cbn [fst] in Hr. subst r.
  unfold call_wrapped. cbn [bind_arguments bind_positional args kwds bind_keywords
                        bind_keyword String.eqb Ascii.eqb Bool.eqb with_default].
  destruct (official__wrapped__ _ _ label _ _ _) as [[[name|]|e] evs] eqn:Eb; cbn [fst].
  - unfold bind, lift, ret.
    destruct (strptime_date (line1 line)); [|discriminate].
    destruct (int_of_cell (line3 line)) as [n|e] eqn:En; cbn [fst]; [discriminate|].
    intros [= ->]. unfold int_of_cell in En.
    destruct (line3 line); [discriminate|].
    destruct (PyStr.int_of_str s); discriminate.
  - assert (Hna : isna label = true).
    { apply (body_none PARTY_NICKNAMES extractOne label (VBool true) (VBool true)
                       (VBool false)). now rewrite Eb. }
    apply relabelled_isna in Hna.
    unfold bind, lift. now rewrite (join_line_missing _ Hna).
  - intros [= ->].
    unfold official__wrapped__ in Eb.
    repeat match type of Eb with
           | (if ?x then _ else _) = _ => destruct x; try discriminate
           | match ?x with _ => _ end = _ => destruct x; try discriminate
           end.
Qed.

End LineFacts.

(** C7 at a row whose party cell is empty.  The resolver returns no name
    and the line is to be reported as unreadable, but building the report
    joins the cells of the row, one of which is not a string: the call
    ends in [TypeError], not in [DataLineUnreadable]. *)
Theorem vote_line_without_party_type_error :
  from_raw_string (line0 Sample.line_without_party) = Ok Sample.gower
  /\ fst (official Sample.nicknames Sample.first_choice
            (mkCall [line2 Sample.line_without_party]
                    [("warn_on_fuzzy_match", VBool true)]) initial_world)
     = Ok None
  /\ fst (_vote_line_to_object Sample.nicknames Sample.first_choice Sample.one_day
            Sample.line_without_party initial_world)
     = Raise TypeError.
Proof. repeat split; reflexivity. Qed.

Example vote_line_green_in_wales :
  fst (_vote_line_to_object
         (("green party of england and wales", "Green Party of England and Wales")
            :: Sample.nicknames)
         Sample.first_choice Sample.one_day
         (mkLine "*|GOWER|West Glamorgan|Wales|Wales|61762" "2019-12-12"
                 (VStr "Green") (VotesInt 1000)) initial_world)
  = Ok (mkVoteTotal Sample.gower Sample.election_day
                    "Green Party of England and Wales"
                    (VStr "Green Party of England and Wales") 1000).
Proof. reflexivity. Qed.

(** ** elections.py: seats *)

Module SeatsFacts.

Lemma loc_eqb_eq a b : loc_eqb a b = true <-> repr a = repr b.
Proof. apply String.eqb_eq. Qed.

Lemma loc_eqb_refl a : loc_eqb a a = true.
Proof. now apply loc_eqb_eq. Qed.

Lemma ge_bool_spec a b : __ge__ a b = Ok (ge_bool a b).
Proof. unfold ge_bool. destruct (LocationFacts.ge_total a b) as [r ->]. reflexivity. Qed.

Lemma filter_result_ok {A} (cond : A -> result bool) (g : A -> bool) l :
  (forall x, cond x = Ok (g x)) -> filter_result cond l = Ok (filter g l).
Proof.
  intros H. induction l as [|x r IH]; simpl; [reflexivity|].
  rewrite H, IH. simpl. now destruct (g x).
Qed.

(** *** The set of locations *)

Lemma set_add_In_inv l s x : In x (set_add l s) -> In x s \/ x = l.
Proof.
  induction s as [|y r IH]; simpl.
  - intros [<-|[]]. now right.
  - destruct (loc_eqb y l); simpl; [tauto|].
    intros [<-|H]; [now left; left|]. destruct (IH H); tauto.
Qed.

Lemma set_add_In_old l s x : In x s -> In x (set_add l s).
Proof.
  induction s as [|y r IH]; simpl; [tauto|].
  destruct (loc_eqb y l); simpl; [tauto|]. intros [<-|H]; [now left|right; auto].
Qed.

Lemma set_add_In_new l s : exists y, In y (set_add l s) /\ repr y = repr l.
Proof.
  induction s as [|y r IH]; simpl.
  - exists l. split; [now left|reflexivity].
  - destruct (loc_eqb y l) eqn:E.
    + exists y. split; [now left|now apply loc_eqb_eq].
    + destruct IH as (z & Hz & Hr). exists z. split; [now right|exact Hr].
Qed.

Lemma set_add_NoDup l s : NoDup (map repr s) -> NoDup (map repr (set_add l s)).
Proof.
  induction s as [|y r IH]; simpl; intros Hnd.
  - constructor; [intros []|constructor].
  - destruct (loc_eqb y l) eqn:E; [exact Hnd|].
    inversion Hnd as [|? ? Hy Hr]; subst. simpl. constructor; [|now apply IH].
    intros Hin. apply in_map_iff in Hin as (z & Hz & Hin).
    apply set_add_In_inv in Hin as [Hin| ->].
    + apply Hy. rewrite <- Hz. now apply in_map.
    + symmetry in Hz. apply loc_eqb_eq in Hz. congruence.
Qed.

Lemma set_fold_NoDup ls : forall acc,
  NoDup (map repr acc) -> NoDup (map repr (set_fold ls acc)).
Proof.
  induction ls as [|l r IH]; intros acc H; simpl; [exact H|].
  apply IH. now apply set_add_NoDup.
Qed.

Lemma set_fold_In_inv ls : forall acc x,
  In x (set_fold ls acc) -> In x acc \/ In x ls.
Proof.
  induction ls as [|l r IH]; intros acc x H; simpl in *; [now left|].
  apply IH in H as [H|H]; [|now right; right].
  apply set_add_In_inv in H as [H| ->]; [now left|now right; left].
Qed.

Lemma set_fold_In_old ls : forall acc x, In x acc -> In x (set_fold ls acc).
Proof.
  induction ls as [|l r IH]; intros acc x H; simpl; [exact H|].
  apply IH. now apply set_add_In_old.
Qed.

Lemma set_fold_In_new ls : forall acc l,
  In l ls -> exists y, In y (set_fold ls acc) /\ repr y = repr l.
Proof.
  induction ls as [|l' r IH]; intros acc l H; simpl in *; [destruct H|].
  destruct H as [->|H]; [|now apply IH].
  destruct (set_add_In_new l acc) as (y & Hy & Hr).
  exists y. split; [now apply set_fold_In_old|exact Hr].
Qed.

(** The set holds the locations of the list, one for each canonical
    string. *)
Lemma set_of_list_spec ls :
  NoDup (map repr (set_of_list ls))
  /\ (forall x, In x (set_of_list ls) -> In x ls)
  /\ (forall r, In r (map repr (set_of_list ls)) <-> In r (map repr ls)).
Proof.
  unfold set_of_list. fold (set_fold ls []). split; [|split].
  - apply set_fold_NoDup. constructor.
  - intros x H. apply set_fold_In_inv in H as [[]|H]. exact H.
  - intros r. rewrite !in_map_iff. split.
    + intros (x & Hx & Hin). exists x. split; [exact Hx|].
      apply set_fold_In_inv in Hin as [[]|Hin]. exact Hin.
    + intros (x & Hx & Hin). destruct (set_fold_In_new ls [] x Hin) as (y & Hy & Hr).
      exists y. split; [congruence|exact Hy].
Qed.

(** *** Dictionaries *)

Lemma dict_get_set {V} k (v : V) d q :
  dict_get (dict_set k v d) q = if k =? q then Some v else dict_get d q.
Proof.
  induction d as [|[k' v'] r IH]; simpl; [reflexivity|].
  destruct (String.eqb_spec k' k) as [->|Hk]; simpl.
  - now destruct (k =? q).
  - rewrite IH. destruct (String.eqb_spec k' q) as [->|Hq]; [|reflexivity].
    destruct (String.eqb_spec k q); congruence.
Qed.

Lemma dict_get_In {V} (d : dict V) k v : dict_get d k = Some v -> In (k, v) d.
Proof.
  induction d as [|[k' v'] r IH]; simpl; [discriminate|].
  destruct (String.eqb_spec k' k) as [->|Hk].
  - intros [= ->]. now left.
  - intros H. right. now apply IH.
Qed.

Lemma dict_set_keys {V} k (v : V) d x :
  In x (dict_keys (dict_set k v d)) <-> x = k \/ In x (dict_keys d).
Proof.
  unfold dict_keys. induction d as [|[k' v'] r IH]; simpl; [intuition|].
  destruct (String.eqb_spec k' k) as [->|Hk]; simpl; [intuition|].
  rewrite IH. intuition.
Qed.

Lemma dict_set_NoDup {V} k (v : V) d :
  NoDup (dict_keys d) -> NoDup (dict_keys (dict_set k v d)).
Proof.
  unfold dict_keys. induction d as [|[k' v'] r IH]; simpl; intros H.
  - constructor; [intros []|constructor].
  - inversion H as [|? ? Hk' Hr]; subst.
    destruct (String.eqb_spec k' k) as [->|Hk]; simpl; [now constructor|].
    constructor; [|now apply IH].
    intros Hin. apply (dict_set_keys k v r k') in Hin as [->|Hin];
      [congruence|exact (Hk' Hin)].
Qed.

Lemma dict_In_get {V} (d : dict V) k v :
  NoDup (dict_keys d) -> In (k, v) d -> dict_get d k = Some v.
Proof.
  unfold dict_keys. induction d as [|[k' v'] r IH]; simpl; [tauto|].
  intros Hnd [[= -> ->]|Hin].
  - now rewrite String.eqb_refl.
  - inversion Hnd as [|? ? Hk' Hr]; subst.
    destruct (String.eqb_spec k' k) as [->|Hk]; [|now apply IH].
    exfalso. apply Hk'. change k with (fst (k, v)). now apply in_map.
Qed.

(** *** The vote counts of a location *)

Lemma counts_fold_get loc counts : forall d q,
  dict_get (fold_left (counts_step loc) counts d) q =
  match last_matching (fun c => loc_eqb (location c) loc && (party c =? q)) counts with
  | Some c => Some (votes c)
  | None => dict_get d q
  end.
Proof.
  induction counts as [|x r IH]; intros d q; simpl; [reflexivity|].
  rewrite IH.
  destruct (last_matching _ r); [reflexivity|].
  unfold counts_step. destruct (loc_eqb (location x) loc); simpl; [|reflexivity].
  rewrite dict_get_set. now destruct (party x =? q).
Qed.

Lemma counts_fold_NoDup loc counts : forall d,
  NoDup (dict_keys d) -> NoDup (dict_keys (fold_left (counts_step loc) counts d)).
Proof.
  induction counts as [|x r IH]; intros d H; simpl; [exact H|].
  apply IH. unfold counts_step.
  destruct (loc_eqb (location x) loc); [now apply dict_set_NoDup|exact H].
Qed.

Lemma counts_fold_nonempty loc counts : forall d,
  (d <> [] \/ exists c, In c counts /\ loc_eqb (location c) loc = true) ->
  fold_left (counts_step loc) counts d <> [].
Proof.
  induction counts as [|x r IH]; intros d H; simpl.
  - destruct H as [H|(c & [] & _)]. exact H.
  - apply IH. unfold counts_step.
    destruct (loc_eqb (location x) loc) eqn:E.
    + left. destruct d as [|[k v] d']; simpl; [discriminate|].
      destruct (k =? party x); discriminate.
    + destruct H as [H|(c & [->|Hin] & Hc)]; [now left|congruence|].
      right. now exists c.
Qed.

Lemma last_matching_filter {A} (keep test : A -> bool) l :
  last_matching test (filter keep l)
  = last_matching (fun x => keep x && test x) l.
Proof.
  induction l as [|x r IH]; simpl; [reflexivity|].
  destruct (keep x); simpl; rewrite IH; now destruct (last_matching _ r).
Qed.

Lemma last_matching_ext {A} (f g : A -> bool) l :
  (forall x, f x = g x) -> last_matching f l = last_matching g l.
Proof.
  intros H. induction l as [|x r IH]; simpl; [reflexivity|]. now rewrite IH, H.
Qed.

Lemma last_matching_Some {A} (test : A -> bool) l x :
  last_matching test l = Some x -> In x l /\ test x = true.
Proof.
  induction l as [|y r IH]; simpl; [discriminate|].
  destruct (last_matching test r) as [z|].
  - intros [= ->]. destruct (IH eq_refl). split; [now right|assumption].
  - destruct (test y) eqn:E; [|discriminate]. intros [= ->]. split; [now left|exact E].
Qed.

(** The dictionary of a location holds, for each party, the votes of its
    last selected record there. *)
Lemma party_counts_get COUNTS d f loc q :
  dict_get (party_counts_of (filter (selects d f) COUNTS) loc) q
  = recorded_votes COUNTS d f loc q.
Proof.
  unfold party_counts_of, recorded_votes.
  change (fun d0 count => if loc_eqb (location count) loc
                          then dict_set (party count) (votes count) d0 else d0)
    with (counts_step loc).
  rewrite counts_fold_get, last_matching_filter. simpl.
  rewrite (last_matching_ext _ (fun c => selects d f c && loc_eqb (location c) loc
                                         && (party c =? q)))
    by (intros x; now rewrite andb_assoc).
  now destruct (last_matching _ COUNTS).
Qed.

(** *** The maximum *)

Lemma fold_better rest : forall first,
  In (fold_left better rest first) (first :: rest)
  /\ forall e, In e (first :: rest) -> (snd e <= snd (fold_left better rest first))%Z.
Proof.
  induction rest as [|x r IH]; intros first; simpl.
  - split; [now left|]. intros e [<-|[]]. lia.
  - destruct (IH (better first x)) as [Hin Hmax]. split.
    + destruct Hin as [Hb|Hin]; [|now right; right].
      rewrite <- Hb. unfold better. destruct (Z.ltb _ _); [right; now left|now left].
    + intros e [He|[He|He]].
      * subst e. specialize (Hmax (better first x) (or_introl eq_refl)).
        unfold better in Hmax at 1. destruct (Z.ltb_spec (snd first) (snd x)); lia.
      * subst e. specialize (Hmax (better first x) (or_introl eq_refl)).
        unfold better in Hmax at 1. destruct (Z.ltb_spec (snd first) (snd x)); lia.
      * apply Hmax. now right.
Qed.

Lemma max_key_spec (counter : dict Z) p :
  max_key counter = Some p ->
  exists v, In (p, v) counter /\ forall q u, In (q, u) counter -> (u <= v)%Z.
Proof.
  unfold max_key. destruct counter as [|first rest]; [discriminate|].
  change (fun best entry : string * Z =>
            if Z.ltb (snd best) (snd entry) then entry else best) with better.
  intros [= <-]. destruct (fold_better rest first) as [Hin Hmax].
  exists (snd (fold_left better rest first)). split.
  - now rewrite <- surjective_pairing.
  - intros q u H. exact (Hmax (q, u) H).
Qed.

Lemma max_key_nonempty (counter : dict Z) :
  counter <> [] -> exists p, max_key counter = Some p.
Proof. destruct counter; [congruence|]. intros _. now eexists. Qed.

(** *** The loop over the locations *)

Lemma loc_dict_set_fresh k v d :
  (forall e, In e d -> loc_eqb (fst e) k = false) ->
  loc_dict_set k v d = d ++ [(k, v)].
Proof.
  induction d as [|[k' v'] r IH]; simpl; intros H; [reflexivity|].
  pose proof (H (k', v') (or_introl eq_refl)) as Hk. cbn [fst] in Hk.
  rewrite Hk. rewrite IH; [reflexivity|].
  intros e He. apply H. now right.
Qed.

Lemma winners_loop_spec counts locs : forall acc,
  NoDup (map repr (map fst acc ++ locs)) ->
  (forall loc, In loc locs ->
               exists c, In c counts /\ loc_eqb (location c) loc = true) ->
  winners_loop counts locs acc
  = Ok (acc ++ map (fun loc => (loc, winner_at counts loc)) locs).
Proof.
  induction locs as [|loc rest IH]; intros acc Hnd Hrec; simpl.
  - now rewrite app_nil_r.
  - assert (Hne : party_counts_of counts loc <> []).
    { apply (counts_fold_nonempty loc counts []). right. apply Hrec. now left. }
    unfold winner_at. destruct (max_key_nonempty _ Hne) as [p Hp]. rewrite Hp.
    rewrite loc_dict_set_fresh.
    + rewrite IH.
      * now rewrite <- List.app_assoc.
      * rewrite (map_app fst), <- List.app_assoc. exact Hnd.
      * intros l Hl. apply Hrec. now right.
    + intros e He. destruct (loc_eqb (fst e) loc) eqn:E; [|reflexivity].
      exfalso. apply loc_eqb_eq in E.
      rewrite map_app in Hnd. apply NoDup_remove_2 in Hnd. apply Hnd.
      apply in_or_app. left. rewrite <- E. apply in_map. now apply in_map.
Qed.

Lemma seats_unfold COUNTS d location_filter :
  seats COUNTS d location_filter
  = let counts := filter (selects d (filter_or_any location_filter)) COUNTS in
    Ok (map (fun loc => (loc, winner_at counts loc))
            (set_of_list (map location counts))).
Proof.
  unfold seats. fold (filter_or_any location_filter).
  rewrite (filter_result_ok _ (selects d (filter_or_any location_filter))).
  - cbn [rbind]. cbv zeta.
    destruct (set_of_list_spec
                (map location (filter (selects d (filter_or_any location_filter))
                                      COUNTS))) as (Hnd & Hin & _).
    rewrite winners_loop_spec; [reflexivity|exact Hnd|].
    intros loc Hloc. apply Hin in Hloc. apply in_map_iff in Hloc as (c & <- & Hc).
    exists c. split; [exact Hc|apply loc_eqb_refl].
  - intros x. rewrite ge_bool_spec. reflexivity.
Qed.

Lemma selects_selected COUNTS d f c :
  Spec.selected COUNTS d f c <-> In c COUNTS /\ selects d f c = true.
Proof.
  unfold Spec.selected, selects. rewrite andb_true_iff, ge_bool_spec.
  split.
  - intros (Hin & Hd & [= Hg]). auto.
  - intros (Hin & Hg & Hd). rewrite Hg. auto.
Qed.

(** The party picked for a location of the set has the largest vote count
    there. *)
Lemma winner_at_votes COUNTS d f loc :
  In loc (set_of_list (map location (filter (selects d f) COUNTS))) ->
  exists v,
    recorded_votes COUNTS d f loc (winner_at (filter (selects d f) COUNTS) loc) = Some v
    /\ forall q u, recorded_votes COUNTS d f loc q = Some u -> (u <= v)%Z.
Proof.
  set (counts := filter (selects d f) COUNTS). intros Hl.
  destruct (set_of_list_spec (map location counts)) as (_ & Hin & _).
  unfold winner_at.
  assert (Hne : party_counts_of counts loc <> []).
  { apply (counts_fold_nonempty loc counts []). right.
    apply Hin in Hl. apply in_map_iff in Hl as (c & Hc & Hcin).
    exists c. split; [exact Hcin|]. rewrite Hc. apply loc_eqb_refl. }
  destruct (max_key_nonempty _ Hne) as [w Hw]. rewrite Hw.
  destruct (max_key_spec _ _ Hw) as (v & Hv & Hmax).
  assert (Hkeys : NoDup (dict_keys (party_counts_of counts loc))).
  { apply (counts_fold_NoDup loc counts []). constructor. }
  exists v. split.
  - rewrite <- party_counts_get. fold counts. now apply dict_In_get.
  - intros q u Hq. rewrite <- party_counts_get in Hq. fold counts in Hq.
    apply dict_get_In in Hq. exact (Hmax q u Hq).
Qed.

End SeatsFacts.

(** On any list of records, [seats] returns, for the date and the filter
    (any location when none is given), a list with exactly one pair for
    each distinct location among the selected records, so as many pairs
    as there are distinct reporting locations; the location of a pair is
    that of a selected record; and the party of a pair attains the
    maximum of the vote counts of the parties at that location, where the
    vote count of a party is that of its last selected record there. *)
Lemma seats_one_winner_per_location
        (COUNTS : list VoteTotal) (d : datetime_date)
        (location_filter : option Location) :
  let f := filter_or_any location_filter in
  exists out,
    seats COUNTS d location_filter = Ok out
    /\ NoDup (map (fun x => repr (fst x)) out)
    /\ (forall r, In r (map (fun x => repr (fst x)) out)
                  <-> In r (reporting COUNTS d f))
    /\ length out = length (nodup string_dec (reporting COUNTS d f))
    /\ (forall loc p,
          In (loc, p) out ->
          (exists c, In c COUNTS /\ selects d f c = true /\ location c = loc)
          /\ exists v,
               recorded_votes COUNTS d f loc p = Some v
               /\ forall q u, recorded_votes COUNTS d f loc q = Some u -> (u <= v)%Z).
Proof.
  intros f. rewrite SeatsFacts.seats_unfold. fold f. cbv zeta.
  set (counts := filter (selects d f) COUNTS).
  destruct (SeatsFacts.set_of_list_spec (map location counts)) as (Hnd & Hin & Hrepr).
  eexists. split; [reflexivity|].
  assert (Hmap : map (fun x : Location * string => repr (fst x))
                     (map (fun loc => (loc, winner_at counts loc))
                          (set_of_list (map location counts)))
                 = map repr (set_of_list (map location counts))).
  { rewrite map_map. reflexivity. }
  assert (Hrep : forall r, In r (map repr (set_of_list (map location counts)))
                           <-> In r (reporting COUNTS d f)).
  { intros r. rewrite Hrepr. unfold reporting. fold counts. now rewrite map_map. }
  rewrite Hmap. split; [exact Hnd|]. split; [exact Hrep|]. split.
  - rewrite length_map, <- (length_map repr).
    apply Permutation_length, NoDup_Permutation; [exact Hnd|apply NoDup_nodup|].
    intros r. rewrite Hrep. symmetry. apply nodup_In.
  - intros loc p Hout. apply in_map_iff in Hout as (l & [= -> <-] & Hl). split.
    + apply Hin in Hl. apply in_map_iff in Hl as (c & Hc & Hcin).
      unfold counts in Hcin. apply filter_In in Hcin as [Hcin Hsel].
      exists c. auto.
    + exact (SeatsFacts.winner_at_votes COUNTS d f loc Hl).
Qed.

(** On a list with two records for a party at one location and date,
    which [COUNTS] is not meant to be, the later record replaces the
    earlier one before the maximum is taken, and the party returned has
    fewer votes than a record there. *)
Example seats_two_records_for_a_party :
  seats Sample.counts_with_two_records Sample.election_day None
  = Ok [(Sample.gower, "Conservative and Unionist Party")]
  /\ ~ Spec.attains_maximum Sample.counts_with_two_records Sample.election_day
         (filter_or_any None) Sample.gower "Conservative and Unionist Party".
Proof.
  split; [reflexivity|].
  intros (c & Hsel & _ & Hp & Hmax).
  assert (Hfirst : Spec.selected Sample.counts_with_two_records Sample.election_day
                     (filter_or_any None)
                     (mkVoteTotal Sample.gower Sample.election_day "Labour Party"
                                  (VStr "Lab") 100)).
  { split; [now left|]. split; reflexivity. }
  specialize (Hmax _ Hfirst eq_refl).
  destruct Hsel as (Hin & _).
  simpl in Hin. destruct Hin as [<-|[<-|[<-|[]]]]; simpl in *; try discriminate.
  lia.
Qed.

(** When every party has one selected record at a location, the vote
    count of a party there is that of its record. *)
Lemma last_matching_unique (test : VoteTotal -> bool) (l : list VoteTotal) c :
  NoDup (map party (filter test l)) ->
  In c l -> test c = true ->
  last_matching (fun x => test x && (party x =? party c)) l = Some c.
Proof.
  induction l as [|x r IH]; simpl; [tauto|].
  intros Hnd Hin Hc.
  assert (Hnd' : NoDup (map party (filter test r))).
  { destruct (test x); [now inversion Hnd|exact Hnd]. }
  destruct Hin as [->|Hin].
  - destruct (last_matching _ r) as [y|] eqn:Ey.
    + exfalso. apply SeatsFacts.last_matching_Some in Ey as [Hy Hty].
      apply andb_true_iff in Hty as [Hty Hpy]. apply String.eqb_eq in Hpy.
      rewrite Hc in Hnd. simpl in Hnd. inversion Hnd as [|? ? Hnotin _]; subst.
      apply Hnotin. rewrite <- Hpy. apply in_map. apply filter_In. now split.
    + now rewrite Hc, String.eqb_refl.
  - now rewrite (IH Hnd' Hin Hc).
Qed.

Lemma date_eqb_same a b d :
  date_eqb a d = true -> date_eqb b d = true -> date_eqb a b = true.
Proof.
  unfold date_eqb. rewrite !andb_true_iff, !Z.eqb_eq.
  intros [[-> ->] ->] [[-> ->] ->]. auto.
Qed.

(** In a list with one record for each combination, the selected records
    of a location are for different parties. *)
Lemma one_record_per_party COUNTS d f loc :
  one_record_per_combination COUNTS = true ->
  NoDup (map party
             (filter (fun c => selects d f c && loc_eqb (location c) loc) COUNTS)).
Proof.
  induction COUNTS as [|c r IH]; cbn [one_record_per_combination filter map].
  - intros _. constructor.
  - intros H. apply andb_true_iff in H as [Hc Hr].
    destruct (selects d f c && loc_eqb (location c) loc) eqn:Ec; [|now apply IH].
    cbn [map]. constructor; [|now apply IH].
    intros Hin. apply in_map_iff in Hin as (c' & Hp & Hin').
    apply filter_In in Hin' as [Hin' Hc'].
    rewrite forallb_forall in Hc. specialize (Hc c' Hin').
    apply negb_true_iff in Hc.
    apply andb_true_iff in Ec as [Hs Hl]. apply andb_true_iff in Hc' as [Hs' Hl'].
    unfold selects in Hs, Hs'.
    apply andb_true_iff in Hs as [_ Hd]. apply andb_true_iff in Hs' as [_ Hd'].
    unfold same_combination in Hc.
    rewrite (date_eqb_same _ _ _ Hd Hd'), <- Hp, String.eqb_refl in Hc.
    apply SeatsFacts.loc_eqb_eq in Hl, Hl'.
    assert (Hll : loc_eqb (location c) (location c') = true)
      by (apply SeatsFacts.loc_eqb_eq; congruence).
    rewrite Hll in Hc. discriminate.
Qed.

(** C2.  [COUNTS] holds one record for each party / location / date
    combination.  For every date and every filter (any location when
    none is given), [seats] returns a list with exactly one pair for each
    distinct location among the records of that date that the filter
    matches, so as many pairs as there are distinct reporting locations;
    the location of a pair is that of such a record, and the party of a
    pair attains the maximum vote count among the records of that
    location for the date. *)
Theorem seats_winner_per_location
        (COUNTS : list VoteTotal) (d : datetime_date)
        (location_filter : option Location) :
  one_record_per_combination COUNTS = true ->
  exists out,
    seats COUNTS d location_filter = Ok out
    /\ NoDup (map (fun x => repr (fst x)) out)
    /\ (forall r, In r (map (fun x => repr (fst x)) out)
                  <-> In r (reporting COUNTS d (filter_or_any location_filter)))
    /\ length out
       = length (nodup string_dec
                       (reporting COUNTS d (filter_or_any location_filter)))
    /\ (forall loc p,
          In (loc, p) out ->
          (exists c, Spec.selected COUNTS d (filter_or_any location_filter) c
                     /\ location c = loc)
          /\ Spec.attains_maximum COUNTS d (filter_or_any location_filter) loc p).
Proof.
  intros Hone.
  destruct (seats_one_winner_per_location COUNTS d location_filter)
    as (out & Hseats & Hnd & Hrep & Hlen & Hwin).
  cbv zeta in *. set (f := filter_or_any location_filter) in *.
  exists out. repeat (split; [assumption|]).
  intros loc p Hout.
  destruct (Hwin loc p Hout) as ((c0 & Hin0 & Hsel0 & Hloc0) & v & Hv & Hmax).
  split.
  { exists c0. split; [apply SeatsFacts.selects_selected; now split|exact Hloc0]. }
  unfold recorded_votes in Hv.
  destruct (last_matching _ COUNTS) as [c|] eqn:Ec; [|discriminate].
  injection Hv as <-.
  apply SeatsFacts.last_matching_Some in Ec as [Hin Hc].
  apply andb_true_iff in Hc as [Hc Hp]. apply andb_true_iff in Hc as [Hsel Hloc].
  apply String.eqb_eq in Hp.
  exists c. split; [apply SeatsFacts.selects_selected; now split|].
  split; [exact Hloc|]. split; [exact Hp|].
  intros c' Hsel' Hloc'. apply SeatsFacts.selects_selected in Hsel' as [Hin' Hsel'].
  apply (Hmax (party c')). unfold recorded_votes.
  rewrite (last_matching_unique _ COUNTS c'
             (one_record_per_party COUNTS d f loc Hone) Hin'); [reflexivity|].
  now rewrite Hsel', Hloc'.
Qed.

Lemma seats_winner_per_location_witness :
  exists out,
    seats Sample.counts_one_record_each Sample.election_day None = Ok out
    /\ NoDup (map (fun x => repr (fst x)) out)
    /\ (forall r, In r (map (fun x => repr (fst x)) out)
                  <-> In r (reporting Sample.counts_one_record_each
                                      Sample.election_day (filter_or_any None)))
    /\ length out
       = length (nodup string_dec
                       (reporting Sample.counts_one_record_each
                                  Sample.election_day (filter_or_any None)))
    /\ (forall loc p,
          In (loc, p) out ->
          (exists c, Spec.selected Sample.counts_one_record_each
                                   Sample.election_day (filter_or_any None) c
                     /\ location c = loc)
          /\ Spec.attains_maximum Sample.counts_one_record_each
                                  Sample.election_day (filter_or_any None) loc p).
Proof.
  exact (seats_winner_per_location Sample.counts_one_record_each
                                   Sample.election_day None eq_refl).
Defined.

Example seats_one_record_each :
  seats Sample.counts_one_record_each Sample.election_day None
  = Ok [(Sample.gower, "Labour Party"); (Sample.swansea_west, "Labour Party")]
  /\ seats Sample.counts_one_record_each Sample.election_day
           (Some (mkLocation None (Some "gower") None None None None))
     = Ok [(Sample.gower, "Labour Party")].
Proof. split; reflexivity. Qed.

(** X25.  With one record for each party among the selected records of
    a location, the party [seats] returns for that location attains the
    maximum vote count among the selected records of the location. *)
Lemma seats_winner_attains_maximum
      (COUNTS : list VoteTotal) (d : datetime_date)
      (location_filter : option Location) out loc p :
  seats COUNTS d location_filter = Ok out ->
  In (loc, p) out ->
  NoDup (map party
             (filter (fun c => selects d (filter_or_any location_filter) c
                               && loc_eqb (location c) loc) COUNTS)) ->
  Spec.attains_maximum COUNTS d (filter_or_any location_filter) loc p.
Proof.
  intros Hseats Hout Hnd.
  rewrite SeatsFacts.seats_unfold in Hseats. cbv zeta in Hseats.
  injection Hseats as <-.
  apply in_map_iff in Hout as (l & [= -> <-] & Hl).
  destruct (SeatsFacts.winner_at_votes COUNTS d _ loc Hl) as (v & Hv & Hmax).
  unfold recorded_votes in Hv.
  destruct (last_matching _ COUNTS) as [c|] eqn:Ec; [|discriminate].
  injection Hv as <-.
  apply SeatsFacts.last_matching_Some in Ec as [Hin Hc].
  apply andb_true_iff in Hc as [Hc Hp]. apply andb_true_iff in Hc as [Hsel Hloc].
  apply String.eqb_eq in Hp.
  exists c. split; [apply SeatsFacts.selects_selected; now split|].
  split; [exact Hloc|]. split; [exact Hp|].
  intros c' Hsel' Hloc'. apply SeatsFacts.selects_selected in Hsel' as [Hin' Hsel'].
  apply (Hmax (party c')). unfold recorded_votes.
  rewrite (last_matching_unique _ COUNTS c' Hnd Hin'); [reflexivity|].
  now rewrite Hsel', Hloc'.
Qed.

(** * Further properties of the code *)

(** ** location.py *)

Module LocationMore.
Import PyStr PyStrFacts LocationFacts.

(** The comparison on a record without delimiter in its fields, field by
    field. *)
Lemma ge_rendered a b :
  fields_without_delimiter b = true ->
  __ge__ a b =
  Ok (rendered_field_matches (ons_id a) (ons_id b)
      && rendered_field_matches (constituency a) (constituency b)
      && rendered_field_matches (county a) (county b)
      && rendered_field_matches (region a) (region b)
      && rendered_field_matches (country a) (country b)).
Proof.
  intros Hb. unfold __ge__, _contains_loc_as_raw_string, _string_properties_list.
  rewrite (split_repr_plain b Hb). unfold rendered_field_matches.
  repeat (erewrite contains_loop_step by reflexivity;
          match goal with
          | |- (if ?c then _ else _) = _ => destruct c; [|reflexivity]
          end).
  reflexivity.
Qed.

Lemma rendered_self o : rendered_field_matches o o = true.
Proof. destruct o; simpl; [apply String.eqb_refl|reflexivity]. Qed.

Lemma lower_char_star c : lower_char c = "*"%char -> c = "*"%char.
Proof. destruct c as [[] [] [] [] [] [] [] []]; vm_compute; congruence. Qed.

Lemma lower_star s : lower s = "*" -> s = "*".
Proof.
  destruct s as [|c [|d r]]; simpl; try discriminate.
  intros [= H]. now rewrite (lower_char_star c H).
Qed.

Lemma rendered_trans x y z :
  match x with Some s => negb (s =? "*") | None => true end = true ->
  rendered_field_matches x y = true ->
  rendered_field_matches y z = true ->
  rendered_field_matches x z = true.
Proof.
  destruct x as [s|]; simpl; [|reflexivity].
  intros Hs Hxy Hyz. apply String.eqb_eq in Hxy.
  destruct y as [t|]; simpl in *.
  - apply String.eqb_eq in Hyz. apply String.eqb_eq. congruence.
  - change (lower "*") with "*" in Hxy. apply lower_star in Hxy. subst s.
    discriminate.
Qed.

Lemma split_pieces_plain sep s :
  Forall (fun piece => contains_char sep piece = false) (split sep s).
Proof.
  induction s as [|c r IH]; simpl.
  - constructor; [reflexivity|constructor].
  - destruct (Ascii.eqb c sep) eqn:E.
    + constructor; [reflexivity|exact IH].
    + destruct (split sep r) as [|p ps]; [repeat constructor; simpl; now rewrite E|].
      inversion IH; subst. constructor; [simpl; now rewrite E|assumption].
Qed.

Lemma split_length sep s : length (split sep s) = S (count_char sep s).
Proof.
  induction s as [|c r IH]; simpl; [reflexivity|].
  destruct (Ascii.eqb c sep); simpl; [now rewrite IH|].
  destruct (split sep r); simpl in *; [discriminate|exact IH].
Qed.

Lemma wildcard_of_piece p : _wildcard_if_none (wildcard_to_nonetype p) = p.
Proof.
  unfold wildcard_to_nonetype. destruct (String.eqb_spec p "*"); simpl; congruence.
Qed.

Lemma piece_not_token p :
  match wildcard_to_nonetype p with Some s => negb (s =? "*") | None => true end = true.
Proof.
  unfold wildcard_to_nonetype. destruct (p =? "*") eqn:E; [reflexivity|].
  now rewrite E.
Qed.

(** What [from_raw_string] gives, from the pieces of the string. *)
Lemma from_raw_string_pieces raw l :
  from_raw_string raw = Ok l ->
  exists p0 p1 p2 p3 p4 p5 rest,
    split "|" raw = p0 :: p1 :: p2 :: p3 :: p4 :: p5 :: rest
    /\ ons_id l = wildcard_to_nonetype p0
    /\ constituency l = wildcard_to_nonetype p1
    /\ county l = wildcard_to_nonetype p2
    /\ region l = wildcard_to_nonetype p3
    /\ country l = wildcard_to_nonetype p4
    /\ match wildcard_to_nonetype p5 with
       | None => electorate l = None
       | Some digits => exists n, int_of_str digits = Some n /\ electorate l = Some n
       end.
Proof.
  unfold from_raw_string.
  destruct (split "|" raw) as [|p0 [|p1 [|p2 [|p3 [|p4 [|p5 rest]]]]]];
    try discriminate.
  cbn [map]. intros H. exists p0, p1, p2, p3, p4, p5, rest.
  destruct (wildcard_to_nonetype p5) as [digits|].
  - destruct (int_of_str digits) as [n|]; [|discriminate].
    injection H as <-. cbn. repeat split; try reflexivity. now exists n.
  - injection H as <-. cbn. repeat split; reflexivity.
Qed.

End LocationMore.



(** The raw comparison does raise on a string with too few pieces. *)
Example contains_raw_index_error :
  _contains_loc_as_raw_string (mkLocation None None None None (Some "Wales") None)
                              "a|b|c"
  = Raise IndexError.
Proof. reflexivity. Qed.

(** X2.  A location without the delimiter in its string fields is at
    least as general as itself, in both directions of the comparison. *)
Theorem ge_reflexive (l : Location) :
  fields_without_delimiter l = true ->
  __ge__ l l = Ok true /\ __le__ l l = Ok true.
Proof.
  intros Hl. unfold __le__. rewrite (LocationMore.ge_rendered l l Hl).
  now rewrite !LocationMore.rendered_self.
Qed.

Lemma ge_reflexive_witness :
  __ge__ Sample.gower Sample.gower = Ok true
  /\ __le__ Sample.gower Sample.gower = Ok true.
Proof. exact (ge_reflexive Sample.gower eq_refl). Defined.

(** With the delimiter in a field a location does not match itself. *)
Example ge_not_reflexive_with_delimiter :
  __ge__ (mkLocation None (Some "a|b") None None None None)
         (mkLocation None (Some "a|b") None None None None) = Ok false.
Proof. reflexivity. Qed.

(** X3.  The comparison chains: when [A >= B] and [B >= C], no string
    field of [B] or [C] holds the delimiter and no string field of [A] is
    the wildcard token itself, then [A >= C]. *)
Theorem ge_transitive (a b c : Location) :
  fields_without_token a = true ->
  fields_without_delimiter b = true ->
  fields_without_delimiter c = true ->
  __ge__ a b = Ok true -> __ge__ b c = Ok true -> __ge__ a c = Ok true.
Proof.
  intros Ha Hb Hc.
  rewrite (LocationMore.ge_rendered a b Hb), (LocationMore.ge_rendered b c Hc),
    (LocationMore.ge_rendered a c Hc).
  unfold fields_without_token, _string_properties_list in Ha. cbn [forallb] in Ha.
  rewrite !andb_true_iff in Ha. destruct Ha as (A0 & A1 & A2 & A3 & A4 & _).
  intros [= Hab] [= Hbc]. f_equal.
  rewrite !andb_true_iff in *.
  destruct Hab as ((((B0 & B1) & B2) & B3) & B4).
  destruct Hbc as ((((C0 & C1) & C2) & C3) & C4).
  repeat split; eauto using LocationMore.rendered_trans.
Qed.

Lemma ge_transitive_witness :
  __ge__ (mkLocation None None None None (Some "wales") None) Sample.gower = Ok true.
Proof.
  exact (ge_transitive
           (mkLocation None None None None (Some "wales") None)
           (mkLocation None None None (Some "WALES") (Some "Wales") None)
           Sample.gower eq_refl eq_refl eq_refl eq_refl eq_refl).
Defined.

(** Without the condition on the token the chain breaks. *)
Example ge_not_transitive_with_token :
  let a := mkLocation None None None None (Some "*") None in
  let b := mkLocation None None None None None None in
  __ge__ a b = Ok true /\ __ge__ b Sample.gower = Ok true
  /\ __ge__ a Sample.gower = Ok false.
Proof. repeat split; reflexivity. Qed.

(** The pieces of a string are no longer than the string. *)
Lemma split_piece_length sep raw :
  Forall (fun p => (String.length p <= String.length raw)%nat) (PyStr.split sep raw).
Proof.
  induction raw as [|c r IH]; cbn [PyStr.split].
  - constructor; [apply Nat.le_refl|constructor].
  - destruct (Ascii.eqb c sep).
    + constructor; [cbn; lia|].
      eapply Forall_impl; [|exact IH]. cbn. intros p Hp. lia.
    + destruct (PyStr.split sep r) as [|p ps]; [constructor; [cbn; lia|constructor]|].
      inversion IH as [|? ? Hp Hps]; subst.
      constructor; [cbn; lia|].
      eapply Forall_impl; [|exact Hps]. cbn. intros q Hq. lia.
Qed.

(** X4.  On a string within the digit limit of [int]: [from_raw_string]
    raises [IndexError] exactly when the string has fewer than five
    delimiters; it raises [ValueError] exactly when there is a sixth
    piece, that piece, itself within the limit, is not the token, and
    [int] does not read it; it raises nothing else; and what follows a
    sixth delimiter is not looked at. *)
Theorem from_raw_string_raises (raw : string) :
  (String.length raw <= PyStr.max_str_digits)%nat ->
  (from_raw_string raw = Raise IndexError <-> (count_char "|" raw < 5)%nat)
  /\ (from_raw_string raw = Raise ValueError
      <-> exists p, nth_error (PyStr.split "|" raw) 5 = Some p
                    /\ (String.length p <= PyStr.max_str_digits)%nat
                    /\ (p =? "*") = false
                    /\ PyStr.int_of_str p = None)
  /\ (forall e, from_raw_string raw = Raise e -> e = IndexError \/ e = ValueError)
  /\ (forall more, (5 <= count_char "|" raw)%nat ->
                   from_raw_string (raw ++ String "|" more)%string = from_raw_string raw).
Proof.
  intros Hraw.
  pose proof (LocationMore.split_length "|" raw) as Hlen.
  pose proof (split_piece_length "|" raw) as Hpieces.
  unfold from_raw_string.
  split; [|split; [|split]].
  - destruct (PyStr.split "|" raw) as [|p0 [|p1 [|p2 [|p3 [|p4 [|p5 rest]]]]]];
      cbn [map length] in *; try (split; [intros _; lia|reflexivity]).
    split; [|lia].
    destruct (wildcard_to_nonetype p5); [|discriminate].
    destruct (PyStr.int_of_str s); discriminate.
  - destruct (PyStr.split "|" raw) as [|p0 [|p1 [|p2 [|p3 [|p4 [|p5 rest]]]]]];
      cbn [map nth_error];
      try (split; [discriminate|intros (p & Hp & _); discriminate]).
    assert (Hp5 : (String.length p5 <= PyStr.max_str_digits)%nat).
    { do 5 (apply Forall_inv_tail in Hpieces). apply Forall_inv in Hpieces. lia. }
    unfold wildcard_to_nonetype. destruct (p5 =? "*") eqn:E.
    + split; [discriminate|]. intros (p & [= <-] & _ & Hne & _). congruence.
    + destruct (PyStr.int_of_str p5) eqn:Ei.
      * split; [discriminate|]. intros (p & [= <-] & _ & _ & Hnone). congruence.
      * split; [|reflexivity]. intros _. exists p5. auto.
  - intros e.
    destruct (PyStr.split "|" raw) as [|p0 [|p1 [|p2 [|p3 [|p4 [|p5 rest]]]]]];
      cbn [map]; try (intros [= <-]; now left).
    destruct (wildcard_to_nonetype p5); [|discriminate].
    destruct (PyStr.int_of_str s); [discriminate|]. intros [= <-]. now right.
  - intros more Hfive. rewrite PyStrFacts.split_app.
    destruct (PyStr.split "|" raw) as [|p0 [|p1 [|p2 [|p3 [|p4 [|p5 rest]]]]]];
      cbn [length] in Hlen; try lia.
    reflexivity.
Qed.

Lemma from_raw_string_raises_witness :
  from_raw_string "*|GOWER|West Glamorgan|Wales|Wales|sixty" = Raise ValueError
  /\ from_raw_string "*|GOWER|West Glamorgan|Wales|Wales" = Raise IndexError.
Proof.
  destruct (from_raw_string_raises "*|GOWER|West Glamorgan|Wales|Wales|sixty")
    as (_ & Hvalue & _); [vm_compute; lia|].
  destruct (from_raw_string_raises "*|GOWER|West Glamorgan|Wales|Wales")
    as (Hindex & _); [vm_compute; lia|].
  split.
  - apply Hvalue. exists "sixty". repeat split; try reflexivity. vm_compute. lia.
  - apply Hindex. vm_compute. lia.
Defined.

(** The separator U+001C, which [str.strip] drops, is not read by [int]. *)
Example from_raw_string_separator :
  from_raw_string (String.append "*|*|*|*|*|" (String (ascii_of_nat 28) "5"))
  = Raise ValueError.
Proof. reflexivity. Qed.

(** A location read from a string, read again. *)
Lemma from_raw_string_plain (raw : string) (l : Location) :
  from_raw_string raw = Ok l ->
  fields_without_delimiter l = true
  /\ fields_without_token l = true
  /\ from_raw_string (repr l) = Ok l.
Proof.
  intros Hraw.
  destruct (LocationMore.from_raw_string_pieces raw l Hraw)
    as (p0 & p1 & p2 & p3 & p4 & p5 & rest & Hsplit & H0 & H1 & H2 & H3 & H4 & H5).
  pose proof (LocationMore.split_pieces_plain "|" raw) as Hplain.
  rewrite Hsplit in Hplain.
  inversion Hplain as [|? ? P0 Hp1]; subst.
  inversion Hp1 as [|? ? P1 Hp2]; subst.
  inversion Hp2 as [|? ? P2 Hp3]; subst.
  inversion Hp3 as [|? ? P3 Hp4]; subst.
  inversion Hp4 as [|? ? P4 _]; subst.
  assert (Hd : fields_without_delimiter l = true).
  { unfold fields_without_delimiter, _string_properties_list. cbn [forallb].
    rewrite H0, H1, H2, H3, H4, !LocationMore.wildcard_of_piece.
    now rewrite P0, P1, P2, P3, P4. }
  split; [exact Hd|]. split.
  - unfold fields_without_token, _string_properties_list. cbn [forallb].
    rewrite H0, H1, H2, H3, H4, !LocationMore.piece_not_token. reflexivity.
  - unfold from_raw_string. rewrite (LocationFacts.split_repr_plain l Hd). cbn [map].
    rewrite H0, H1, H2, H3, H4, !LocationMore.wildcard_of_piece.
    destruct l as [i c y r k e]. cbn in *. subst.
    destruct (wildcard_to_nonetype p5) as [digits|].
    + destruct H5 as (n & _ & ->). cbn [_wildcard_if_none_int].
      assert (Hint : wildcard_to_nonetype (PyStr.str_of_int n)
                     = Some (PyStr.str_of_int n)).
      { unfold wildcard_to_nonetype.
        now rewrite PyStrFacts.str_of_int_not_wildcard. }
      rewrite Hint, PyStrFacts.int_of_str_of_int. reflexivity.
    + rewrite H5. reflexivity.
Qed.

(** X5.  A location read from a string has no delimiter in its string
    fields and no field that is the token itself, and reading its
    canonical string gives the very same location back. *)
Theorem from_raw_string_stable (raw : string) (l : Location) :
  from_raw_string raw = Ok l ->
  fields_without_delimiter l = true
  /\ fields_without_token l = true
  /\ from_raw_string (repr l) = Ok l.
Proof. apply from_raw_string_plain. Qed.

Lemma from_raw_string_stable_witness :
  fields_without_delimiter Sample.gower = true
  /\ fields_without_token Sample.gower = true
  /\ from_raw_string (repr Sample.gower) = Ok Sample.gower.
Proof.
  exact (from_raw_string_stable "*|GOWER|West Glamorgan|Wales|Wales| 61_762 "
                                Sample.gower eq_refl).
Defined.

(** ** names.py: more on the cache and the resolver *)

Module CacheFacts.

Lemma cache_find_None k c : cache_find k c = None -> ~ In k (map fst c).
Proof.
  induction c as [|[k' v'] r IH]; simpl; [tauto|].
  destruct (call_eqb k' k) eqn:E; [discriminate|].
  intros H [->|Hin]; [|now apply IH].
  now rewrite PyValueFacts.call_eqb_refl in E.
Qed.

Lemma cache_find_app k pre l :
  cache_find k (pre ++ l)
  = match cache_find k pre with
    | Some v => Some v
    | None => cache_find k l
    end.
Proof.
  induction pre as [|[k' v'] r IH]; simpl; [reflexivity|].
  destruct (call_eqb k' k); [reflexivity|exact IH].
Qed.

Lemma cache_remove_length k c : (length (cache_remove k c) <= length c)%nat.
Proof.
  unfold cache_remove. induction c as [|x r IH]; simpl; [lia|].
  destruct (negb _); simpl; lia.
Qed.

Lemma cache_remove_found k c v :
  cache_find k c = Some v -> (S (length (cache_remove k c)) <= length c)%nat.
Proof.
  induction c as [|[k' v'] r IH]; simpl; [discriminate|].
  destruct (call_eqb k' k) eqn:E; simpl.
  - intros _. pose proof (cache_remove_length k r). unfold cache_remove in *. lia.
  - intros H. apply IH in H. unfold cache_remove in *. lia.
Qed.

Lemma cache_remove_keys k c x : In x (map fst (cache_remove k c)) -> In x (map fst c) /\ x <> k.
Proof.
  unfold cache_remove. intros H. apply in_map_iff in H as ([k' v'] & <- & Hin).
  apply filter_In in Hin as [Hin Hne]. simpl in *. split.
  - change k' with (fst (k', v')). now apply in_map.
  - intros ->. now rewrite PyValueFacts.call_eqb_refl in Hne.
Qed.

Lemma cache_remove_NoDup k c :
  NoDup (map fst c) -> NoDup (map fst (cache_remove k c)).
Proof.
  induction c as [|[k' v'] r IH]; simpl; intros H; [constructor|].
  inversion H as [|? ? Hk Hr]; subst.
  destruct (negb (call_eqb k' k)); simpl; [|now apply IH].
  constructor; [|now apply IH].
  intros Hin. apply (cache_remove_keys k r k') in Hin as [Hin _]. contradiction.
Qed.

Lemma cache_remove_find k c x :
  cache_find x c = None -> cache_find x (cache_remove k c) = None.
Proof.
  induction c as [|[k' v'] r IH]; simpl; [reflexivity|].
  destruct (call_eqb k' x) eqn:E; [discriminate|]. intros H.
  destruct (negb (call_eqb k' k)); simpl; [rewrite E|]; now apply IH.
Qed.

Lemma cache_remove_app k pre l :
  cache_remove k (pre ++ l) = cache_remove k pre ++ cache_remove k l.
Proof. unfold cache_remove. apply filter_app. Qed.

Lemma firstn_NoDup {A} n : forall l : list A, NoDup l -> NoDup (firstn n l).
Proof.
  induction n as [|n IH]; intros [|x l] H; simpl; try constructor.
  - inversion H; subst. intros Hin. apply In_firstn in Hin. contradiction.
  - inversion H; subst. now apply IH.
Qed.

End CacheFacts.

Section NamesMore.

Variable PARTY_NICKNAMES : dict string.
Variable extractOne : string -> list string -> option (string * Z).

Abbreviation body' := (official__wrapped__ PARTY_NICKNAMES extractOne).
Abbreviation wrapped' := (call_wrapped PARTY_NICKNAMES extractOne).
Abbreviation cached' := (official PARTY_NICKNAMES extractOne).
Abbreviation run' := (run_calls PARTY_NICKNAMES extractOne).

Lemma sound_after history :
  cache_sound PARTY_NICKNAMES extractOne (cache (run' history initial_world)).
Proof. apply cache_sound_run, cache_sound_initial. Qed.

(** *** The size of the cache *)

Lemma cache_shape_step c w :
  (length (cache w) <= maxsize)%nat /\ NoDup (map fst (cache w)) ->
  (length (cache (snd (cached' c w))) <= maxsize)%nat
  /\ NoDup (map fst (cache (snd (cached' c w)))).
Proof.
  intros [Hlen Hnd]. unfold official.
  destruct (cache_find c (cache w)) as [v|] eqn:Ef; cbn [snd cache].
  - split.
    + pose proof (CacheFacts.cache_remove_found c (cache w) v Ef). simpl. lia.
    + simpl. constructor; [|now apply CacheFacts.cache_remove_NoDup].
      intros Hin. apply CacheFacts.cache_remove_keys in Hin as [_ Hne]. congruence.
  - destruct (wrapped' c) as [[v|e] evs]; cbn [snd cache]; [|now split].
    split; [apply firstn_le_length|].
    rewrite <- firstn_map. apply CacheFacts.firstn_NoDup. simpl.
    constructor; [now apply CacheFacts.cache_find_None|exact Hnd].
Qed.

(** X6.  After any calls the cache of [names.official] holds at most 128
    entries and no two entries for the same key. *)
Theorem cache_bounded_and_distinct (history : list call) :
  (length (cache (run' history initial_world)) <= 128)%nat
  /\ NoDup (map fst (cache (run' history initial_world))).
Proof.
  change 128%nat with maxsize.
  assert (H : forall cs w,
             (length (cache w) <= maxsize)%nat /\ NoDup (map fst (cache w)) ->
             (length (cache (run' cs w)) <= maxsize)%nat
             /\ NoDup (map fst (cache (run' cs w)))).
  { induction cs as [|c r IH]; intros w Hw; simpl; [exact Hw|].
    apply IH. now apply cache_shape_step. }
  apply H. simpl. split; [unfold maxsize; lia|constructor].
Qed.

(** *** How long an entry stays *)

Lemma cached_within_find n c v entries :
  cached_within n c v entries -> cache_find c entries = Some v.
Proof.
  intros (pre & post & -> & Hpre & _).
  rewrite CacheFacts.cache_find_app, Hpre. apply cache_find_head.
Qed.

Lemma cached_within_first c w v :
  fst (cached' c w) = Ok v -> cached_within 0 c v (cache (snd (cached' c w))).
Proof.
  unfold official.
  destruct (cache_find c (cache w)) as [v'|] eqn:Ef; cbn [fst snd cache].
  - intros [= ->]. exists [], (cache_remove c (cache w)). simpl. repeat split. lia.
  - destruct (wrapped' c) as [[v'|e] evs]; cbn [fst snd cache]; [|discriminate].
    intros [= ->]. unfold maxsize. rewrite firstn_cons.
    exists [], (firstn 127 (cache w)). simpl. repeat split. lia.
Qed.

Lemma cached_within_step n c v c' w :
  (S n < maxsize)%nat ->
  cached_within n c v (cache w) ->
  cached_within (S n) c v (cache (snd (cached' c' w))).
Proof.
  intros Hn Hc. pose proof (cached_within_find _ _ _ _ Hc) as Hfind.
  destruct Hc as (pre & post & Hw & Hpre & Hlen).
  unfold official.
  destruct (cache_find c' (cache w)) as [v'|] eqn:Ef; cbn [snd cache].
  - destruct (call_eqb c c') eqn:E.
    + apply PyValueFacts.call_eqb_eq in E. subst c'.
      rewrite Hfind in Ef. injection Ef as <-.
      exists [], (cache_remove c (cache w)). simpl. repeat split. lia.
    + rewrite Hw, CacheFacts.cache_remove_app.
      assert (Hkeep : cache_remove c' ((c, v) :: post) = (c, v) :: cache_remove c' post).
      { unfold cache_remove. simpl. now rewrite E. }
      rewrite Hkeep.
      exists ((c', v') :: cache_remove c' pre), (cache_remove c' post).
      split; [reflexivity|]. split.
      * simpl. destruct (call_eqb c' c) eqn:E'.
        -- apply PyValueFacts.call_eqb_eq in E'. subst.
           now rewrite PyValueFacts.call_eqb_refl in E.
        -- now apply CacheFacts.cache_remove_find.
      * pose proof (CacheFacts.cache_remove_length c' pre). simpl. lia.
  - destruct (wrapped' c') as [[v'|e] evs]; cbn [snd cache].
    + assert (Hne : call_eqb c' c = false).
      { destruct (call_eqb c' c) eqn:E'; [|reflexivity].
        apply PyValueFacts.call_eqb_eq in E'. subst. congruence. }
      rewrite Hw.
      change ((c', v') :: pre ++ (c, v) :: post)
        with (((c', v') :: pre) ++ (c, v) :: post).
      rewrite firstn_app.
      rewrite (firstn_all2 (n := maxsize) ((c', v') :: pre)) by (cbn [length]; lia).
      destruct (maxsize - length ((c', v') :: pre))%nat as [|m] eqn:Em;
        [cbn [length] in Em; lia|].
      rewrite firstn_cons.
      exists ((c', v') :: pre), (firstn m post).
      split; [reflexivity|]. split; [simpl; now rewrite Hne|simpl; lia].
    + exists pre, post. split; [exact Hw|]. split; [exact Hpre|lia].
Qed.

Lemma cached_within_run c v cs : forall n w,
  (n + length cs < maxsize)%nat ->
  cached_within n c v (cache w) ->
  cached_within (n + length cs) c v (cache (run' cs w)).
Proof.
  induction cs as [|c' r IH]; intros n w Hn Hc; simpl in *.
  - now rewrite Nat.add_0_r.
  - replace (n + S (length r))%nat with (S n + length r)%nat by lia.
    apply IH; [lia|]. apply cached_within_step; [lia|exact Hc].
Qed.

(** X7.  A value that [names.official] returned stays cached through any
    127 further calls: the same call then returns the same value, from
    the cache, with no fuzzy search and no warning. *)
Theorem official_stays_cached
        (w : world) (c : call) (v : option string) (between : list call) :
  fst (cached' c w) = Ok v ->
  (length between <= 127)%nat ->
  fst (cached' c (run' between (snd (cached' c w)))) = Ok v
  /\ trace (snd (cached' c (run' between (snd (cached' c w)))))
     = trace (run' between (snd (cached' c w))).
Proof.
  intros Hv Hlen. apply official_hit.
  apply (cached_within_find (0 + length between)).
  apply cached_within_run; [unfold maxsize; simpl; lia|].
  now apply cached_within_first.
Qed.

(** *** What the resolver returns *)

Lemma body_some n f w e name :
  fst (body' n f w e) = Ok (Some name) ->
  exists k, dict_get PARTY_NICKNAMES k = Some name.
Proof.
  unfold official__wrapped__.
  destruct (isna n); [destruct (truthy e); discriminate|].
  destruct n as [| |s|b]; try discriminate.
  destruct (Nat.eqb _ 0); [discriminate|].
  destruct (dict_get PARTY_NICKNAMES (PyStr.strip (PyStr.lower s))) as [x|] eqn:E.
  - intros [= <-]. eexists. exact E.
  - destruct (truthy f); [|discriminate].
    destruct (extractOne _ _) as [[m sc]|]; [|discriminate].
    destruct (dict_get PARTY_NICKNAMES m) as [x|] eqn:Em; [|discriminate].
    destruct (truthy w); intros [= <-]; eexists; exact Em.
Qed.

Lemma wrapped_some c name :
  fst (wrapped' c) = Ok (Some name) ->
  exists k, dict_get PARTY_NICKNAMES k = Some name.
Proof.
  unfold call_wrapped. destruct (bind_arguments c) as [[[[n f] w] e]|]; [|discriminate].
  apply body_some.
Qed.

(** X8.  After any calls, a name that [names.official] returns, by exact
    or by fuzzy match, is a value of the nickname table. *)
Theorem official_returns_table_names (history : list call) (c : call) (name : string) :
  fst (cached' c (run' history initial_world)) = Ok (Some name) ->
  exists k, dict_get PARTY_NICKNAMES k = Some name.
Proof.
  rewrite (official_result _ _ _ _ (sound_after history)). apply wrapped_some.
Qed.

Lemma body_not_found s f w e :
  PyStr.strip (PyStr.lower s) <> EmptyString ->
  dict_get PARTY_NICKNAMES (PyStr.strip (PyStr.lower s)) = None ->
  truthy f = false ->
  body' (VStr s) f w e = (Raise (PartyNameNotFound (PyStr.strip (PyStr.lower s))), []).
Proof.
  intros Hne Hget Hf. unfold official__wrapped__. simpl.
  destruct (Nat.eqb (String.length (PyStr.strip (PyStr.lower s))) 0) eqn:El.
  - apply StripFacts.length_zero in El. contradiction.
  - now rewrite Hget, Hf.
Qed.

(** X9.  After any calls, with fuzzy matching turned off, a nickname
    whose lower-cased and trimmed form is not empty and not a key of the
    table raises [PartyNameNotFound] with that form, and nothing is
    searched or logged. *)
Theorem official_not_found_without_fuzzy
        (history : list call) (c : call) (s : string) (f w e : pyvalue) :
  bind_arguments c = Some (VStr s, f, w, e) ->
  truthy f = false ->
  PyStr.strip (PyStr.lower s) <> EmptyString ->
  dict_get PARTY_NICKNAMES (PyStr.strip (PyStr.lower s)) = None ->
  fst (cached' c (run' history initial_world))
  = Raise (PartyNameNotFound (PyStr.strip (PyStr.lower s)))
  /\ trace (snd (cached' c (run' history initial_world)))
     = trace (run' history initial_world).
Proof.
  intros Hb Hf Hne Hget. split.
  - rewrite (official_result _ _ _ _ (sound_after history)),
      (wrapped_bound _ _ _ _ _ _ _ Hb).
    now rewrite (body_not_found _ _ _ _ Hne Hget Hf).
  - rewrite official_trace. destruct (cache_find c _); [apply app_nil_r|].
    rewrite (wrapped_bound _ _ _ _ _ _ _ Hb), (body_not_found _ _ _ _ Hne Hget Hf).
    apply app_nil_r.
Qed.

End NamesMore.

Lemma official_stays_cached_witness :
  fst (official Sample.nicknames Sample.first_choice (mkCall [VStr "torys"] [])
         (run_calls Sample.nicknames Sample.first_choice (Sample.numbered_calls 127)
            (snd (official Sample.nicknames Sample.first_choice
                    (mkCall [VStr "torys"] []) initial_world))))
  = Ok (Some "Conservative and Unionist Party").
Proof.
  apply (official_stays_cached Sample.nicknames Sample.first_choice initial_world
           (mkCall [VStr "torys"] []) (Some "Conservative and Unionist Party")
           (Sample.numbered_calls 127)).
  - reflexivity.
  - vm_compute. lia.
Defined.

Lemma official_returns_table_names_witness :
  exists k, dict_get Sample.nicknames k = Some "Conservative and Unionist Party".
Proof.
  exact (official_returns_table_names Sample.nicknames Sample.first_choice
           [mkCall [VStr "labuor"] []] (mkCall [VStr "torys"] [])
           "Conservative and Unionist Party" eq_refl).
Defined.

Lemma official_not_found_without_fuzzy_witness :
  fst (official Sample.nicknames Sample.first_choice
         (mkCall [VStr " Torys"; VBool false] [])
         (run_calls Sample.nicknames Sample.first_choice
                    [mkCall [VStr "labuor"] []] initial_world))
  = Raise (PartyNameNotFound "torys").
Proof.
  apply (official_not_found_without_fuzzy Sample.nicknames Sample.first_choice
           [mkCall [VStr "labuor"] []] (mkCall [VStr " Torys"; VBool false] [])
           " Torys" (VBool false) (VBool true) (VBool false)).
  - reflexivity.
  - reflexivity.
  - vm_compute. discriminate.
  - reflexivity.
Defined.

(** *** The normal form of a nickname *)

Module NormalForm.
Import PyStr.

Lemma lower_char_twice c : lower_char (lower_char c) = lower_char c.
Proof. destruct c as [[] [] [] [] [] [] [] []]; reflexivity. Qed.

Lemma lower_twice s : lower (lower s) = lower s.
Proof. induction s as [|c r IH]; simpl; [reflexivity|]. now rewrite IH, lower_char_twice. Qed.

Lemma lstrip_clean s : starts_clean (lstrip s) = true.
Proof.
  induction s as [|c r IH]; simpl; [reflexivity|].
  destruct (isspace c) eqn:E; [exact IH|]. simpl. now rewrite E.
Qed.

Lemma lstrip_of_clean s : starts_clean s = true -> lstrip s = s.
Proof.
  destruct s as [|c r]; simpl; [reflexivity|].
  intros H. apply negb_true_iff in H. now rewrite H.
Qed.

Lemma rstrip_clean s : starts_clean s = true -> starts_clean (rstrip s) = true.
Proof.
  destruct s as [|c r]; simpl; [reflexivity|].
  intros H. destruct (rstrip r); simpl; [|exact H].
  apply negb_true_iff in H. rewrite H. simpl. now rewrite H.
Qed.

Lemma rstrip_twice s : rstrip (rstrip s) = rstrip s.
Proof.
  induction s as [|c r IH]; simpl; [reflexivity|].
  destruct (rstrip r) as [|d r'] eqn:E.
  - destruct (isspace c) eqn:Ec; simpl; [reflexivity|]. now rewrite Ec.
  - simpl in *. rewrite IH. reflexivity.
Qed.

Lemma strip_twice s : strip (strip s) = strip s.
Proof.
  unfold strip.
  rewrite (lstrip_of_clean (rstrip (lstrip s)))
    by (apply rstrip_clean, lstrip_clean).
  apply rstrip_twice.
Qed.

(** The lower-cased and trimmed form is its own such form. *)
Lemma normal_form_fixed s : strip (lower (strip (lower s))) = strip (lower s).
Proof. now rewrite <- StripFacts.strip_lower, lower_twice, strip_twice. Qed.

End NormalForm.

(** X10.  After any calls, two nicknames with the same lower-cased and
    trimmed form get the same value or exception from [names.official],
    the other arguments being the same; the lower-cased and trimmed form
    of a nickname is one such nickname. *)
Theorem official_up_to_case_and_blanks
        (PARTY_NICKNAMES : dict string)
        (extractOne : string -> list string -> option (string * Z))
        (history : list call) (c c' : call) (s s' : string) (f w e : pyvalue) :
  bind_arguments c = Some (VStr s, f, w, e) ->
  bind_arguments c' = Some (VStr s', f, w, e) ->
  PyStr.strip (PyStr.lower s) = PyStr.strip (PyStr.lower s') ->
  fst (official PARTY_NICKNAMES extractOne c
         (run_calls PARTY_NICKNAMES extractOne history initial_world))
  = fst (official PARTY_NICKNAMES extractOne c'
           (run_calls PARTY_NICKNAMES extractOne history initial_world))
  /\ PyStr.strip (PyStr.lower (PyStr.strip (PyStr.lower s)))
     = PyStr.strip (PyStr.lower s).
Proof.
  intros Hc Hc' Hn. split; [|apply NormalForm.normal_form_fixed].
  rewrite !(official_result _ _ _ _ (sound_after _ _ history)).
  rewrite (wrapped_bound _ _ _ _ _ _ _ Hc), (wrapped_bound _ _ _ _ _ _ _ Hc').
  unfold official__wrapped__. cbn [isna]. cbv zeta. now rewrite Hn.
Qed.

Lemma official_up_to_case_and_blanks_witness :
  fst (official Sample.nicknames Sample.first_choice (mkCall [VStr "  TORY "] [])
         initial_world)
  = fst (official Sample.nicknames Sample.first_choice (mkCall [VStr "tory"] [])
           initial_world).
Proof.
  exact (proj1 (official_up_to_case_and_blanks
                  Sample.nicknames Sample.first_choice []
                  (mkCall [VStr "  TORY "] []) (mkCall [VStr "tory"] [])
                  "  TORY " "tory" (VBool true) (VBool true) (VBool false)
                  eq_refl eq_refl eq_refl)).
Defined.

(** ** data_tables.py and the functions on its tables *)

Module TableFacts.
Import SeatsFacts.

Lemma set_nicknames_get official ns : forall d k name,
  dict_get (set_nicknames official ns d) k = Some name ->
  (name = official /\ PyStr.lower k = k) \/ dict_get d k = Some name.
Proof.
  induction ns as [|n r IH]; intros d k name H; simpl in H; [now right|].
  apply IH in H as [H|H]; [now left|].
  rewrite dict_get_set in H.
  destruct (String.eqb_spec (PyStr.lower n) k) as [<-|Hk]; [|now right].
  injection H as <-. left. split; [reflexivity|apply NormalForm.lower_twice].
Qed.

Lemma nicknames_row_fit rows row t t' :
  tables_fit rows t -> nicknames_row row t = Ok t' -> tables_fit (rows ++ [row]) t'.
Proof.
  intros [Hn Hs]. unfold nicknames_row.
  destruct row as [|row0 [|row1 others]]; try discriminate.
  intros [= <-]. unfold tables_fit. cbn [fst snd].
  set (official := PyStr.strip row0). set (short_ := PyStr.strip row1).
  assert (Hnew : exists sh, dict_get (dict_set (PyStr.lower official) short_ (snd t))
                                     (PyStr.lower official) = Some sh).
  { exists short_. now rewrite dict_get_set, String.eqb_refl. }
  assert (Hold : forall name,
             (exists sh, dict_get (snd t) (PyStr.lower name) = Some sh) ->
             exists sh, dict_get (dict_set (PyStr.lower official) short_ (snd t))
                                 (PyStr.lower name) = Some sh).
  { intros name [sh Hsh]. rewrite dict_get_set.
    destruct (PyStr.lower official =? PyStr.lower name); eauto. }
  split.
  - intros k name H. apply set_nicknames_get in H as [[-> Hk]|H]; [now split|].
    rewrite !dict_get_set in H.
    destruct (String.eqb_spec (PyStr.lower official) k) as [<-|_].
    { injection H as <-. split; [exact Hnew|apply NormalForm.lower_twice]. }
    destruct (String.eqb_spec (PyStr.lower short_) k) as [<-|_].
    { injection H as <-. split; [exact Hnew|apply NormalForm.lower_twice]. }
    destruct (Hn k name H) as [Hsh Hk]. split; [now apply Hold|exact Hk].
  - intros k sh H. rewrite dict_get_set in H.
    destruct (String.eqb_spec (PyStr.lower official) k) as [<-|_].
    + exists (row0 :: row1 :: others). split; [apply in_or_app; right; now left|].
      reflexivity.
    + destruct (Hs k sh H) as (row & Hin & Hk). exists row.
      split; [apply in_or_app; now left|exact Hk].
Qed.

Lemma nicknames_rows_fit rows : forall done t t',
  tables_fit done t -> nicknames_rows rows t = Ok t' -> tables_fit (done ++ rows) t'.
Proof.
  induction rows as [|row r IH]; intros done t t' Hfit; simpl.
  - intros [= <-]. now rewrite app_nil_r.
  - destruct (nicknames_row row t) as [t1|e] eqn:E; [|discriminate]. cbn [rbind].
    intros H. replace (done ++ row :: r) with ((done ++ [row]) ++ r)
      by (now rewrite <- app_assoc).
    apply (IH _ t1); [|exact H]. now apply (nicknames_row_fit done row t).
Qed.

Lemma nicknames_rows_result rows : forall t,
  (forall e, nicknames_rows rows t = Raise e -> e = IndexError)
  /\ ((exists t', nicknames_rows rows t = Ok t')
      <-> Forall (fun row => (2 <= length row)%nat) rows).
Proof.
  induction rows as [|row r IH]; intros t; simpl.
  - split; [discriminate|]. split; [constructor|now eexists].
  - destruct row as [|row0 [|row1 others]]; cbn [nicknames_row rbind].
    + split; [now intros e [= <-]|]. split; [intros [t' H]; discriminate|].
      intros H. inversion H; subst. simpl in *. lia.
    + split; [now intros e [= <-]|]. split; [intros [t' H]; discriminate|].
      intros H. inversion H; subst. simpl in *. lia.
    + match goal with |- context [nicknames_rows r ?x] => destruct (IH x) as [He Hok] end.
      split; [exact He|]. rewrite Hok. split.
      * intros H. constructor; [simpl; lia|exact H].
      * intros H. now inversion H.
Qed.

(** The dictionary of a two-column file holds the second cell of the last
    row for each first cell. *)
Lemma csv_rows_get rows : forall d d' k,
  csv_rows_to_dict rows d = Ok d' ->
  dict_get d' k
  = match last_matching (fun row => hd EmptyString row =? k) rows with
    | Some row => Some (nth 1 row EmptyString)
    | None => dict_get d k
    end.
Proof.
  induction rows as [|row r IH]; intros d d' k; simpl.
  - now intros [= <-].
  - destruct row as [|rows0 [|rows1 more]]; try discriminate.
    intros H. rewrite (IH _ _ k H).
    destruct (last_matching _ r); [reflexivity|].
    simpl. rewrite dict_get_set. now destruct (rows0 =? k).
Qed.

Lemma csv_rows_result rows : forall d,
  (forall e, csv_rows_to_dict rows d = Raise e -> e = IndexError)
  /\ ((exists d', csv_rows_to_dict rows d = Ok d')
      <-> Forall (fun row => (2 <= length row)%nat) rows).
Proof.
  induction rows as [|row r IH]; intros d; simpl.
  - split; [discriminate|]. split; [constructor|now eexists].
  - destruct row as [|rows0 [|rows1 more]].
    + split; [now intros e [= <-]|]. split; [intros [t' H]; discriminate|].
      intros H. inversion H; subst. simpl in *. lia.
    + split; [now intros e [= <-]|]. split; [intros [t' H]; discriminate|].
      intros H. inversion H; subst. simpl in *. lia.
    + destruct (IH (dict_set rows0 rows1 d)) as [He Hok].
      split; [exact He|]. rewrite Hok. split.
      * intros H. constructor; [simpl; lia|exact H].
      * intros H. now inversion H.
Qed.

End TableFacts.

(** X11.  Reading the nicknames file succeeds exactly when every row has
    at least two cells; a shorter row, an empty line among them, ends the
    reading in [IndexError], and no other exception is raised. *)
Theorem read_nicknames_file_rows (rows : list (list string)) :
  (forall e, read_nicknames_file rows = Raise e -> e = IndexError)
  /\ ((exists tables, read_nicknames_file rows = Ok tables)
      <-> Forall (fun row => (2 <= length row)%nat) rows).
Proof.
  unfold read_nicknames_file.
  destruct (TableFacts.nicknames_rows_result rows ([], [])) as [He Hok].
  destruct (nicknames_rows rows ([], [])) as [t|e] eqn:E; cbn [rbind].
  - split; [discriminate|]. rewrite <- Hok. split; intros _; now eexists.
  - split; [exact He|]. rewrite <- Hok.
    split; intros [t H]; discriminate.
Qed.

(** X12.  In the tables read from a nicknames file every key of the
    nickname table is in lower case, ["green party"] maps to
    ["Green Party"] whatever the file says, and every name found under
    another key has a short name: [names.short] returns for it. *)
Theorem read_nicknames_file_tables
        (rows : list (list string)) (nicknames_to_official official_to_short : dict string) :
  read_nicknames_file rows = Ok (nicknames_to_official, official_to_short) ->
  dict_get nicknames_to_official "green party" = Some "Green Party"
  /\ (forall k name,
        dict_get nicknames_to_official k = Some name ->
        PyStr.lower k = k
        /\ (k <> "green party" ->
            exists sh, short official_to_short (Some name) = Ok (Some sh))).
Proof.
  unfold read_nicknames_file.
  destruct (nicknames_rows rows ([], [])) as [t|e] eqn:E; [|discriminate].
  cbn [rbind]. intros [= <- <-].
  assert (Hfit : tables_fit ([] ++ rows) t).
  { apply (TableFacts.nicknames_rows_fit rows [] ([], [])); [|exact E].
    split; intros k x H; discriminate. }
  destruct Hfit as [Hn _].
  split; [now rewrite SeatsFacts.dict_get_set, String.eqb_refl|].
  intros k name H. rewrite SeatsFacts.dict_get_set in H.
  destruct (String.eqb_spec "green party" k) as [<-|Hk].
  - split; [reflexivity|congruence].
  - destruct (Hn k name H) as [[sh Hsh] Hlow]. split; [exact Hlow|].
    intros _. exists sh. unfold short. now rewrite Hsh.
Qed.

Lemma read_nicknames_file_tables_witness :
  dict_get (dict_set "green party" "Green Party"
              [("labour", "Labour Party"); ("labour party", "Labour Party")])
           "green party"
  = Some "Green Party".
Proof.
  exact (proj1 (read_nicknames_file_tables
                  [[" Labour Party "; "Labour"]]
                  (dict_set "green party" "Green Party"
                     [("labour", "Labour Party"); ("labour party", "Labour Party")])
                  [("labour party", "Labour")] eq_refl)).
Defined.

Section TopLevelFacts.

Variable extractOne : string -> list string -> option (string * Z).

(** X13.  With the tables of a nicknames file, after any calls of the
    resolver: when [names.official] returns a name other than the
    hand-set ["Green Party"] for a nickname, [find_party] with
    [return_short_name] returns a short name for it and does not raise. *)
Theorem find_party_short_name
        (rows : list (list string)) (nicknames_to_official official_to_short : dict string)
        (history : list call) (nickname allow_fuzzy : pyvalue) (name : string) :
  read_nicknames_file rows = Ok (nicknames_to_official, official_to_short) ->
  fst (official nicknames_to_official extractOne
         (mkCall [nickname] [("allow_fuzzy_match", allow_fuzzy)])
         (run_calls nicknames_to_official extractOne history initial_world))
  = Ok (Some name) ->
  name <> "Green Party" ->
  exists sh,
    fst (find_party nicknames_to_official extractOne official_to_short
           nickname (VBool true) allow_fuzzy
           (run_calls nicknames_to_official extractOne history initial_world))
    = Ok (Some sh)
    /\ dict_get official_to_short (PyStr.lower name) = Some sh.
Proof.
  intros Hread Hoff Hname.
  pose proof Hoff as Hin.
  rewrite (official_result _ _ _ _ (sound_after _ _ history)) in Hin.
  apply wrapped_some in Hin as [k Hk].
  unfold read_nicknames_file in Hread.
  destruct (nicknames_rows rows ([], [])) as [t|e] eqn:E; [|discriminate].
  cbn [rbind] in Hread. injection Hread as <- <-.
  assert (Hfit : tables_fit ([] ++ rows) t).
  { apply (TableFacts.nicknames_rows_fit rows [] ([], [])); [|exact E].
    split; intros k' x H; discriminate. }
  destruct Hfit as [Hn _].
  rewrite SeatsFacts.dict_get_set in Hk.
  destruct ("green party" =? k); [congruence|].
  destruct (Hn k name Hk) as [[sh Hsh] _].
  exists sh. split; [|exact Hsh].
  unfold find_party, bind.
  destruct (official _ _ _ _) as [r w']. cbn [fst] in Hoff. subst r.
  cbn [truthy]. unfold lift, short. cbn [fst]. now rewrite Hsh.
Qed.

(** X14.  With the tables of a nicknames file none of whose rows has
    ["green party"] as its lower-cased official name, [find_party] asked
    for the short name of a nickname whose lower-cased and trimmed form
    is ["green party"] raises [PartyNameNotFound], while without
    [return_short_name] it returns ["Green Party"]. *)
Theorem find_party_green_party
        (rows : list (list string)) (nicknames_to_official official_to_short : dict string)
        (history : list call) (s : string) (allow_fuzzy : pyvalue) :
  read_nicknames_file rows = Ok (nicknames_to_official, official_to_short) ->
  Forall (fun row => row_key row <> "green party") rows ->
  PyStr.strip (PyStr.lower s) = "green party" ->
  fst (find_party nicknames_to_official extractOne official_to_short
         (VStr s) (VBool false) allow_fuzzy
         (run_calls nicknames_to_official extractOne history initial_world))
  = Ok (Some "Green Party")
  /\ fst (find_party nicknames_to_official extractOne official_to_short
            (VStr s) (VBool true) allow_fuzzy
            (run_calls nicknames_to_official extractOne history initial_world))
     = Raise (PartyNameNotFound "green party").
Proof.
  intros Hread Hrows Hs.
  assert (Hoff : fst (official nicknames_to_official extractOne
                        (mkCall [VStr s] [("allow_fuzzy_match", allow_fuzzy)])
                        (run_calls nicknames_to_official extractOne history
                                   initial_world))
                 = Ok (Some "Green Party")).
  { rewrite (official_result _ _ _ _ (sound_after _ _ history)).
    rewrite (wrapped_bound _ _ _ (VStr s) allow_fuzzy (VBool true) (VBool false))
      by reflexivity.
    rewrite (body_exact _ _ s _ _ _ "Green Party"); [reflexivity| |].
    - rewrite Hs. discriminate.
    - rewrite Hs. unfold read_nicknames_file in Hread.
      destruct (nicknames_rows rows ([], [])) as [t|e]; [|discriminate].
      cbn [rbind] in Hread. injection Hread as <- _.
      now rewrite SeatsFacts.dict_get_set, String.eqb_refl. }
  assert (Hnone : dict_get official_to_short "green party" = None).
  { unfold read_nicknames_file in Hread.
    destruct (nicknames_rows rows ([], [])) as [t|e] eqn:E; [|discriminate].
    cbn [rbind] in Hread. injection Hread as _ <-.
    assert (Hfit : tables_fit ([] ++ rows) t).
    { apply (TableFacts.nicknames_rows_fit rows [] ([], [])); [|exact E].
      split; intros k' x H; discriminate. }
    destruct Hfit as [_ Hshort].
    destruct (dict_get (snd t) "green party") as [sh|] eqn:Eg; [|reflexivity].
    destruct (Hshort _ _ Eg) as (row & Hin & Hkey). simpl in Hin.
    rewrite Forall_forall in Hrows. apply Hrows in Hin. congruence. }
  unfold find_party, bind.
  destruct (official _ _ _ _) as [r w']. cbn [fst] in Hoff. subst r.
  cbn [truthy]. split; [reflexivity|].
  unfold lift, short. cbn [fst].
  change (PyStr.lower "Green Party") with "green party". now rewrite Hnone.
Qed.

(** The resolver raises no [NoColorForThisParty]. *)
Lemma official_never_no_color
      (PARTY_NICKNAMES : dict string) (history : list call) (c : call) :
  raises_no_color
    (fst (official PARTY_NICKNAMES extractOne c
            (run_calls PARTY_NICKNAMES extractOne history initial_world)))
  = false.
Proof.
  rewrite (official_result _ _ _ _ (sound_after _ _ history)).
  unfold call_wrapped.
  destruct (bind_arguments c) as [[[[n f] w] e]|]; [|reflexivity].
  unfold official__wrapped__.
  destruct (isna n); [now destruct (truthy e)|].
  destruct n as [| |s|b]; try reflexivity.
  destruct (Nat.eqb _ 0); [reflexivity|].
  destruct (dict_get PARTY_NICKNAMES (PyStr.strip (PyStr.lower s))); [reflexivity|].
  destruct (truthy f); [|reflexivity].
  destruct (extractOne _ _) as [[m sc]|]; [|reflexivity].
  destruct (dict_get PARTY_NICKNAMES m); [|reflexivity].
  now destruct (truthy w).
Qed.

(** X15.  When every official name of the nickname table has a colour in
    the colour table, [uk_politics.color] never raises
    [NoColorForThisParty], after any calls of the resolver, for any
    argument and any warnings filter: a name that [names.official]
    returns, by exact or by fuzzy match, has a colour, which [color]
    returns, unless the name is ["Green Party"] and the filter raises its
    warning; [None] from the resolver gives [None], and an exception of
    the resolver is raised as it is. *)
Theorem color_of_every_name
        (PARTY_NICKNAMES PARTY_COLORS : dict string) (history : list call)
        (action : warning_action) (nickname : pyvalue) :
  names_have_colors PARTY_NICKNAMES PARTY_COLORS = true ->
  let w := run_calls PARTY_NICKNAMES extractOne history initial_world in
  let resolved := fst (official PARTY_NICKNAMES extractOne (mkCall [nickname] []) w) in
  let result :=
    fst (color PARTY_NICKNAMES extractOne PARTY_COLORS action nickname w) in
  raises_no_color result = false
  /\ (forall name,
        resolved = Ok (Some name) ->
        exists c,
          In (name, c) PARTY_COLORS
          /\ result = if (name =? "Green Party")
                      then match action with
                           | ActionError => Raise UKPoliticsWarning
                           | _ => Ok (Some c)
                           end
                      else Ok (Some c))
  /\ (resolved = Ok None -> result = Ok None)
  /\ (forall e, resolved = Raise e -> result = Raise e).
Proof.
  intros Hcover w resolved result.
  pose proof (official_never_no_color PARTY_NICKNAMES history (mkCall [nickname] []))
    as Hnever.
  assert (Hsome : forall name,
             resolved = Ok (Some name) ->
             exists c, dict_get PARTY_COLORS name = Some c).
  { intros name Hres. unfold resolved, w in Hres.
    rewrite (official_result _ _ _ _ (sound_after _ _ history)) in Hres.
    apply wrapped_some in Hres as [k Hk].
    apply SeatsFacts.dict_get_In in Hk.
    unfold names_have_colors in Hcover. rewrite forallb_forall in Hcover.
    specialize (Hcover _ Hk). cbn [snd] in Hcover.
    destruct (dict_get PARTY_COLORS name) as [c|]; [now exists c|discriminate]. }
  fold w in Hnever. fold resolved in Hnever.
  unfold result, color, bind. unfold resolved in *.
  destruct (official PARTY_NICKNAMES extractOne (mkCall [nickname] []) w)
    as [[[name|]|e] w'] eqn:Eo; cbn [fst] in *.
  - destruct (Hsome name eq_refl) as [c Hc].
    rewrite by_official_party_name_unfold, Hc.
    split; [|split; [|split]].
    + destruct (name =? "Green Party"); [destruct action|]; reflexivity.
    + intros name' [= <-]. exists c. split; [now apply SeatsFacts.dict_get_In|].
      destruct (name =? "Green Party"); [destruct action|]; reflexivity.
    + discriminate.
    + discriminate.
  - split; [reflexivity|]. split; [discriminate|]. split; [reflexivity|discriminate].
  - split; [exact Hnever|]. split; [discriminate|]. split; [discriminate|].
    now intros e' [= <-].
Qed.

End TopLevelFacts.

Lemma color_of_every_name_witness :
  raises_no_color
    (fst (color Sample.nicknames Sample.first_choice Sample.colors_of_every_name
                ActionShow (VStr "torys")
                (run_calls Sample.nicknames Sample.first_choice
                           [mkCall [VStr "labuor"] []] initial_world)))
  = false.
Proof.
  exact (proj1 (color_of_every_name
                  Sample.first_choice Sample.nicknames Sample.colors_of_every_name
                  [mkCall [VStr "labuor"] []] ActionShow (VStr "torys") eq_refl)).
Defined.

(** With a name of the nickname table that has no colour, [color] does
    raise [NoColorForThisParty]. *)
Example color_without_colour :
  fst (color Sample.nicknames Sample.first_choice Sample.colors ActionShow
             (VStr "Tory") initial_world)
  = Raise (NoColorForThisParty "Conservative and Unionist Party").
Proof. reflexivity. Qed.

Lemma find_party_short_name_witness :
  exists sh,
    fst (find_party (dict_set "green party" "Green Party"
                       [("labour", "Labour Party"); ("labour party", "Labour Party")])
           Sample.first_choice [("labour party", "Labour")]
           (VStr "LABOUR") (VBool true) (VBool false) initial_world)
    = Ok (Some sh)
    /\ dict_get [("labour party", "Labour")] (PyStr.lower "Labour Party") = Some sh.
Proof.
  apply (find_party_short_name Sample.first_choice [[" Labour Party "; "Labour"]]
           (dict_set "green party" "Green Party"
              [("labour", "Labour Party"); ("labour party", "Labour Party")])
           [("labour party", "Labour")] [] (VStr "LABOUR") (VBool false) "Labour Party").
  - reflexivity.
  - reflexivity.
  - discriminate.
Defined.

Lemma find_party_green_party_witness :
  fst (find_party (fst (dict_set "green party" "Green Party"
                          [("labour", "Labour Party"); ("labour party", "Labour Party")],
                        [("labour party", "Labour")]))
         Sample.first_choice [("labour party", "Labour")]
         (VStr " Green PARTY") (VBool true) (VBool true) initial_world)
  = Raise (PartyNameNotFound "green party").
Proof.
  apply (proj2 (find_party_green_party Sample.first_choice [[" Labour Party "; "Labour"]]
                  (dict_set "green party" "Green Party"
                     [("labour", "Labour Party"); ("labour party", "Labour Party")])
                  [("labour party", "Labour")] [] " Green PARTY" (VBool true)
                  eq_refl
                  ltac:(repeat constructor; vm_compute; discriminate)
                  eq_refl)).
Defined.

(** X16.  Reading a two-column file succeeds exactly when every row has
    at least two cells, else it raises [IndexError]; in the dictionary
    read, a key has the second cell of the last row that starts with it,
    and a text that starts no row is not a key, so the colour looked up
    for a party is that of its last row. *)
Theorem read_csv_to_dict_last_row (rows : list (list string)) :
  (forall e, read_csv_to_dict rows = Raise e -> e = IndexError)
  /\ ((exists d, read_csv_to_dict rows = Ok d)
      <-> Forall (fun row => (2 <= length row)%nat) rows)
  /\ (forall d k,
        read_csv_to_dict rows = Ok d ->
        stored_color d (Some k)
        = match last_matching (fun row => hd EmptyString row =? k) rows with
          | Some row => Ok (Some (nth 1 row EmptyString))
          | None => Raise (NoColorForThisParty k)
          end).
Proof.
  unfold read_csv_to_dict.
  destruct (TableFacts.csv_rows_result rows []) as [He Hok].
  split; [exact He|]. split; [exact Hok|].
  intros d k H. unfold stored_color. rewrite (TableFacts.csv_rows_get rows [] d k H).
  now destruct (last_matching _ rows).
Qed.

Example read_csv_to_dict_colors :
  rbind (read_csv_to_dict SampleRows.color_rows)
        (fun d => stored_color d (Some "Labour Party"))
  = Ok (Some "#DC241F").
Proof. reflexivity. Qed.

(** ** elections.py: sorted sets, [ran], the dates *)

Section SortedSets.

Variable A : Type.
Variable leb : A -> A -> bool.
Variable eqb : A -> A -> bool.
Hypothesis leb_total : forall a b, leb a b = true \/ leb b a = true.
Hypothesis leb_trans : forall a b c, leb a b = true -> leb b c = true -> leb a c = true.
Hypothesis eqb_eq : forall a b, eqb a b = true <-> a = b.

Lemma insert_sorted_In x l y : In y (insert_sorted leb x l) <-> y = x \/ In y l.
Proof.
  induction l as [|z r IH]; simpl; [intuition|].
  destruct (leb x z); simpl; [intuition|]. rewrite IH. intuition.
Qed.

Lemma py_sorted_In l y : In y (py_sorted leb l) <-> In y l.
Proof.
  induction l as [|x r IH]; simpl; [tauto|].
  rewrite insert_sorted_In, IH. intuition.
Qed.

Lemma insert_sorted_sorted x l :
  StronglySorted (fun a b => leb a b = true) l ->
  StronglySorted (fun a b => leb a b = true) (insert_sorted leb x l).
Proof.
  induction l as [|z r IH]; simpl; intros H.
  - constructor; constructor.
  - inversion H as [|? ? Hr Hz]; subst.
    destruct (leb x z) eqn:E.
    + constructor; [exact H|]. constructor; [exact E|].
      rewrite Forall_forall in *. intros y Hy. eauto.
    + constructor; [now apply IH|].
      rewrite Forall_forall in *. intros y Hy.
      apply insert_sorted_In in Hy as [->|Hy]; [|now apply Hz].
      destruct (leb_total x z); congruence.
Qed.

Lemma py_sorted_sorted l : StronglySorted (fun a b => leb a b = true) (py_sorted leb l).
Proof.
  induction l as [|x r IH]; simpl; [constructor|]. now apply insert_sorted_sorted.
Qed.

Lemma insert_sorted_NoDup x l : ~ In x l -> NoDup l -> NoDup (insert_sorted leb x l).
Proof.
  induction l as [|z r IH]; simpl; intros Hx Hnd.
  - constructor; [tauto|constructor].
  - destruct (leb x z); [constructor; simpl; assumption|].
    inversion Hnd; subst. constructor.
    + rewrite insert_sorted_In. intuition.
    + apply IH; [tauto|assumption].
Qed.

Lemma py_sorted_NoDup l : NoDup l -> NoDup (py_sorted leb l).
Proof.
  induction l as [|x r IH]; simpl; intros H; [constructor|].
  inversion H; subst. apply insert_sorted_NoDup; [|now apply IH].
  now rewrite py_sorted_In.
Qed.

Lemma py_set_add_In x s y : In y (py_set_add eqb x s) <-> y = x \/ In y s.
Proof.
  induction s as [|z r IH]; simpl; [intuition|].
  destruct (eqb z x) eqn:E; simpl.
  - apply eqb_eq in E. subst. intuition.
  - rewrite IH. intuition.
Qed.

Lemma py_set_add_NoDup x s : NoDup s -> NoDup (py_set_add eqb x s).
Proof.
  induction s as [|z r IH]; simpl; intros H.
  - constructor; [tauto|constructor].
  - destruct (eqb z x) eqn:E; [exact H|].
    inversion H; subst. constructor; [|now apply IH].
    rewrite py_set_add_In. intros [->|Hin]; [|contradiction].
    assert (eqb x x = true) by now apply eqb_eq. congruence.
Qed.

Lemma py_set_fold l : forall acc,
  NoDup acc ->
  NoDup (fold_left (fun s x => py_set_add eqb x s) l acc)
  /\ forall y, In y (fold_left (fun s x => py_set_add eqb x s) l acc)
               <-> In y acc \/ In y l.
Proof.
  induction l as [|x r IH]; intros acc H; simpl; [intuition|].
  destruct (IH (py_set_add eqb x acc) (py_set_add_NoDup x acc H)) as [Hnd Hin].
  split; [exact Hnd|]. intros y. rewrite Hin, py_set_add_In. intuition.
Qed.

Lemma py_set_spec l :
  NoDup (py_set eqb l) /\ forall y, In y (py_set eqb l) <-> In y l.
Proof.
  destruct (py_set_fold l [] (NoDup_nil A)) as [Hnd Hin].
  split; [exact Hnd|]. intros y. unfold py_set. rewrite Hin. simpl. tauto.
Qed.

(** A sorted list without repetition is strictly sorted. *)
Lemma sorted_strict (l : list A) :
  StronglySorted (fun a b => leb a b = true) l -> NoDup l ->
  StronglySorted (fun a b => leb a b = true /\ a <> b) l.
Proof.
  induction l as [|x r IH]; intros Hs Hnd; [constructor|].
  inversion Hs; subst. inversion Hnd; subst. constructor; [now apply IH|].
  rewrite Forall_forall in *. intros y Hy. split; [auto|]. intros ->. contradiction.
Qed.

(** The sorted set of a list: strictly ascending, the same members. *)
Lemma sorted_set_spec l :
  StronglySorted (fun a b => leb a b = true /\ a <> b) (py_sorted leb (py_set eqb l))
  /\ forall y, In y (py_sorted leb (py_set eqb l)) <-> In y l.
Proof.
  destruct (py_set_spec l) as [Hnd Hin]. split.
  - apply sorted_strict; [apply py_sorted_sorted|now apply py_sorted_NoDup].
  - intros y. now rewrite py_sorted_In, Hin.
Qed.

(** [max]: a member that no member exceeds. *)
Lemma py_max_spec l m :
  py_max leb l = Some m -> In m l /\ forall y, In y l -> leb y m = true.
Proof.
  unfold py_max. destruct l as [|first rest]; [discriminate|]. intros [= <-].
  revert first. induction rest as [|x r IH]; intros first; simpl.
  - split; [now left|]. intros y [<-|[]]. destruct (leb_total first first); assumption.
  - destruct (IH (if leb x first then first else x)) as [Hin Hmax]. split.
    + destruct Hin as [Hb|Hin]; [|now right; right].
      rewrite <- Hb. destruct (leb x first); [now left|right; now left].
    + intros y [<-|[<-|Hy]].
      * destruct (leb x first) eqn:E; [apply Hmax; now left|].
        apply (leb_trans _ x); [destruct (leb_total first x); congruence|].
        apply Hmax. now left.
      * destruct (leb x first) eqn:E; [|apply Hmax; now left].
        apply (leb_trans _ first); [exact E|apply Hmax; now left].
      * apply Hmax. now right.
Qed.

End SortedSets.

Module OrderFacts.

Lemma compare_same a : forall b, String.compare a b = String_as_OT.compare a b.
Proof.
  induction a as [|x a IH]; intros [|y b]; simpl; try reflexivity.
Qed.

Lemma string_leb_trans a b c :
  String.leb a b = true -> String.leb b c = true -> String.leb a c = true.
Proof.
  unfold String.leb.
  destruct (String.compare a b) eqn:Eab; try discriminate;
    destruct (String.compare b c) eqn:Ebc; try discriminate; intros _ _.
  - apply String.compare_eq_iff in Eab. subst a. now rewrite Ebc.
  - apply String.compare_eq_iff in Eab. subst a. now rewrite Ebc.
  - apply String.compare_eq_iff in Ebc. subst c. now rewrite Eab.
  - rewrite compare_same in *.
    assert (H : String_as_OT.compare a c = Lt)
      by (exact (RelationClasses.StrictOrder_Transitive
                   (R := String_as_OT.lt) a b c Eab Ebc)).
    now rewrite H.
Qed.

Lemma string_strict a b : String.leb a b = true /\ a <> b -> String.ltb a b = true.
Proof.
  unfold String.leb, String.ltb. intros [H Hne].
  destruct (String.compare a b) eqn:E; try reflexivity; try discriminate.
  apply String.compare_eq_iff in E. contradiction.
Qed.

Lemma date_eqb_eq a b : date_eqb a b = true <-> a = b.
Proof.
  unfold date_eqb. rewrite !andb_true_iff, !Z.eqb_eq.
  destruct a, b; simpl. split; [intros [[-> ->] ->]; reflexivity|].
  intros [= -> -> ->]. auto.
Qed.

Lemma date_eqb_sym a b : date_eqb a b = date_eqb b a.
Proof. unfold date_eqb. now rewrite (Z.eqb_sym (year a)), (Z.eqb_sym (month a)), (Z.eqb_sym (day a)). Qed.

Lemma date_leb_iff a b :
  date_leb a b = true <->
  (year a < year b
   \/ (year a = year b
       /\ (month a < month b \/ (month a = month b /\ day a <= day b))))%Z.
Proof.
  unfold date_leb.
  rewrite !orb_true_iff, !andb_true_iff, !orb_true_iff, !andb_true_iff,
    !Z.ltb_lt, !Z.eqb_eq, Z.leb_le. tauto.
Qed.

Lemma date_leb_total a b : date_leb a b = true \/ date_leb b a = true.
Proof. rewrite !date_leb_iff. lia. Qed.

Lemma date_leb_trans a b c :
  date_leb a b = true -> date_leb b c = true -> date_leb a c = true.
Proof. rewrite !date_leb_iff. lia. Qed.

Lemma date_strict a b : date_leb a b = true /\ a <> b -> date_ltb a b = true.
Proof.
  intros [H Hne]. unfold date_ltb. rewrite H. simpl.
  destruct (date_eqb a b) eqn:E; [|reflexivity].
  apply date_eqb_eq in E. contradiction.
Qed.

Lemma sorted_weaken {A} (R R' : A -> A -> Prop) l :
  (forall a b, R a b -> R' a b) -> StronglySorted R l -> StronglySorted R' l.
Proof.
  intros H. induction 1; constructor; [assumption|].
  rewrite Forall_forall in *. auto.
Qed.

End OrderFacts.

Module RanFacts.

Lemma ge_any e b : __ge__ (mkLocation None None None None None e) b = Ok true.
Proof.
  destruct (LocationFacts.ge_total (mkLocation None None None None None e) b) as [r Hr].
  rewrite Hr. unfold __ge__, _contains_loc_as_raw_string in Hr. cbn in Hr. congruence.
Qed.

Lemma selects_any d e c :
  selects d (mkLocation None None None None None e) c = date_eqb d (date c).
Proof. unfold selects, ge_bool. rewrite ge_any. apply OrderFacts.date_eqb_sym. Qed.

(** [ran], in one expression. *)
Lemma ran_unfold COUNTS d location_filter :
  ran COUNTS d location_filter
  = Ok (py_sorted String.leb
          (py_set String.eqb
             (map party (filter (selects d (filter_or_any location_filter)) COUNTS)))).
Proof.
  unfold ran. destruct location_filter as [f|]; cbn [filter_or_any].
  - rewrite (SeatsFacts.filter_result_ok _ (selects d f)); [reflexivity|].
    intros c. rewrite SeatsFacts.ge_bool_spec. cbn [rbind]. unfold selects.
    now rewrite (OrderFacts.date_eqb_sym d).
  - do 4 f_equal. apply filter_ext. intros c. symmetry. apply selects_any.
Qed.

Lemma empty_iff {A} (l : list A) : l = [] <-> forall x, ~ In x l.
Proof.
  destruct l as [|x r]; split; try tauto; try discriminate.
  intros H. exfalso. apply (H x). now left.
Qed.

End RanFacts.

(** The members of the list of [ran]. *)
Lemma ran_sorted_members_aux
      (COUNTS : list VoteTotal) (d : datetime_date) (location_filter : option Location) :
  exists parties,
    ran COUNTS d location_filter = Ok parties
    /\ forall p, In p parties
                 <-> exists c, In c COUNTS
                               /\ selects d (filter_or_any location_filter) c = true
                               /\ party c = p.
Proof.
  rewrite RanFacts.ran_unfold. eexists. split; [reflexivity|].
  destruct (sorted_set_spec string String.leb String.eqb
              String.leb_total OrderFacts.string_leb_trans String.eqb_eq
              (map party (filter (selects d (filter_or_any location_filter)) COUNTS)))
    as [_ Hin].
  intros p. rewrite Hin, in_map_iff. split.
  - intros (c & Hp & Hc). apply filter_In in Hc as [Hc Hsel]. now exists c.
  - intros (c & Hc & Hsel & Hp). exists c. split; [exact Hp|]. now apply filter_In.
Qed.

(** X17.  [ran] never raises; the list it returns is in strictly
    ascending order of the names, so without repetition, and holds
    exactly the parties of the records of the date whose location the
    filter matches (every location when no filter is given). *)
Theorem ran_sorted_members
        (COUNTS : list VoteTotal) (d : datetime_date) (location_filter : option Location) :
  exists parties,
    ran COUNTS d location_filter = Ok parties
    /\ StronglySorted (fun a b => String.ltb a b = true) parties
    /\ forall p, In p parties
                 <-> exists c, In c COUNTS
                               /\ selects d (filter_or_any location_filter) c = true
                               /\ party c = p.
Proof.
  rewrite RanFacts.ran_unfold. eexists. split; [reflexivity|].
  destruct (sorted_set_spec string String.leb String.eqb
              String.leb_total OrderFacts.string_leb_trans String.eqb_eq
              (map party (filter (selects d (filter_or_any location_filter)) COUNTS)))
    as [Hs Hin].
  split.
  - exact (OrderFacts.sorted_weaken _ _ _ OrderFacts.string_strict Hs).
  - intros p. rewrite Hin, in_map_iff. split.
    + intros (c & Hp & Hc). apply filter_In in Hc as [Hc Hsel]. now exists c.
    + intros (c & Hc & Hsel & Hp). exists c. split; [exact Hp|]. now apply filter_In.
Qed.

(** X18.  [ran] without a filter gives the same list as [ran] with the
    filter that has no string field set. *)
Theorem ran_without_filter
        (COUNTS : list VoteTotal) (d : datetime_date) (e : option Z) :
  ran COUNTS d None = ran COUNTS d (Some (mkLocation None None None None None e)).
Proof.
  rewrite !RanFacts.ran_unfold. cbn [filter_or_any].
  rewrite (filter_ext (selects d (mkLocation None None None None None None))
                      (selects d (mkLocation None None None None None e)));
    [reflexivity|].
  intros c. now rewrite !RanFacts.selects_any.
Qed.

(** X19.  For the same date and filter, every party [seats] returns as a
    winner is in the list [ran] returns, and [seats] returns no pair
    exactly when [ran] returns no party. *)
Theorem seats_winners_ran
        (COUNTS : list VoteTotal) (d : datetime_date) (location_filter : option Location) :
  exists out parties,
    seats COUNTS d location_filter = Ok out
    /\ ran COUNTS d location_filter = Ok parties
    /\ (forall loc p, In (loc, p) out -> In p parties)
    /\ (out = [] <-> parties = []).
Proof.
  destruct (ran_sorted_members_aux COUNTS d location_filter) as (parties & Hran & Hmem).
  rewrite SeatsFacts.seats_unfold, Hran. cbv zeta.
  set (f := filter_or_any location_filter) in *.
  set (counts := filter (selects d f) COUNTS).
  destruct (SeatsFacts.set_of_list_spec (map location counts)) as (_ & Hin & Hrepr).
  eexists. exists parties. split; [reflexivity|]. split; [reflexivity|]. split.
  - intros loc p Hout. apply in_map_iff in Hout as (l & [= -> <-] & Hl).
    destruct (SeatsFacts.winner_at_votes COUNTS d f loc Hl) as (v & Hv & _).
    unfold recorded_votes in Hv.
    destruct (last_matching _ COUNTS) as [c|] eqn:Ec; [|discriminate].
    apply SeatsFacts.last_matching_Some in Ec as [Hc Ht].
    apply andb_true_iff in Ht as [Ht Hp]. apply andb_true_iff in Ht as [Hsel _].
    apply String.eqb_eq in Hp. apply Hmem. now exists c.
  - rewrite !RanFacts.empty_iff. split.
    + intros Hout p Hp. apply Hmem in Hp as (c & Hc & Hsel & _).
      assert (Hr : In (repr (location c)) (map repr (map location counts))).
      { apply in_map, in_map, filter_In. now split. }
      apply Hrepr in Hr. apply in_map_iff in Hr as (l & _ & Hl).
      apply (Hout (l, winner_at counts l)).
      apply in_map_iff. now exists l.
    + intros Hp [loc p] Hout. apply in_map_iff in Hout as (l & [= -> <-] & Hl).
      apply Hin in Hl. apply in_map_iff in Hl as (c & _ & Hc).
      apply filter_In in Hc as [Hc Hsel].
      apply (Hp (party c)). apply Hmem. now exists c.
Qed.

(** ** elections.py: the records read from the lines *)

Section LineMore.

Variable PARTY_NICKNAMES : dict string.
Variable extractOne : string -> list string -> option (string * Z).
Variable strptime_date : string -> option datetime_date.

Abbreviation read_line' :=
  (_vote_line_to_object PARTY_NICKNAMES extractOne strptime_date).
Abbreviation continue_with' :=
  (after_relabelling PARTY_NICKNAMES extractOne strptime_date).
Abbreviation read_all :=
  (read_counts PARTY_NICKNAMES extractOne strptime_date).
Abbreviation resolve label :=
  (official PARTY_NICKNAMES extractOne
            (mkCall [label] [("warn_on_fuzzy_match", VBool true)])).

Lemma read_line_unfold line w :
  read_line' line w
  = match from_raw_string (line0 line) with
    | Ok loc => continue_with' line loc (relabelled_label loc (line2 line)) w
    | Raise e => (Raise e, w)
    end.
Proof.
  unfold _vote_line_to_object, bind at 1, lift at 1.
  now destruct (from_raw_string (line0 line)).
Qed.

Lemma continue_world line loc label w :
  snd (continue_with' line loc label w) = snd (resolve label w).
Proof.
  unfold after_relabelling, bind at 1.
  destruct (resolve label w) as [[[name|]|e] w']; cbn [snd]; [| |reflexivity].
  - unfold bind, lift, ret.
    destruct (strptime_date (line1 line)); [|reflexivity].
    now destruct (int_of_cell (line3 line)).
  - unfold bind, lift, raise. now destruct (join_line line).
Qed.

Lemma read_line_sound line w :
  cache_sound PARTY_NICKNAMES extractOne (cache w) ->
  cache_sound PARTY_NICKNAMES extractOne (cache (snd (read_line' line w))).
Proof.
  intros Hs. rewrite read_line_unfold.
  destruct (from_raw_string (line0 line)); [|exact Hs].
  rewrite continue_world. now apply cache_sound_official.
Qed.

Lemma continue_ok line loc label w v w' :
  continue_with' line loc label w = (Ok v, w') ->
  location v = loc
  /\ strptime_date (line1 line) = Some (date v)
  /\ int_of_cell (line3 line) = Ok (votes v)
  /\ party_contemporary_styling v = label
  /\ fst (resolve label w) = Ok (Some (party v)).
Proof.
  unfold after_relabelling, bind at 1.
  destruct (resolve label w) as [[[name|]|e] w1]; cbn [fst]; [| |discriminate].
  - unfold bind, lift, ret.
    destruct (strptime_date (line1 line)) as [d|]; [|discriminate].
    destruct (int_of_cell (line3 line)) as [n|e]; [|discriminate].
    intros [= <- _]. cbn. auto.
  - unfold bind, lift, raise. destruct (join_line line); discriminate.
Qed.

Lemma read_line_ok line w v w' :
  read_line' line w = (Ok v, w') ->
  record_of_line strptime_date line v
  /\ fst (resolve (party_contemporary_styling v) w) = Ok (Some (party v)).
Proof.
  rewrite read_line_unfold.
  destruct (from_raw_string (line0 line)) as [loc|e] eqn:El; [|discriminate].
  intros H. apply continue_ok in H as (Hl & Hd & Hn & Hp & Hr).
  unfold record_of_line. rewrite Hl, Hp. auto.
Qed.

Lemma relabels_label loc label label' :
  Spec.relabels (country loc) label label' -> relabelled_label loc label = label'.
Proof.
  intros Hrel. unfold relabelled_label.
  inversion Hrel as [Hc Hl|Hc Hl|Hc Hl|Hc Hl|c Hs Hn Hc Hl|c l Hp Hg Hc Hl];
    subst; try rewrite <- Hc; try reflexivity.
  - change (eq_str (VStr "Green") "PC/SNP") with false.
    change (eq_str (VStr "Green") "Green") with true. cbv iota.
    now rewrite (opt_eq_str_false _ _ Hs), (opt_eq_str_false _ _ Hn).
  - now rewrite (eq_str_false _ _ Hp), (eq_str_false _ _ Hg).
Qed.

Lemma body_some_string n f w e name :
  fst (official__wrapped__ PARTY_NICKNAMES extractOne n f w e) = Ok (Some name) ->
  exists s, n = VStr s.
Proof.
  unfold official__wrapped__.
  destruct (isna n); [destruct (truthy e); discriminate|].
  destruct n as [| |s|b]; try discriminate. intros _. now exists s.
Qed.

(** X20.  A record read from a line after any calls of the resolver has
    the location, the date and the votes read from the line, carries as
    contemporary styling a string, the one the relabelling rules give,
    and has as party the name [names.official] returns for that
    string. *)
Theorem read_line_record
        (history : list call) (line : raw_line) (v : VoteTotal) (w' : world) :
  read_line' line (run_calls PARTY_NICKNAMES extractOne history initial_world)
  = (Ok v, w') ->
  record_of_line strptime_date line v
  /\ fst (resolve (party_contemporary_styling v)
                  (run_calls PARTY_NICKNAMES extractOne history initial_world))
     = Ok (Some (party v))
  /\ (exists s, party_contemporary_styling v = VStr s)
  /\ (forall label, Spec.relabels (country (location v)) (line2 line) label ->
                    party_contemporary_styling v = label).
Proof.
  intros H. apply read_line_ok in H as [Hrec Hres].
  split; [exact Hrec|]. split; [exact Hres|]. split.
  - rewrite (official_result _ _ _ _ (sound_after _ _ history)) in Hres.
    unfold call_wrapped in Hres.
    cbn [bind_arguments bind_positional args kwds bind_keywords
         bind_keyword String.eqb Ascii.eqb Bool.eqb with_default] in Hres.
    now apply body_some_string in Hres.
  - intros label Hrel. destruct Hrec as (_ & _ & _ & Hp). rewrite Hp.
    now apply relabels_label.
Qed.

Lemma read_all_never_unreadable lines : forall w,
  cache_sound PARTY_NICKNAMES extractOne (cache w) ->
  raises_unreadable (fst (read_all lines w)) = false.
Proof.
  induction lines as [|line rest IH]; intros w Hs; [reflexivity|].
  cbn [read_counts]. unfold bind at 1.
  pose proof (read_line_never_unreadable PARTY_NICKNAMES extractOne strptime_date
                line w) as Hline.
  pose proof (read_line_sound line w Hs) as Hs'.
  destruct (read_line' line w) as [[v|e] w1]; cbn [fst snd] in *.
  - unfold bind at 1. specialize (IH w1 Hs').
    destruct (read_all rest w1) as [[vs|e] w2]; cbn [fst] in *; [reflexivity|exact IH].
  - destruct e; try reflexivity. exfalso. exact (Hline _ _ Hs eq_refl).
Qed.

(** X21.  Reading the lines of the results file, after any calls of the
    resolver, never ends in [DataLineUnreadable], whatever the lines. *)
Theorem read_counts_never_unreadable (history : list call) (lines : list raw_line) :
  raises_unreadable
    (fst (read_all lines (run_calls PARTY_NICKNAMES extractOne history initial_world)))
  = false.
Proof. apply read_all_never_unreadable, sound_after. Qed.

(** X22.  When the lines are read to the end there is one record for
    each line, in the order of the lines, each with the location, date
    and votes of its line; the location of every record has no delimiter
    in its fields and is read back from its canonical string as it
    is. *)
Theorem read_counts_records (lines : list raw_line) (w w' : world) (vs : list VoteTotal) :
  read_all lines w = (Ok vs, w') ->
  Forall2 (record_of_line strptime_date) lines vs
  /\ Forall (fun v => fields_without_delimiter (location v) = true
                      /\ from_raw_string (repr (location v)) = Ok (location v)) vs.
Proof.
  revert w w' vs. induction lines as [|line rest IH]; intros w w' vs.
  - intros [= <- _]. split; constructor.
  - cbn [read_counts]. unfold bind at 1.
    destruct (read_line' line w) as [[v|e] w1] eqn:El; [|discriminate].
    unfold bind at 1.
    destruct (read_all rest w1) as [[vs'|e] w2] eqn:Er; [|discriminate].
    intros [= <- _]. destruct (IH _ _ _ Er) as [H2 Hall].
    apply read_line_ok in El as [Hrec _].
    split; constructor; try assumption.
    destruct Hrec as (Hloc & _).
    destruct (from_raw_string_plain _ _ Hloc) as (Hd & _ & Hr). now split.
Qed.

End LineMore.

Lemma read_line_record_witness :
  exists s,
    party_contemporary_styling
      (mkVoteTotal Sample.gower Sample.election_day
                   "Green Party of England and Wales"
                   (VStr "Green Party of England and Wales") 1000)
    = VStr s.
Proof.
  exact (proj1 (proj2 (proj2
    (read_line_record
       (("green party of england and wales", "Green Party of England and Wales")
          :: Sample.nicknames)
       Sample.first_choice Sample.one_day []
       (mkLine "*|GOWER|West Glamorgan|Wales|Wales|61762" "2019-12-12"
               (VStr "Green") (VotesInt 1000))
       (mkVoteTotal Sample.gower Sample.election_day
                    "Green Party of England and Wales"
                    (VStr "Green Party of England and Wales") 1000)
       _ eq_refl)))).
Defined.

Lemma read_counts_records_witness :
  Forall2 (record_of_line Sample.one_day) SampleRows.lines
          [mkVoteTotal Sample.gower Sample.election_day "Labour Party"
                       (VStr "Labour") 20208;
           mkVoteTotal Sample.gower Sample.election_day
                       "Conservative and Unionist Party" (VStr "Tory") 18371].
Proof.
  exact (proj1 (read_counts_records Sample.nicknames Sample.first_choice Sample.one_day
                  SampleRows.lines initial_world _ _ eq_refl)).
Defined.

(** ** elections.py: the dates *)

Lemma dates_sorted_set (COUNTS : list VoteTotal) :
  StronglySorted (fun a b => date_leb a b = true /\ a <> b) (DATES COUNTS)
  /\ forall d, In d (DATES COUNTS) <-> In d (map date COUNTS).
Proof.
  exact (sorted_set_spec datetime_date date_leb date_eqb
           OrderFacts.date_leb_total OrderFacts.date_leb_trans OrderFacts.date_eqb_eq
           (map date COUNTS)).
Qed.

(** X23.  [DATES] is in strictly ascending order, so without repetition,
    and holds exactly the dates of the records. *)
Theorem dates_ascending (COUNTS : list VoteTotal) :
  StronglySorted (fun a b => date_ltb a b = true) (DATES COUNTS)
  /\ forall d, In d (DATES COUNTS) <-> exists c, In c COUNTS /\ date c = d.
Proof.
  destruct (dates_sorted_set COUNTS) as [Hs Hin]. split.
  - exact (OrderFacts.sorted_weaken _ _ _ OrderFacts.date_strict Hs).
  - intros d. rewrite Hin, in_map_iff. split; intros (c & H1 & H2); exists c; auto.
Qed.

(** X24.  With no record there is no most recent election date: taking
    the maximum raises [ValueError].  With at least one record the most
    recent election date is the date of a record, no record has a later
    date, and [seats] for that date without a filter returns at least
    one pair. *)
Theorem most_recent_election_date (first : VoteTotal) (rest : list VoteTotal) :
  MOST_RECENT_ELECTION_DATE [] = Raise ValueError
  /\ exists d out,
       MOST_RECENT_ELECTION_DATE (first :: rest) = Ok d
       /\ (exists c, In c (first :: rest) /\ date c = d)
       /\ (forall c, In c (first :: rest) -> date_leb (date c) d = true)
       /\ seats (first :: rest) d None = Ok out
       /\ out <> [].
Proof.
  split; [reflexivity|].
  set (COUNTS := first :: rest).
  destruct (dates_sorted_set COUNTS) as [_ Hin].
  unfold MOST_RECENT_ELECTION_DATE.
  destruct (py_max date_leb (DATES COUNTS)) as [d|] eqn:Em.
  - destruct (py_max_spec datetime_date date_leb OrderFacts.date_leb_total
                OrderFacts.date_leb_trans _ _ Em) as [Hd Hmax].
    apply Hin in Hd. apply in_map_iff in Hd as (c & Hc & Hcin).
    exists d. eexists. split; [reflexivity|]. split; [now exists c|]. split.
    + intros c' Hc'. apply Hmax, Hin. now apply in_map.
    + split; [exact (SeatsFacts.seats_unfold _ _ _)|].
      set (counts := filter (selects d (filter_or_any None)) COUNTS).
      destruct (SeatsFacts.set_of_list_spec (map location counts)) as (_ & _ & Hrepr).
      assert (Hr : In (repr (location c)) (map repr (map location counts))).
      { apply in_map, in_map, filter_In. split; [exact Hcin|].
        unfold filter_or_any. rewrite RanFacts.selects_any.
        apply OrderFacts.date_eqb_eq. now symmetry. }
      apply Hrepr in Hr. apply in_map_iff in Hr as (l & _ & Hl).
      intros Hempty. apply map_eq_nil in Hempty. rewrite Hempty in Hl. destruct Hl.
  - exfalso.
    assert (H : In (date first) (DATES COUNTS)) by (apply Hin; now left).
    unfold py_max in Em. destruct (DATES COUNTS); [destruct H|discriminate].
Qed.

Lemma seats_winner_attains_maximum_witness :
  Spec.attains_maximum
    [mkVoteTotal Sample.gower Sample.election_day "Labour Party" (VStr "Lab") 100;
     mkVoteTotal Sample.gower Sample.election_day "Conservative and Unionist Party"
                 (VStr "Con") 50]
    Sample.election_day (filter_or_any None) Sample.gower "Labour Party".
Proof.
  apply (seats_winner_attains_maximum
           [mkVoteTotal Sample.gower Sample.election_day "Labour Party" (VStr "Lab") 100;
            mkVoteTotal Sample.gower Sample.election_day
                        "Conservative and Unionist Party" (VStr "Con") 50]
           Sample.election_day None [(Sample.gower, "Labour Party")]).
  - reflexivity.
  - simpl. left. reflexivity.
  - vm_compute. constructor.
    + simpl. intros [H|[]]. discriminate.
    + constructor; [intros []|constructor].
Defined.
